(** * SQL Database Projects tooling: shallow embedding and checked properties

    Three fragments are embedded:
    - [NetCoreTool] (locating the .NET Core SDK, the version check, the
      install prompt, running a streamed command),
    - [ServerTreeDragAndDrop] (drag and drop in the server tree),
    - [NotebookViewsCardComponent] (the width and height getters).

    Asynchronous code is embedded as explicit state passing: what the
    outside world does during a call (the events a child process emits, the
    button the user presses) is an argument of the embedded function, and
    what the call does to the outside world is recorded in an effect log. *)

From Stdlib Require Import ZArith NArith List String Ascii Bool Lia.
From stdpp Require Import base option strings gmap pretty.
Import ListNotations.

Local Open Scope string_scope.
Local Open Scope list_scope.

(** ** JavaScript strings

    A string is embedded as the [string] of the bytes of its text in
    UTF-8. [split] and [join] only look at ASCII separators, on which bytes
    and UTF-16 code units agree; [trim] and [length] read the characters
    through their encodings. *)

Module JsString.

(** Puts a character in front of the first piece. *)
Definition cons_head (c : ascii) (pieces : list string) : list string :=
  match pieces with
  | [] => [String c EmptyString]
  | piece :: pieces' => String c piece :: pieces'
  end.

(** [String.prototype.split] with a one-character separator: the empty
    string gives one empty piece, and empty pieces are kept. *)
Fixpoint split_on (sep : ascii) (s : string) : list string :=
  match s with
  | EmptyString => [EmptyString]
  | String c rest =>
      if Ascii.eqb c sep then EmptyString :: split_on sep rest
      else cons_head c (split_on sep rest)
  end.

(** The part before the first [sep], and the part after it when there is
    one. *)
Fixpoint cut_at (sep : ascii) (s : string) : string * option string :=
  match s with
  | EmptyString => (EmptyString, None)
  | String c rest =>
      if Ascii.eqb c sep then (EmptyString, Some rest)
      else let '(before, after) := cut_at sep rest in (String c before, after)
  end.

(** The text of the given bytes. *)
Definition bytes (codes : list nat) : string :=
  fold_right (fun code s => String (ascii_of_nat code) s) EmptyString codes.

(** The characters removed by [String.prototype.trim], the WhiteSpace and
    LineTerminator code points of ECMAScript, each as its bytes in UTF-8:
    TAB, LF, VT, FF, CR, space, U+00A0, U+1680, U+2000 to U+200A, U+2028,
    U+2029, U+202F, U+205F, U+3000 and U+FEFF. *)
Definition white_space : list string :=
  map bytes
    [[9]; [10]; [11]; [12]; [13]; [32];
     [194; 160];
     [225; 154; 128];
     [226; 128; 128]; [226; 128; 129]; [226; 128; 130]; [226; 128; 131];
     [226; 128; 132]; [226; 128; 133]; [226; 128; 134]; [226; 128; 135];
     [226; 128; 136]; [226; 128; 137]; [226; 128; 138];
     [226; 128; 168]; [226; 128; 169];
     [226; 128; 175];
     [226; 129; 159];
     [227; 128; 128];
     [239; 187; 191]].

(** [s] without the prefix [p], when it starts with it. *)
Fixpoint strip_prefix (p s : string) : option string :=
  match p, s with
  | EmptyString, _ => Some s
  | String a p', String b s' => if Ascii.eqb a b then strip_prefix p' s' else None
  | String _ _, EmptyString => None
  end.

(** [s] without the first of [chars] that it starts with. *)
Fixpoint strip_one (chars : list string) (s : string) : option string :=
  match chars with
  | [] => None
  | w :: chars' =>
      match strip_prefix w s with
      | Some rest => Some rest
      | None => strip_one chars' s
      end
  end.

(** [s] without its longest prefix made of [chars]; a text has no more
    characters than bytes, which bounds the steps. *)
Fixpoint strip_all (chars : list string) (steps : nat) (s : string) : string :=
  match steps with
  | O => s
  | S steps' =>
      match strip_one chars s with
      | Some rest => strip_all chars steps' rest
      | None => s
      end
  end.

Definition trim_start (s : string) : string :=
  strip_all white_space (String.length s) s.

Definition trim_end (s : string) : string :=
  String.rev (strip_all (map String.rev white_space) (String.length s) (String.rev s)).

(** [String.prototype.trim] *)
Definition trim (s : string) : string := trim_end (trim_start s).

(** [String.prototype.length], the number of UTF-16 code units: one for
    each character of one to three bytes, two for each of four bytes. *)
Fixpoint utf16_length (s : string) : nat :=
  match s with
  | EmptyString => 0
  | String c rest =>
      let n := nat_of_ascii c in
      (if (n <? 128)%nat then 1
       else if (n <? 192)%nat then 0
       else if (n <? 240)%nat then 1
       else 2)
      + utf16_length rest
  end.

(** *** Texts, as a specification words them *)

(** The pieces put one after the other with [sep] between them. *)
Fixpoint joined (sep : ascii) (pieces : list string) : string :=
  match pieces with
  | [] => EmptyString
  | [piece] => piece
  | piece :: rest => piece +:+ String sep (joined sep rest)
  end.

(** A text made of [chars] only. *)
Inductive made_of (chars : list string) : string -> Prop :=
| made_of_nothing : made_of chars EmptyString
| made_of_more w s : In w chars -> made_of chars s -> made_of chars (w +:+ s).

(** A text of white space. *)
Definition white (s : string) : Prop := made_of white_space s.

(** Characters that strip cleanly: none is empty, and a text that starts
    with one of them loses exactly that one. *)
Definition strips_cleanly (chars : list string) : Prop :=
  forall w rest, In w chars -> w <> EmptyString /\ strip_one chars (w +:+ rest) = Some rest.

Definition CR : ascii := ascii_of_nat 13.
Definition LF : ascii := ascii_of_nat 10.

(** [String.prototype.split(/\r?\n/)]: a line ends at LF, or at CR LF;
    a CR that is not followed by LF stays in its line. *)
Fixpoint split_lines (s : string) : list string :=
  match s with
  | EmptyString => [EmptyString]
  | String c rest =>
      if Ascii.eqb c LF then EmptyString :: split_lines rest
      else
        match rest with
        | String c' rest' =>
            if Ascii.eqb c CR && Ascii.eqb c' LF
            then EmptyString :: split_lines rest'
            else cons_head c (split_lines rest)
        | EmptyString => [String c EmptyString]
        end
  end.

End JsString.

(** ** The [semver] package, as far as [semver.gte] needs it

    [semver] is an npm package, not code of this repository. This is its
    strict (non loose) mode: [new SemVer(version)] throws a [TypeError] when
    [version] is not a string, is longer than 256 code units, does not match
    the FULL pattern after [trim], or has a component above
    [Number.MAX_SAFE_INTEGER]. A thrown [TypeError] is [None] here. *)

Module Semver.
Import JsString.

Definition MAX_LENGTH : nat := 256.
Definition MAX_SAFE_INTEGER : N := 9007199254740991.

Definition is_digit (c : ascii) : bool := ("0" <=? c)%char && (c <=? "9")%char.
Definition is_letter (c : ascii) : bool :=
  (("a" <=? c)%char && (c <=? "z")%char) || (("A" <=? c)%char && (c <=? "Z")%char).
(** The class [[0-9A-Za-z-]]. *)
Definition is_ident_char (c : ascii) : bool :=
  is_digit c || is_letter c || Ascii.eqb c "-".

Fixpoint all_chars (p : ascii -> bool) (s : string) : bool :=
  match s with
  | EmptyString => true
  | String c rest => p c && all_chars p rest
  end.

Definition nonempty (s : string) : bool :=
  match s with EmptyString => false | String _ _ => true end.

(** [s] has no character [c]. *)
Definition has_no (c : ascii) (s : string) : bool :=
  all_chars (fun x => negb (Ascii.eqb x c)) s.

(** The characters of the text of a version. *)
Definition is_version_char (c : ascii) : bool :=
  is_ident_char c || Ascii.eqb c "." || Ascii.eqb c "+".

(** Value of a string of decimal digits. *)
Fixpoint digits_value (acc : N) (s : string) : N :=
  match s with
  | EmptyString => acc
  | String c rest => digits_value (10 * acc + (N_of_ascii c - 48)) rest
  end.

(** NUMERICIDENTIFIER, [0|[1-9]\d*]. *)
Definition is_numeric_identifier (s : string) : bool :=
  match s with
  | EmptyString => false
  | String "0" EmptyString => true
  | String c rest => is_digit c && negb (Ascii.eqb c "0") && all_chars is_digit rest
  end.

(** NONNUMERICIDENTIFIER, [\d*[a-zA-Z-][a-zA-Z0-9-]*]: identifier
    characters, not all of them digits. *)
Definition is_nonnumeric_identifier (s : string) : bool :=
  all_chars is_ident_char s && negb (all_chars is_digit s).

Definition is_prerelease_identifier (s : string) : bool :=
  is_numeric_identifier s || is_nonnumeric_identifier s.

(** BUILDIDENTIFIER, [[0-9A-Za-z-]+]. *)
Definition is_build_identifier (s : string) : bool :=
  nonempty s && all_chars is_ident_char s.

Record SemVer := mkSemVer {
  major : N;
  minor : N;
  patch : N;
  prerelease : list string;
  build : list string
}.

(** A component of the main version; above [MAX_SAFE_INTEGER] the
    constructor throws. *)
Definition component (s : string) : option N :=
  if is_numeric_identifier s then
    let n := digits_value 0 s in
    if (n <=? MAX_SAFE_INTEGER)%N then Some n else None
  else None.

(** An optional dot-separated part, all of whose identifiers satisfy [p]. *)
Definition identifiers (p : string -> bool) (part : option string) : option (list string) :=
  match part with
  | None => Some []
  | Some text =>
      let ids := split_on "." text in
      if forallb p ids then Some ids else None
  end.

(** The FULL pattern, [^v?MAIN(?:-PRERELEASE)?(?:\+BUILD)?$]: the build
    part starts at the first [+], the prerelease part at the first [-]
    before it. *)
Definition parse_full (s : string) : option SemVer :=
  let body := match s with String "v" rest => rest | _ => s end in
  let '(front, build_part) := cut_at "+" body in
  let '(main, prerelease_part) := cut_at "-" front in
  match split_on "." main with
  | [a; b; c] =>
      ma ← component a;
      mi ← component b;
      pa ← component c;
      pre ← identifiers is_prerelease_identifier prerelease_part;
      bld ← identifiers is_build_identifier build_part;
      Some (mkSemVer ma mi pa pre bld)
  | _ => None
  end.

(** [new SemVer(version)]; [version] is [None] for [undefined]. *)
Definition SemVer_new (version : option string) : option SemVer :=
  match version with
  | None => None
  | Some v =>
      if (MAX_LENGTH <? utf16_length v)%nat then None
      else parse_full (trim v)
  end.

Definition sign (c : comparison) : Z :=
  match c with Lt => -1 | Eq => 0 | Gt => 1 end.

(** [compareIdentifiers(a, b)] on numbers. *)
Definition compareNumbers (a b : N) : Z := sign (a ?= b)%N.

(** [compareIdentifiers(a, b)] on prerelease identifiers: numeric ones
    compare as numbers and come before the others, which compare as
    strings. Numeric identifiers are compared exactly here. *)
Definition compareIdentifiers (a b : string) : Z :=
  let anum := nonempty a && all_chars is_digit a in
  let bnum := nonempty b && all_chars is_digit b in
  if anum && bnum then compareNumbers (digits_value 0 a) (digits_value 0 b)
  else if String.eqb a b then 0
  else if anum && negb bnum then -1
  else if bnum && negb anum then 1
  else if String.ltb a b then -1 else 1.

(** [a || b] on comparison results. *)
Definition or_else (a b : Z) : Z := if (a =? 0)%Z then b else a.

Definition compareMain (a b : SemVer) : Z :=
  or_else (compareNumbers (major a) (major b))
    (or_else (compareNumbers (minor a) (minor b))
       (compareNumbers (patch a) (patch b))).

(** The loop of [comparePre] over both identifier lists. *)
Fixpoint comparePre_loop (a b : list string) : Z :=
  match a, b with
  | [], [] => 0
  | _ :: _, [] => 1
  | [], _ :: _ => -1
  | x :: a', y :: b' =>
      if String.eqb x y then comparePre_loop a' b' else compareIdentifiers x y
  end.

Definition comparePre (a b : SemVer) : Z :=
  match prerelease a, prerelease b with
  | _ :: _, [] => -1
  | [], _ :: _ => 1
  | [], [] => 0
  | pa, pb => comparePre_loop pa pb
  end.

Definition compare (a b : SemVer) : Z :=
  or_else (compareMain a b) (comparePre a b).

(** [semver.gte(a, b)]: [compare(a, b) >= 0], or a thrown [TypeError]. *)
Definition gte (a b : option string) : option bool :=
  va ← SemVer_new a;
  vb ← SemVer_new b;
  Some (0 <=? compare va vb)%Z.

(** *** Precedence, as the specification words it

    Versions are ordered by major, then minor, then patch; a version with a
    prerelease part comes before the release with the same three numbers. *)

Definition main_lt (a b : SemVer) : Prop :=
  (major a < major b)%N
  \/ (major a = major b /\ (minor a < minor b)%N)
  \/ (major a = major b /\ minor a = minor b /\ (patch a < patch b)%N).

Definition main_eq (a b : SemVer) : Prop :=
  major a = major b /\ minor a = minor b /\ patch a = patch b.

(** The text of a version: an optional [v], the three numbers in decimal
    with dots between them, then, when there are any, the prerelease
    identifiers after a [-] and the build identifiers after a [+], each
    list with dots between its identifiers. *)
Definition optional_part (mark : string) (identifiers : list string) : string :=
  match identifiers with
  | [] => EmptyString
  | _ :: _ => mark +:+ joined "." identifiers
  end.

Definition core_text (sv : SemVer) : string :=
  pretty (major sv) +:+ "." +:+ pretty (minor sv) +:+ "." +:+ pretty (patch sv)
  +:+ optional_part "-" (prerelease sv) +:+ optional_part "+" (build sv).

Definition version_text (s : string) (sv : SemVer) : Prop :=
  (s = core_text sv \/ s = "v" +:+ core_text sv)
  /\ (major sv <= MAX_SAFE_INTEGER)%N
  /\ (minor sv <= MAX_SAFE_INTEGER)%N
  /\ (patch sv <= MAX_SAFE_INTEGER)%N
  /\ Forall (fun id => is_prerelease_identifier id = true) (prerelease sv)
  /\ Forall (fun id => is_build_identifier id = true) (build sv).

(** [v] reads as the version [sv]: it has at most 256 code units and is
    the text of [sv] with white space around it. *)
Definition reads_as (v : string) (sv : SemVer) : Prop :=
  (utf16_length v <= MAX_LENGTH)%nat
  /\ exists lead body trail,
       v = lead +:+ body +:+ trail
       /\ white lead /\ white trail
       /\ version_text body sv.

(** [v >= floor], for a [floor] that is a release. *)
Definition at_least_release (v floor : SemVer) : Prop :=
  main_lt floor v \/ (main_eq v floor /\ prerelease v = []).

Definition version_3_1_0 : SemVer := mkSemVer 3 1 0 [] [].

End Semver.

(** ** JavaScript values read from the configuration *)

Inductive jsval :=
| JUndefined
| JBool (b : bool)
| JString (s : string).

Definition truthy (v : jsval) : bool :=
  match v with
  | JUndefined => false
  | JBool b => b
  | JString s => Semver.nonempty s
  end.

(** [a || b] *)
Definition js_or (a b : jsval) : jsval := if truthy a then a else b.

(** [a || b] at type [string | undefined]. *)
Definition or_undefined (a b : option string) : option string :=
  match a with
  | Some s => if Semver.nonempty s then a else b
  | None => b
  end.

Definition of_optional_string (o : option string) : jsval :=
  match o with Some s => JString s | None => JUndefined end.

(** [v === true] *)
Definition is_true (v : jsval) : bool :=
  match v with JBool true => true | _ => false end.

(** What a call can come to: a returned value (a resolved promise), a thrown
    error (a rejected promise), or a promise that is never settled. *)
Inductive outcome (A : Type) :=
| Returned (a : A)
| Threw (error : jsval)
| Never.
Arguments Returned {A} a.
Arguments Threw {A} error.
Arguments Never {A}.

(** ** netCoreTool.ts *)

Module NetCore.

Definition DBProjectConfigurationKey : string := "sqlDatabaseProjects".
Definition NetCoreInstallLocationKey : string := "netCoreSDKLocation".
Definition NetCoreDoNotAskAgainKey : string := "netCoreDoNotAsk".
Definition NextCoreNonWindowsDefaultPath : string := "/usr/local/share".
Definition winPlatform : string := "win32".
Definition macPlatform : string := "darwin".
Definition linuxPlatform : string := "linux".

(** The host: [os], [process.env], [fs] and [path] of Node. *)
Record Host := mkHost {
  os_platform : string;
  os_homedir : string;
  process_env : gmap string string;
  fs_existsSync : string -> bool;
  path_join : string -> string -> string
}.

(** [const dotnet = os.platform() === 'win32' ? 'dotnet.exe' : 'dotnet'] *)
Definition dotnet (host : Host) : string :=
  if String.eqb (os_platform host) "win32" then "dotnet.exe" else "dotnet".

Inductive netCoreFindError :=
| netCoreNotPresent
| netCoreVersionNotSupported
| noError.

Record DotNetCommandOptions := mkOptions {
  workingDirectory : option string;
  additionalEnvironmentVariables : option (gmap string string);
  commandTitle : option string;
  argument : option string
}.

(** The fields of a [NetCoreTool] instance. *)
Record NetCoreTool := mkTool {
  osPlatform : string;
  netCoreSdkInstalledVersion : option string;
  netCoreError : netCoreFindError
}.

(** [new NetCoreTool()] *)
Definition new_NetCoreTool (host : Host) : NetCoreTool :=
  mkTool (os_platform host) None noError.

(** What the code does to the outside world, in order. *)
Inductive effect :=
| Spawn (command : string) (cwd : option string) (env : option (gmap string string))
| ShowInformationMessage (message : string) (items : list string)
| ExecuteCommand (command : string)
| OpenExternal (url : string)
| ConfigUpdate (key : string) (value : jsval)
| ConsoleLog
| AppendLine (line : string)
| ChannelShow.

Record World := mkWorld {
  tool : NetCoreTool;
  (** the section [sqlDatabaseProjects] of the configuration *)
  configuration : gmap string jsval;
  effects : list effect
}.

Definition set_tool (t : NetCoreTool) (w : World) : World :=
  mkWorld t (configuration w) (effects w).
Definition set_netCoreError (e : netCoreFindError) (w : World) : World :=
  set_tool (mkTool (osPlatform (tool w)) (netCoreSdkInstalledVersion (tool w)) e) w.
Definition set_netCoreSdkInstalledVersion (v : string) (w : World) : World :=
  set_tool (mkTool (osPlatform (tool w)) (Some v) (netCoreError (tool w))) w.
Definition perform (e : effect) (w : World) : World :=
  mkWorld (tool w) (configuration w) (effects w ++ [e]).

(** [vscode.workspace.getConfiguration(DBProjectConfigurationKey)[key]] *)
Definition getConfiguration (w : World) (key : string) : jsval :=
  default JUndefined (configuration w !! key).

(** [config.update(key, value, ConfigurationTarget.Global)]; the value
    written is the one later reads see. *)
Definition config_update (key : string) (value : jsval) (w : World) : World :=
  perform (ConfigUpdate key value)
    (mkWorld (tool w) (<[key := value]> (configuration w)) (effects w)).

(** What a child process emits. *)
Inductive stream := Stdout | Stderr.
Inductive child_event :=
| Data (from : stream) (chunk : string)
| Exit (code : option Z) (signal : option string)
| Error.

Inductive promise (A : Type) :=
| Pending
| Resolved (a : A)
| Rejected (reason : jsval).
Arguments Pending {A}.
Arguments Resolved {A} a.
Arguments Rejected {A} reason.

(** The constants imported from [../common/constants]: the three buttons
    and the two messages of the install prompt. Their values play no part
    in the logic, so they are parameters. *)
Record Constants := mkConstants {
  UpdateNetCoreLocation : string;
  InstallNetCore : string;
  DoNotAskAgain : string;
  NetCoreInstallationConfirmation : string;
  NetCoreSupportedVersionInstallationConfirmation : option string -> string
}.

Section WithHost.
Variable host : Host.

Variable constants : Constants.

Definition getDotnetPathIfPresent (folderPath : option string) : option string :=
  match folderPath with
  | Some folder =>
      if fs_existsSync host (path_join host folder "dotnet")
      then Some (path_join host folder "dotnet")
      else None
  | None => None
  end.

Definition defaultWindowsLocation : option string :=
  or_undefined
    (or_undefined (getDotnetPathIfPresent (process_env host !! "ProgramW6432"))
       (getDotnetPathIfPresent (process_env host !! "ProgramFiles(x86)")))
    (getDotnetPathIfPresent (process_env host !! "ProgramFiles")).

Definition defaultnonWindowsLocation : option string :=
  let defaultNonWindowsInstallLocation := NextCoreNonWindowsDefaultPath in
  or_undefined
    (or_undefined (getDotnetPathIfPresent (Some defaultNonWindowsInstallLocation))
       (getDotnetPathIfPresent (Some (os_homedir host))))
    None.

Definition defaultLocalInstallLocationByDistribution (w : World) : option string :=
  if String.eqb (osPlatform (tool w)) winPlatform then defaultWindowsLocation
  else if String.eqb (osPlatform (tool w)) macPlatform
          || String.eqb (osPlatform (tool w)) linuxPlatform
       then defaultnonWindowsLocation
       else None.

Definition netcoreInstallLocation (w : World) : jsval :=
  js_or (getConfiguration w NetCoreInstallLocationKey)
    (of_optional_string (defaultLocalInstallLocationByDistribution w)).

(** [fs.existsSync] answers [false] for what is not a path. *)
Definition existsSync (v : jsval) : bool :=
  match v with
  | JString path => fs_existsSync host path
  | _ => false
  end.

Definition isNullOrUndefined (v : jsval) : bool :=
  match v with JUndefined => true | _ => false end.

Definition isNetCoreInstallationPresent (w : World) : bool * World :=
  let netCoreInstallationPresent :=
    negb (isNullOrUndefined (netcoreInstallLocation w))
    && existsSync (netcoreInstallLocation w) in
  (netCoreInstallationPresent,
   if netCoreInstallationPresent then w else set_netCoreError netCoreNotPresent w).


(** *** The version check

    [spawn('dotnet --version', [], { shell: true })] starts a shell; what
    the child then emits is the argument [events]. *)

(** The [data] listener on [child.stdout]. *)
Definition stdout_listener (data : string) (w : World) : World :=
  set_netCoreSdkInstalledVersion data w.

(** The [exit] listener of [onExit]: the value it resolves the promise
    with. [semver.gte] throws on a version it cannot read; the listener
    then ends without settling the promise ([None]). The exit code and
    the signal are not parameters of the listener. *)
Definition exit_listener (w : World) : option bool :=
  match Semver.gte (netCoreSdkInstalledVersion (tool w)) (Some "3.1.0") with
  | Some gte =>
      let isSupported := false in
      let isSupported := if gte then true else isSupported in
      Some isSupported
  | None => None
  end.

(** The promise of [onExit(child)], settled by the first [exit] or
    [error] event that settles it; the [data] listener registered by
    [isNetCoreVersionSupported] runs on the chunks that arrive before. An
    [exit] listener that throws leaves the promise pending, and the events
    after it are still delivered. The awaiting caller goes on as soon as
    the promise is settled, so later events are left out. *)
Fixpoint onExit (events : list child_event) (w : World) : promise bool * World :=
  match events with
  | [] => (Pending, w)
  | Data Stdout data :: rest => onExit rest (stdout_listener data w)
  | Data Stderr _ :: rest => onExit rest w
  | Exit _ _ :: rest =>
      match exit_listener w with
      | Some isSupported => (Resolved isSupported, w)
      | None => onExit rest w
      end
  | Error :: _ => (Rejected JUndefined, w)
  end.

Definition isNetCoreVersionSupported (events : list child_event) (w : World)
  : outcome (option bool) * World :=
  let w := perform (Spawn "dotnet --version" None None) w in
  match onExit events w with
  | (Resolved isSupported, w) =>
      (Returned (Some isSupported),
       if isSupported then w else set_netCoreError netCoreVersionNotSupported w)
  | (Rejected _, w) => (Returned None, perform ConsoleLog w)
  | (Pending, w) => (Never, w)
  end.

(** *** The install prompt

    [result] is what [showInformationMessage] resolves to: the button
    pressed, or [None] when the message is dismissed. The call that follows
    the answer ([executeCommand], [openExternal] or [config.update]) is
    taken to be fulfilled. *)
Definition showInstallDialog (result : option string) (w : World) : World :=
  let message :=
    match netCoreError (tool w) with
    | netCoreNotPresent => NetCoreInstallationConfirmation constants
    | _ => NetCoreSupportedVersionInstallationConfirmation constants
             (netCoreSdkInstalledVersion (tool w))
    end in
  let w := perform (ShowInformationMessage message
                      [UpdateNetCoreLocation constants; InstallNetCore constants;
                       DoNotAskAgain constants]) w in
  match result with
  | Some result =>
      if String.eqb result (UpdateNetCoreLocation constants) then
        perform (ExecuteCommand "workbench.action.openGlobalSettings") w
      else if String.eqb result (InstallNetCore constants) then
        let dotnetcoreURL := "https://dotnet.microsoft.com/download/dotnet-core/3.1" in
        perform (OpenExternal dotnetcoreURL) w
      else if String.eqb result (DoNotAskAgain constants) then
        config_update NetCoreDoNotAskAgainKey (JBool true) w
      else w
  | None => w
  end.

(** [!v] for [v : boolean | undefined] *)
Definition not_supported (v : option bool) : bool :=
  match v with Some true => false | _ => true end.

(** *** The gate *)
Definition findOrInstallNetCore (events : list child_event) (result : option string)
    (w : World) : outcome bool * World :=
  let w := set_netCoreError noError w in
  let '(present, w) := isNetCoreInstallationPresent w in
  let '(missing_or_unsupported, w) :=
    if negb present then (Returned true, w)
    else
      match isNetCoreVersionSupported events w with
      | (Returned v, w) => (Returned (not_supported v), w)
      | (Threw e, w) => (Threw e, w)
      | (Never, w) => (Never, w)
      end in
  match missing_or_unsupported with
  | Returned true =>
      if negb (is_true (getConfiguration w NetCoreDoNotAskAgainKey))
      then (Returned false, showInstallDialog result w)
      else (Returned true, w)
  | Returned false => (Returned true, w)
  | Threw e => (Threw e, w)
  | Never => (Never, w)
  end.

(** *** Running a streamed command *)

Definition outputDataChunk (data header : string) (w : World) : World :=
  fold_left (fun w line => perform (AppendLine (header +:+ line)) w)
    (JsString.split_lines data) w.

(** The messages are those of the default (English) bundle of
    [localize]; it prints a [null] argument as the word null. *)
Definition stdout_header : string := "    stdout: ".
Definition stderr_header : string := "    stderr: ".
Definition exited_with_code (command : string) (code : Z) : string :=
  "    >>> " +:+ command +:+ "    … exited with code: " +:+ pretty code.
Definition exited_with_signal (command : string) (signal : option string) : string :=
  "    >>> " +:+ command +:+ "   … exited with signal: " +:+ default "null" signal.

(** The three listeners of [runStreamedCommand]; the state is the array
    [stdoutData] and the world. *)
Definition streamed_listener (command : string) (st : list string * World)
    (e : child_event) : list string * World :=
  let '(stdoutData, w) := st in
  match e with
  | Exit (Some code) _ => (stdoutData, perform (AppendLine (exited_with_code command code)) w)
  | Exit None signal => (stdoutData, perform (AppendLine (exited_with_signal command signal)) w)
  | Data Stdout data => (stdoutData ++ [data], outputDataChunk data stdout_header w)
  | Data Stderr data => (stdoutData, outputDataChunk data stderr_header w)
  | Error => (stdoutData, w)
  end.

(** [events] are the events the child emits until the promise [child]
    of [promisify-child-process] is settled, and [child] is how it is
    settled. *)
Definition runStreamedCommand (command : string) (options : option DotNetCommandOptions)
    (events : list child_event) (child : promise unit) (w : World)
  : outcome string * World :=
  let stdoutData : list string := [] in
  let w := perform (AppendLine ("    > " +:+ command)) w in
  let cwd := options ≫= workingDirectory in
  let env :=
    match options ≫= additionalEnvironmentVariables with
    | Some additional => additional ∪ process_env host
    | None => process_env host
    end in
  let w := perform (Spawn command cwd (Some env)) w in
  let w := perform ChannelShow w in
  let '(stdoutData, w) := fold_left (streamed_listener command) events (stdoutData, w) in
  match child with
  | Resolved _ => (Returned (String.concat "" stdoutData), w)
  | Rejected error => (Threw error, w)
  | Pending => (Never, w)
  end.

End WithHost.

(** *** Reading the effect log *)

Definition add_effects (more : list effect) (w : World) : World :=
  mkWorld (tool w) (configuration w) (effects w ++ more).

Definition is_dialog (e : effect) : bool :=
  match e with ShowInformationMessage _ _ => true | _ => false end.
Definition is_spawn (e : effect) : bool :=
  match e with Spawn _ _ _ => true | _ => false end.

Definition dialogs_shown (log : list effect) : nat := length (List.filter is_dialog log).
Definition processes_spawned (log : list effect) : nat := length (List.filter is_spawn log).

(** Whether the gate finds an installation: the value of the getter
    [isNetCoreInstallationPresent]. *)
Definition installation_present (host : Host) (w : World) : bool :=
  fst (isNetCoreInstallationPresent host w).

(** *** Discovery, as the specification words it

    The first of the directories named by the variables [vars], in that
    order, whose join with [leaf] exists on disk; the result is that joined
    path. *)
Definition first_joined_path (host : Host) (leaf : string) (vars : list string)
  : option string :=
  head (List.filter (fs_existsSync host)
          (map (fun folder => path_join host folder leaf)
             (omap (fun var => process_env host !! var) vars))).

Definition windows_variables : list string :=
  ["ProgramW6432"; "ProgramFiles(x86)"; "ProgramFiles"].

(** *** Streamed output, as the specification words it *)

Definition stdout_chunks (events : list child_event) : list string :=
  omap (fun e => match e with Data Stdout chunk => Some chunk | _ => None end) events.

Definition is_stderr (e : child_event) : bool :=
  match e with Data Stderr _ => true | _ => false end.

Definition without_stderr (events : list child_event) : list child_event :=
  List.filter (fun e => negb (is_stderr e)) events.

Definition prefixed_lines (header chunk : string) : list effect :=
  map (fun line => AppendLine (header +:+ line)) (JsString.split_lines chunk).

(** What one event of the child adds to the output channel. *)
Definition channel_output (command : string) (e : child_event) : list effect :=
  match e with
  | Data Stdout chunk => prefixed_lines stdout_header chunk
  | Data Stderr chunk => prefixed_lines stderr_header chunk
  | Exit (Some code) _ => [AppendLine (exited_with_code command code)]
  | Exit None signal => [AppendLine (exited_with_signal command signal)]
  | Error => []
  end.

(** The chunks of both streams as events, in arrival order. *)
Definition chunk_events (chunks : list (stream * string)) : list child_event :=
  map (fun c => Data (fst c) (snd c)) chunks.

End NetCore.


(** ** Drag and drop in the server tree *)

Module ServerTree.

(** [ConnectionGroup] and [ConnectionProfile] are imported classes; the
    embedding keeps the members that the handlers read. *)
#[warnings="-register-all"]
Inductive ConnectionGroup :=
| mkGroup (id : string) (name : string) (parent : option ConnectionGroup).

Definition group_id (g : ConnectionGroup) : string :=
  match g with mkGroup id _ _ => id end.
Definition group_name (g : ConnectionGroup) : string :=
  match g with mkGroup _ name _ => name end.
Definition group_getParent (g : ConnectionGroup) : option ConnectionGroup :=
  match g with mkGroup _ _ parent => parent end.

Record ConnectionProfile := mkProfile {
  profile_id : string;
  serverName : string;
  profile_getParent : option ConnectionGroup
}.

(** Any other object of the tree: the properties the handlers may read, and
    its [getParent] method when it has one. *)
Record Object := mkObject {
  object_id : option string;
  object_name : option string;
  object_getParent : option (option ConnectionGroup)
}.

(** An element handed to the handlers, typed [any] in the source. *)
Inductive element :=
| Profile (p : ConnectionProfile)
| Group (g : ConnectionGroup)
| Other (o : Object)
| Nothing.

(** The value of [getTargetGroup]: typed [ConnectionGroup], it is whatever
    the cast lets through. *)
Inductive target_group :=
| TGroup (g : ConnectionGroup)
| TOther (o : Object)
| TUndefined.

Inductive IDragOverReaction :=
| DRAG_OVER_REJECT
| DRAG_OVER_ACCEPT_BUBBLE_DOWN (autoExpand : bool).

(** What the handlers use from elsewhere: the connection management
    service, two methods of [ConnectionGroup], and a constant. *)
Record Services := mkServices {
  canChangeConnectionConfig : ConnectionProfile -> option string -> bool;
  equals : ConnectionGroup -> target_group -> bool;
  isAncestorOf : ConnectionGroup -> element -> bool;
  UNSAVED_GROUP_ID : string
}.

Inductive service_call :=
| changeGroupIdForConnection (source : ConnectionProfile) (targetGroupId : option string)
| changeGroupIdForConnectionGroup (source : ConnectionGroup) (target : target_group).

Record State := mkState {
  (** [TreeUpdateUtils.isInDragAndDrop] *)
  isInDragAndDrop : bool;
  (** the calls made to the connection management service, in order *)
  calls : list service_call
}.

(** [TypeError]: a property read on [undefined]. *)
Definition TypeError : jsval := JString "TypeError".

(** [e instanceof ConnectionProfile || e instanceof ConnectionGroup] *)
Definition is_connection_element (e : element) : bool :=
  match e with
  | Profile _ | Group _ => true
  | _ => false
  end.

Section WithServices.
Variable services : Services.

Definition getTargetGroup (targetElement : element) : target_group :=
  match targetElement with
  | Profile p =>
      match profile_getParent p with
      | Some g => TGroup g
      | None => TUndefined
      end
  | Group g => TGroup g
  | Other o => TOther o
  | Nothing => TUndefined
  end.

(** [target.id]; reading it on [undefined] throws. *)
Definition target_id (target : target_group) : outcome (option string) :=
  match target with
  | TGroup g => Returned (Some (group_id g))
  | TOther o => Returned (object_id o)
  | TUndefined => Threw TypeError
  end.

Definition target_name (target : target_group) : option string :=
  match target with
  | TGroup g => Some (group_name g)
  | TOther o => object_name o
  | TUndefined => None
  end.

(** [element.id] of a profile or a group. *)
Definition element_id (e : element) : option string :=
  match e with
  | Profile p => Some (profile_id p)
  | Group g => Some (group_id g)
  | Other o => object_id o
  | Nothing => None
  end.

(** [data.getData()[0]] *)
Definition first_source (data : list element) : element :=
  match data with
  | source :: _ => source
  | [] => Nothing
  end.

Definition onDragOver (data : list element) (targetElement : element)
  : outcome IDragOverReaction :=
  let canDragOver : outcome bool :=
    match targetElement with
    | Profile _ | Group _ =>
        let targetConnectionProfileGroup := getTargetGroup targetElement in
        let source := first_source data in
        match source with
        | Profile sp =>
            match target_id targetConnectionProfileGroup with
            | Returned id =>
                if negb (canChangeConnectionConfig services sp id)
                then Returned false else Returned true
            | Threw e => Threw e
            | Never => Never
            end
        | Group sg =>
            Returned
              (negb (bool_decide (Some (group_id sg) = element_id targetElement))
               && negb (isAncestorOf services sg targetElement))
        | _ => Returned true
        end
    | _ => Returned false
    end in
  match canDragOver with
  | Returned true => Returned (DRAG_OVER_ACCEPT_BUBBLE_DOWN true)
  | Returned false => Returned DRAG_OVER_REJECT
  | Threw e => Threw e
  | Never => Never
  end.

Definition isDropAllowed (targetConnectionProfileGroup : target_group)
    (oldParent : option ConnectionGroup) (source : element) : bool :=
  let isDropToItself :=
    match source, targetConnectionProfileGroup with
    | Group sg, (TGroup _ | TOther _) =>
        bool_decide (Some (group_name sg) = target_name targetConnectionProfileGroup)
    | _, _ => false
    end in
  let isDropToSameLevel :=
    match oldParent with
    | Some old => equals services old targetConnectionProfileGroup
    | None => false
    end in
  let isUnsavedDrag :=
    match source with
    | Group sg => String.eqb (group_id sg) (UNSAVED_GROUP_ID services)
    | _ => false
    end in
  negb isDropToSameLevel && negb isDropToItself && negb isUnsavedDrag.

(** [source.getParent], when [source] is an object that has the method. *)
Definition source_getParent (source : element) : option (option ConnectionGroup) :=
  match source with
  | Profile p => Some (profile_getParent p)
  | Group g => Some (group_getParent g)
  | Other o => object_getParent o
  | Nothing => None
  end.

Definition call (c : service_call) (st : State) : State :=
  mkState (isInDragAndDrop st) (calls st ++ [c]).

(** The refresh of the tree that [drop] registers with [then] runs after the
    service call has resolved; it is outside this embedding. *)
Definition drop (data : list element) (targetElement : element) (st : State)
  : outcome unit * State :=
  let st := mkState false (calls st) in
  let targetConnectionProfileGroup := getTargetGroup targetElement in
  let source := first_source data in
  match source_getParent source with
  | Some oldParent =>
      if isDropAllowed targetConnectionProfileGroup oldParent source then
        match source with
        | Profile sp =>
            match target_id targetConnectionProfileGroup with
            | Returned id => (Returned tt, call (changeGroupIdForConnection sp id) st)
            | Threw e => (Threw e, st)
            | Never => (Never, st)
            end
        | Group sg =>
            (Returned tt,
             call (changeGroupIdForConnectionGroup sg targetConnectionProfileGroup) st)
        | _ => (Returned tt, st)
        end
      else (Returned tt, st)
  | None => (Returned tt, st)
  end.

Definition dropAbort (st : State) : State := mkState false (calls st).
Definition onDragStart (st : State) : State := mkState true (calls st).

End WithServices.
End ServerTree.

(** ** The card of a notebook view *)

Module NotebookCard.

(** A JavaScript number, as far as its truth value goes: [NaN], or a
    finite value, here an integer (the cards are laid out in grid units). *)
Inductive number :=
| NaN
| Num (z : Z).

(** The entry of a cell for one view. *)
Record ViewMeta := mkViewMeta {
  guid : string;
  view_width : option number;
  view_height : option number
}.

(** [INotebookViewCellMetadata] *)
Record CellMetadata := mkCellMetadata {
  views : option (list ViewMeta)
}.

Record INotebookView := mkView {
  view_guid : string
}.

Record NotebookViewsCardComponent := mkCard {
  _metadata : option CellMetadata;
  _activeView : option INotebookView
}.

Definition TypeError : jsval := JString "TypeError".

(** Truth value of an optional number: absent, [0] and [NaN] are falsy. *)
Definition truthy_number (n : option number) : bool :=
  match n with
  | Some (Num z) => negb (z =? 0)%Z
  | Some NaN => false
  | None => false
  end.

(** [views.find(v => v.guid === this._activeView.guid)]: the callback reads
    [this._activeView.guid] on every element and throws when there is no
    active view. *)
Fixpoint find_view (activeView : option INotebookView) (vs : list ViewMeta)
  : outcome (option ViewMeta) :=
  match vs with
  | [] => Returned None
  | v :: rest =>
      match activeView with
      | None => Threw TypeError
      | Some active =>
          if String.eqb (guid v) (view_guid active) then Returned (Some v)
          else find_view activeView rest
      end
  end.

Section WithDefaults.
(** The constants imported from [notebookViewModel], as parameters. *)
Variables DEFAULT_VIEW_CARD_WIDTH DEFAULT_VIEW_CARD_HEIGHT : number.

(** [this._metadata?.views?.find(...)] *)
Definition data (c : NotebookViewsCardComponent) : outcome (option ViewMeta) :=
  match _metadata c with
  | None => Returned None
  | Some metadata =>
      match views metadata with
      | None => Returned None
      | Some vs => find_view (_activeView c) vs
      end
  end.

(** [this.data?.field ? this.data.field : fallback] *)
Definition field_or (field : ViewMeta -> option number) (fallback : number)
    (c : NotebookViewsCardComponent) : outcome number :=
  match data c with
  | Returned d =>
      if truthy_number (d ≫= field) then
        match data c with
        | Returned (Some d') =>
            match field d' with
            | Some n => Returned n
            | None => Threw TypeError
            end
        | Returned None => Threw TypeError
        | Threw e => Threw e
        | Never => Never
        end
      else Returned fallback
  | Threw e => Threw e
  | Never => Never
  end.

Definition width (c : NotebookViewsCardComponent) : outcome number :=
  field_or view_width DEFAULT_VIEW_CARD_WIDTH c.

Definition height (c : NotebookViewsCardComponent) : outcome number :=
  field_or view_height DEFAULT_VIEW_CARD_HEIGHT c.

End WithDefaults.

(** The cell has no entry for the view, or the entry has no [field], or a
    falsy one. *)
Definition lacks (field : ViewMeta -> option number) (c : NotebookViewsCardComponent)
  : Prop :=
  _metadata c = None
  \/ data c = Returned None
  \/ exists d, data c = Returned (Some d) /\ truthy_number (field d) = false.

End NotebookCard.

(** ** Sample hosts and worlds *)

Module Samples.
Import NetCore.

(** A Linux machine with the SDK directory in the default place. *)
Definition linux_host : Host :=
  mkHost "linux" "/home/user" ∅
    (fun path => String.eqb path "/usr/local/share/dotnet")
    (fun folder leaf => folder +:+ "/" +:+ leaf).

(** A machine without the SDK. *)
Definition bare_host : Host :=
  mkHost "linux" "/home/user" ∅
    (fun _ => false)
    (fun folder leaf => folder +:+ "/" +:+ leaf).

(** A Windows machine with the SDK directory under Program Files. *)
Definition windows_host : Host :=
  mkHost "win32" "C:\Users\user"
    (<["ProgramW6432" := "C:\Program Files"]>
       (<["ProgramFiles" := "C:\Program Files"]> ∅))
    (fun path => String.eqb path "C:\Program Files\dotnet")
    (fun folder leaf => folder +:+ "\" +:+ leaf).

Definition sample_constants : Constants :=
  mkConstants "Update Location" "Install" "Don't Ask Again"
    "The .NET Core SDK cannot be located."
    (fun version => "Unsupported .NET Core SDK version: " +:+ default "undefined" version).

(** A fresh instance, with the given configuration section. *)
Definition fresh (host : Host) (configuration : gmap string jsval) : World :=
  mkWorld (new_NetCoreTool host) configuration [].

Definition do_not_ask : gmap string jsval :=
  <[NetCoreDoNotAskAgainKey := JBool true]> ∅.

Definition LF : string := String JsString.LF "".

(** [dotnet --version] printing a version and exiting with [code]. *)
Definition version_run (version : string) (code : Z) : list child_event :=
  [Data Stdout (version +:+ LF); Exit (Some code) None].

(** Groups of the server tree: the root, two groups under it, and the
    group of unsaved connections. *)
Definition root_group : ServerTree.ConnectionGroup :=
  ServerTree.mkGroup "root" "ROOT" None.
Definition production : ServerTree.ConnectionGroup :=
  ServerTree.mkGroup "g1" "Production" (Some root_group).
Definition staging : ServerTree.ConnectionGroup :=
  ServerTree.mkGroup "g2" "Staging" (Some root_group).
Definition server1 : ServerTree.ConnectionProfile :=
  ServerTree.mkProfile "p1" "sql01" (Some production).

(** Groups are equal when their ids are; nothing is refused. *)
Definition sample_services : ServerTree.Services :=
  ServerTree.mkServices
    (fun _ _ => true)
    (fun g t => match t with
                | ServerTree.TGroup g' =>
                    String.eqb (ServerTree.group_id g) (ServerTree.group_id g')
                | _ => false
                end)
    (fun _ _ => false)
    "unsaved".

Definition no_calls : ServerTree.State := ServerTree.mkState true [].

(** A card whose cell has an entry for the active view, of width 0 and
    without a height. *)
Definition flat_card : NotebookCard.NotebookViewsCardComponent :=
  NotebookCard.mkCard
    (Some (NotebookCard.mkCellMetadata
             (Some [NotebookCard.mkViewMeta "view-1" (Some (NotebookCard.Num 0%Z)) None])))
    (Some (NotebookCard.mkView "view-1")).

End Samples.

(** ** netCoreTool.ts: running a dotnet command *)

Module NetCoreCommand.
Import NetCore.

(** The helpers imported from [../common/utils], as parameters. *)
Record Utils := mkUtils {
  getQuotedPath : string -> string;
  getErrorMessage : jsval -> string
}.

Definition TypeError : jsval := JString "TypeError".

(** [new Error(message)] *)
Definition Error_of (message : string) : jsval := JString ("Error: " +:+ message).

Definition TAB : string := String (ascii_of_nat 9) "".

(** How [runDotnetCommand] ends: its outcome, the world it leaves, and the
    text that its [catch] block puts on the channel with [append] (no line
    end), after everything in the effect log. *)
Record CommandRun := mkRun {
  run_outcome : outcome string;
  run_world : World;
  errored_out : option string
}.

Section WithHost.
Variable host : Host.
Variable constants : Constants.
Variable utils : Utils.

(** [path.join(this.netcoreInstallLocation, dotnet)]; [path.join] throws a
    [TypeError] on an argument that is not a string. *)
Definition join_location (location : jsval) : outcome string :=
  match location with
  | JString folder => Returned (path_join host folder (dotnet host))
  | _ => Threw TypeError
  end.

Definition title_line (commandTitle : string) : string :=
  TAB +:+ "[ " +:+ commandTitle +:+ " ]".

Definition errored_out_text (command : string) (error : jsval) : string :=
  TAB +:+ ">>> " +:+ command +:+ "   … errored out: " +:+ getErrorMessage utils error.

(** The title of the command, when the options have one, goes on the
    channel first. *)
Definition announce (options : option DotNetCommandOptions) (w : World) : World :=
  match options ≫= commandTitle with
  | Some title => perform (AppendLine (title_line title)) w
  | None => w
  end.

(** [version_events] and [answer] are what the gate meets (the events of
    [dotnet --version], the answer to the prompt); [events] and [child] are
    the run of the command itself. *)
Definition runDotnetCommand (options : option DotNetCommandOptions)
    (version_events : list child_event) (answer : option string)
    (events : list child_event) (child : promise unit) (w : World) : CommandRun :=
  let w := announce options w in
  match findOrInstallNetCore host constants version_events answer w with
  | (Returned false, w) =>
      match netCoreError (tool w) with
      | netCoreNotPresent =>
          mkRun (Threw (Error_of (NetCoreInstallationConfirmation constants))) w None
      | _ =>
          mkRun (Threw (Error_of (NetCoreSupportedVersionInstallationConfirmation constants
                                    (netCoreSdkInstalledVersion (tool w))))) w None
      end
  | (Returned true, w) =>
      match join_location (netcoreInstallLocation host w) with
      | Returned path =>
          let dotnetPath := getQuotedPath utils path in
          match options with
          | Some o =>
              let command := dotnetPath +:+ " " +:+ default "undefined" (argument o) in
              match runStreamedCommand host command options events child w with
              | (Returned result, w) => mkRun (Returned result) w None
              | (Threw error, w) =>
                  mkRun (Threw error) w (Some (errored_out_text command error))
              | (Never, w) => mkRun Never w None
              end
          | None => mkRun (Threw TypeError) w None
          end
      | Threw error => mkRun (Threw error) w None
      | Never => mkRun Never w None
      end
  | (Threw error, w) => mkRun (Threw error) w None
  | (Never, w) => mkRun Never w None
  end.

End WithHost.

(** *** Reading the effect log *)

(** The messages of the prompts shown, in order. *)
Definition shown_messages (log : list effect) : list string :=
  omap (fun e => match e with ShowInformationMessage message _ => Some message | _ => None end)
    log.

(** The command lines of the processes started, in order. *)
Definition spawned_commands (log : list effect) : list string :=
  omap (fun e => match e with Spawn command _ _ => Some command | _ => None end) log.

(** *** Lines

    The number of line feeds of a text, and the text with each CR LF
    turned into LF. *)
Fixpoint count_lf (s : string) : nat :=
  match s with
  | EmptyString => 0
  | String c rest => (if Ascii.eqb c JsString.LF then 1 else 0) + count_lf rest
  end.

Fixpoint crlf_to_lf (s : string) : string :=
  match s with
  | EmptyString => EmptyString
  | String c rest =>
      match rest with
      | String c' rest' =>
          if Ascii.eqb c JsString.CR && Ascii.eqb c' JsString.LF
          then String JsString.LF (crlf_to_lf rest')
          else String c (crlf_to_lf rest)
      | EmptyString => String c EmptyString
      end
  end.

Definition line_feed : string := String JsString.LF "".

(** What [split(/\r?\n/)] gives for a text: at least one line, one more
    than there are line feeds, none with a line feed in it, and the text
    back (CR LF as LF) when joined with line feeds. *)
Definition lines_of (s : string) (ls : list string) : Prop :=
  ls <> []
  /\ length ls = S (count_lf s)
  /\ Forall (fun line => count_lf line = 0) ls
  /\ String.concat line_feed ls = crlf_to_lf s.

(** *** Discovery, as a search over folders

    The first of [folders] whose join with [leaf] exists on disk, as that
    joined path. *)
Definition first_joined_folder (host : Host) (leaf : string) (folders : list string)
  : option string :=
  head (List.filter (fs_existsSync host) (map (fun folder => path_join host folder leaf) folders)).

End NetCoreCommand.

(** ** The card of a notebook view: what is shown, and the execution state *)

Module NotebookCardView.
Import NotebookCard.

(** The entry of a cell for one view, with the members that [x], [y] and
    [display] read besides the size. *)
Record ViewEntry := mkEntry {
  entry_meta : ViewMeta;
  entry_x : option number;
  entry_y : option number;
  hidden : option bool
}.

(** [cell.future] *)
Record Future := mkFuture {
  inProgress : bool
}.

(** The members of [ICellModel] that the getters read. *)
Record ICellModel := mkCell {
  future : option Future;
  outputs_length : nat;
  stdInVisible : bool;
  active : bool
}.

(** The component: [_metadata] (absent, or with [views] absent or a list),
    [_activeView] and [cell]. *)
Record Card := mkCardView {
  card_metadata : option (option (list ViewEntry));
  card_activeView : option INotebookView;
  cell : ICellModel
}.

(** The component as the [width] and [height] getters see it. *)
Definition sized (c : Card) : NotebookViewsCardComponent :=
  mkCard (option_map (fun vs => mkCellMetadata (option_map (map entry_meta) vs))
            (card_metadata c))
    (card_activeView c).

(** [views.find(v => v.guid === this._activeView.guid)] *)
Fixpoint find_entry (activeView : option INotebookView) (vs : list ViewEntry)
  : outcome (option ViewEntry) :=
  match vs with
  | [] => Returned None
  | v :: rest =>
      match activeView with
      | None => Threw TypeError
      | Some current =>
          if String.eqb (guid (entry_meta v)) (view_guid current) then Returned (Some v)
          else find_entry activeView rest
      end
  end.

(** [this._metadata?.views?.find(...)] *)
Definition entry_data (c : Card) : outcome (option ViewEntry) :=
  match card_metadata c with
  | None => Returned None
  | Some None => Returned None
  | Some (Some vs) => find_entry (card_activeView c) vs
  end.

(** [this.data?.x] and [this.data?.y] *)
Definition x (c : Card) : outcome (option number) :=
  match entry_data c with
  | Returned d => Returned (d ≫= entry_x)
  | Threw e => Threw e
  | Never => Never
  end.

Definition y (c : Card) : outcome (option number) :=
  match entry_data c with
  | Returned d => Returned (d ≫= entry_y)
  | Threw e => Threw e
  | Never => Never
  end.

(** [cell.future && cell.future.inProgress && (cell.outputs.length > 0 ||
    cell.stdInVisible)]; without a future the value is [undefined]. *)
Definition awaitingInput (c : Card) : option bool :=
  match future (cell c) with
  | None => None
  | Some f =>
      if inProgress f
      then Some ((0 <? outputs_length (cell c))%nat || stdInVisible (cell c))
      else Some false
  end.

Definition modal (c : Card) : option bool := awaitingInput c.

Definition truthy_bool (b : option bool) : bool :=
  match b with Some true => true | _ => false end.

Definition display (c : Card) : outcome bool :=
  if negb (bool_decide (is_Some (card_metadata c)))
     || negb (bool_decide (is_Some (card_activeView c)))
     || truthy_bool (awaitingInput c)
  then Returned true
  else
    match entry_data c with
    | Returned d => Returned (negb (truthy_bool (d ≫= hidden)))
    | Threw e => Threw e
    | Never => Never
    end.

Definition showActionBar (c : Card) : bool := active (cell c).

(** *** The execution state

    What the setter does besides storing the state: [detectChanges()] and
    the event given to [onChange] (the cell of the event is the cell of the
    component). *)
Inductive card_effect :=
| DetectChanges
| Emit (event : string).

Section WithExecutionState.
(** [CellExecutionState], an imported enumeration. *)
Context {CellExecutionState : Type} `{EqDecision CellExecutionState}.

Record ExecutionCard := mkExecutionCard {
  _executionState : option CellExecutionState;
  emitted : list card_effect
}.

(** [this.onChange.emit({ cell: this.cell, event: event })] *)
Definition changed (event : string) (c : ExecutionCard) : ExecutionCard :=
  mkExecutionCard (_executionState c) (emitted c ++ [Emit event]).

Definition detectChanges (c : ExecutionCard) : ExecutionCard :=
  mkExecutionCard (_executionState c) (emitted c ++ [DetectChanges]).

(** [set executionState(state)] *)
Definition set_executionState (state : CellExecutionState) (c : ExecutionCard)
  : ExecutionCard :=
  if bool_decide (_executionState c = Some state) then c
  else changed "execution" (detectChanges (mkExecutionCard (Some state) (emitted c))).

(** [get executionState()] *)
Definition executionState (c : ExecutionCard) : option CellExecutionState :=
  _executionState c.

Definition hide (c : ExecutionCard) : ExecutionCard := changed "hide" c.

(** The states set one after the other. *)
Definition set_all (states : list CellExecutionState) (c : ExecutionCard) : ExecutionCard :=
  fold_left (fun c state => set_executionState state c) states c.

(** How many of [states], set one after the other from [current], differ
    from the state before them. *)
Fixpoint changes (current : option CellExecutionState) (states : list CellExecutionState)
  : nat :=
  match states with
  | [] => 0
  | state :: rest =>
      (if bool_decide (current = Some state) then 0 else 1) + changes (Some state) rest
  end.

Definition is_execution_event (e : card_effect) : bool :=
  match e with Emit event => String.eqb event "execution" | DetectChanges => false end.

End WithExecutionState.
End NotebookCardView.

(** ** More sample values *)

Module MoreSamples.
Import NetCore NetCoreCommand Samples.

(** A machine of a platform without default locations. *)
Definition freebsd_host : Host :=
  mkHost "freebsd" "/home/user" ∅
    (fun path => String.eqb path "/usr/local/share/dotnet")
    (fun folder leaf => folder +:+ "/" +:+ leaf).

Definition quote : string := String (ascii_of_nat 34) "".

Definition sample_utils : Utils :=
  mkUtils (fun path => quote +:+ path +:+ quote)
    (fun error => match error with JString message => message | _ => "" end).

Definition build_options : DotNetCommandOptions :=
  mkOptions (Some "/work") None (Some "Build") (Some "build").

(** An archive group under the production group, and services for which a
    group is an ancestor of what it is the parent of. *)
Definition archive : ServerTree.ConnectionGroup :=
  ServerTree.mkGroup "g3" "Archive" (Some production).

Definition parent_of (e : ServerTree.element) : option ServerTree.ConnectionGroup :=
  match e with
  | ServerTree.Profile p => ServerTree.profile_getParent p
  | ServerTree.Group g => ServerTree.group_getParent g
  | _ => None
  end.

Definition tree_services : ServerTree.Services :=
  ServerTree.mkServices
    (fun _ id => bool_decide (id = Some "g2"))
    (ServerTree.equals sample_services)
    (fun g e => match parent_of e with
                | Some p => String.eqb (ServerTree.group_id p) (ServerTree.group_id g)
                | None => false
                end)
    "unsaved".

(** A card whose cell has two entries for the active view, of widths 6 and
    8; the first is the one read. *)
Definition wide_entry : NotebookCard.ViewMeta :=
  NotebookCard.mkViewMeta "view-1" (Some (NotebookCard.Num 6)) (Some (NotebookCard.Num 2)).
Definition other_entry : NotebookCard.ViewMeta :=
  NotebookCard.mkViewMeta "view-2" (Some (NotebookCard.Num 3)) None.
Definition second_entry : NotebookCard.ViewMeta :=
  NotebookCard.mkViewMeta "view-1" (Some (NotebookCard.Num 8)) None.

Definition wide_card : NotebookCard.NotebookViewsCardComponent :=
  NotebookCard.mkCard
    (Some (NotebookCard.mkCellMetadata (Some [other_entry; wide_entry; second_entry])))
    (Some (NotebookCard.mkView "view-1")).

End MoreSamples.

(** * Properties *)

(** ** Facts about texts *)

Section TextFacts.
Import JsString.

Lemma app_cons c (a b : string) : String c a +:+ b = String c (a +:+ b).
Proof. reflexivity. Qed.

Lemma app_empty_l (b : string) : "" +:+ b = b.
Proof. reflexivity. Qed.

Lemma app_empty_r (a : string) : a +:+ "" = a.
Proof. induction a as [|c a IH]; [done|]. by rewrite app_cons, IH. Qed.

Lemma app_assoc_text (a b c : string) : (a +:+ b) +:+ c = a +:+ (b +:+ c).
Proof. induction a as [|x a IH]; [done|]. by rewrite !app_cons, IH. Qed.

Lemma length_app_text (a b : string) :
  String.length (a +:+ b) = String.length a + String.length b.
Proof. induction a as [|x a IH]; [done|]. rewrite app_cons. simpl. by rewrite IH. Qed.

Lemma rev_app_spec (a b : string) : String.rev_app a b = String.rev a +:+ b.
Proof.
  revert b. induction a as [|x a IH]; intros b; [done|].
  unfold String.rev. simpl. rewrite (IH (String x b)), (IH (String x "")).
  by rewrite app_assoc_text.
Qed.

Lemma rev_cons c (a : string) : String.rev (String c a) = String.rev a +:+ String c "".
Proof. unfold String.rev at 1. simpl. apply rev_app_spec. Qed.

Lemma rev_app_text (a b : string) : String.rev (a +:+ b) = String.rev b +:+ String.rev a.
Proof.
  induction a as [|x a IH].
  - by rewrite app_empty_l, app_empty_r.
  - by rewrite app_cons, !rev_cons, IH, app_assoc_text.
Qed.

Lemma rev_rev (a : string) : String.rev (String.rev a) = a.
Proof.
  induction a as [|x a IH]; [done|].
  by rewrite rev_cons, rev_app_text, IH.
Qed.

Lemma length_rev (a : string) : String.length (String.rev a) = String.length a.
Proof.
  induction a as [|x a IH]; [done|].
  rewrite rev_cons, length_app_text, IH. simpl. lia.
Qed.

(** *** Stripping *)

Lemma strip_prefix_sound p : forall s rest,
  strip_prefix p s = Some rest -> s = p +:+ rest.
Proof.
  induction p as [|a p IH]; intros s rest; simpl.
  - by intros [= ->].
  - destruct s as [|b s]; [done|].
    destruct (Ascii.eqb_spec a b) as [->|]; [|done].
    intros H. by rewrite app_cons, (IH s rest H).
Qed.

Lemma strip_one_sound chars : forall s rest,
  strip_one chars s = Some rest -> exists w, In w chars /\ s = w +:+ rest.
Proof.
  induction chars as [|w chars IH]; intros s rest; simpl; [done|].
  destruct (strip_prefix w s) as [r|] eqn:Hw.
  - intros [= ->]. exists w. split; [by left | by apply strip_prefix_sound].
  - intros H. destruct (IH s rest H) as (w' & Hin & Hs). exists w'. split; [by right | done].
Qed.

Lemma made_of_app chars a b : made_of chars a -> made_of chars b -> made_of chars (a +:+ b).
Proof.
  induction 1 as [|w s Hw Hs IH]; intros Hb; [done|].
  rewrite app_assoc_text. constructor; auto.
Qed.

Lemma made_of_one chars w : In w chars -> made_of chars w.
Proof. intros H. rewrite <- (app_empty_r w). constructor; [done | constructor]. Qed.

Lemma made_of_rev chars s :
  made_of chars s -> made_of (map String.rev chars) (String.rev s).
Proof.
  induction 1 as [|w s Hw Hs IH]; [constructor|].
  rewrite rev_app_text. apply made_of_app; [done|].
  apply made_of_one. by apply in_map.
Qed.

Lemma made_of_rev_back chars s :
  made_of (map String.rev chars) s -> made_of chars (String.rev s).
Proof.
  intros H. apply made_of_rev in H. rewrite map_map in H.
  rewrite (map_ext _ id) in H by (intros; apply rev_rev).
  by rewrite map_id in H.
Qed.

(** What is stripped is made of the characters to strip. *)
Lemma strip_all_split chars steps : forall s,
  exists lead, made_of chars lead /\ s = lead +:+ strip_all chars steps s.
Proof.
  induction steps as [|steps IH]; intros s; simpl.
  - exists "". split; [constructor | done].
  - destruct (strip_one chars s) as [rest|] eqn:Hone.
    + destruct (strip_one_sound _ _ _ Hone) as (w & Hw & ->).
      destruct (IH rest) as (lead & Hlead & Hrest).
      exists (w +:+ lead). split; [by constructor|].
      by rewrite app_assoc_text, <- Hrest.
    + exists "". split; [constructor | done].
Qed.

Lemma strip_all_lead chars lead body steps :
  strips_cleanly chars ->
  made_of chars lead ->
  strip_one chars body = None ->
  String.length (lead +:+ body) <= steps ->
  strip_all chars steps (lead +:+ body) = body.
Proof.
  intros Hclean Hlead Hbody. revert steps.
  induction Hlead as [|w s Hw Hs IH]; intros steps Hlen.
  - rewrite app_empty_l. destruct steps; simpl; [done | by rewrite Hbody].
  - destruct (Hclean w (s +:+ body) Hw) as [Hne Hone].
    rewrite app_assoc_text in *. rewrite length_app_text in Hlen.
    destruct steps as [|steps].
    + destruct w; [done | simpl in Hlen; lia].
    + simpl. rewrite Hone. apply IH. destruct w; [done | simpl in Hlen; lia].
Qed.

Lemma white_space_strips_cleanly : strips_cleanly white_space.
Proof.
  intros w rest Hw. cbv in Hw.
  repeat (destruct Hw as [<- | Hw]; [split; [discriminate | reflexivity]|]).
  done.
Qed.

Lemma reversed_white_space_strips_cleanly : strips_cleanly (map String.rev white_space).
Proof.
  intros w rest Hw. cbv in Hw.
  repeat (destruct Hw as [<- | Hw]; [split; [discriminate | reflexivity]|]).
  done.
Qed.

End TextFacts.

(** ** Facts about splitting and decimal numbers *)

Section SplittingFacts.
Import JsString Semver.

Lemma all_chars_app p (a b : string) :
  all_chars p (a +:+ b) = all_chars p a && all_chars p b.
Proof.
  induction a as [|c a IH]; [done|].
  rewrite ?app_cons; simpl. by rewrite IH, andb_assoc.
Qed.

Lemma all_chars_weaken (p q : ascii -> bool) s :
  (forall c, p c = true -> q c = true) -> all_chars p s = true -> all_chars q s = true.
Proof.
  intros Hpq. induction s as [|c s IH]; [done|]. simpl.
  intros [Hc Hs]%andb_prop. by rewrite (Hpq c Hc), IH.
Qed.

Lemma has_no_app c (a b : string) : has_no c (a +:+ b) = has_no c a && has_no c b.
Proof. apply all_chars_app. Qed.

Lemma cut_at_none sep a : has_no sep a = true -> cut_at sep a = (a, None).
Proof.
  induction a as [|c a IH]; [done|]. unfold has_no. simpl.
  intros [Hc Ha]%andb_prop. apply negb_true_iff in Hc. rewrite Hc.
  by rewrite (IH Ha).
Qed.

Lemma cut_at_some sep a b :
  has_no sep a = true -> cut_at sep (a +:+ String sep b) = (a, Some b).
Proof.
  induction a as [|c a IH].
  - intros _. rewrite app_empty_l. simpl. by rewrite Ascii.eqb_refl.
  - unfold has_no. simpl. intros [Hc Ha]%andb_prop. apply negb_true_iff in Hc.
    rewrite ?app_cons; simpl. rewrite Hc. by rewrite (IH Ha).
Qed.

Lemma cut_at_inv sep : forall s a o,
  cut_at sep s = (a, o) ->
  has_no sep a = true
  /\ s = a +:+ match o with Some b => String sep b | None => "" end.
Proof.
  induction s as [|c s IH]; intros a o; simpl.
  - by intros [= <- <-].
  - destruct (Ascii.eqb_spec c sep) as [->|Hne].
    + by intros [= <- <-].
    + destruct (cut_at sep s) as [before after] eqn:Hcut.
      intros [= <- <-]. destruct (IH before after eq_refl) as [Hno Hs].
      unfold has_no in *. simpl. rewrite Hno.
      apply Ascii.eqb_neq in Hne. rewrite Hne. split; [done|].
      by rewrite app_cons, <- Hs.
Qed.

Lemma split_on_not_nil sep s : split_on sep s <> [].
Proof.
  induction s as [|c s IH]; [done|]. simpl.
  destruct (Ascii.eqb c sep); [done|]. by destruct (split_on sep s).
Qed.

Lemma split_on_whole sep a : has_no sep a = true -> split_on sep a = [a].
Proof.
  induction a as [|c a IH]; [done|]. unfold has_no. simpl.
  intros [Hc Ha]%andb_prop. apply negb_true_iff in Hc. rewrite Hc.
  by rewrite (IH Ha).
Qed.

Lemma split_on_first sep a rest :
  has_no sep a = true ->
  split_on sep (a +:+ String sep rest) = a :: split_on sep rest.
Proof.
  induction a as [|c a IH].
  - intros _. rewrite app_empty_l. simpl. by rewrite Ascii.eqb_refl.
  - unfold has_no. simpl. intros [Hc Ha]%andb_prop. apply negb_true_iff in Hc.
    rewrite ?app_cons; simpl. rewrite Hc. by rewrite (IH Ha).
Qed.

Lemma split_on_joined sep ids :
  ids <> [] ->
  Forall (fun id => has_no sep id = true) ids ->
  split_on sep (joined sep ids) = ids.
Proof.
  intros Hne Hall. induction Hall as [|id ids Hid Hids IH]; [done|].
  destruct ids as [|id' ids].
  - by apply split_on_whole.
  - change (joined sep (id :: id' :: ids)) with (id +:+ String sep (joined sep (id' :: ids))).
    rewrite split_on_first by done. by rewrite IH.
Qed.

Lemma joined_cons_head sep c pieces :
  pieces <> [] -> joined sep (cons_head c pieces) = String c (joined sep pieces).
Proof. destruct pieces as [|p [|q pieces]]; done. Qed.

Lemma split_on_inv sep s :
  joined sep (split_on sep s) = s
  /\ Forall (fun id => has_no sep id = true) (split_on sep s).
Proof.
  induction s as [|c s [IHj IHa]]; [by repeat constructor|]. simpl.
  pose proof (split_on_not_nil sep s) as Hne.
  destruct (Ascii.eqb_spec c sep) as [->|Hc].
  - split; [|by constructor].
    destruct (split_on sep s) as [|p ps] eqn:E; [done|].
    change (joined sep ("" :: p :: ps)) with ("" +:+ String sep (joined sep (p :: ps))).
    by rewrite IHj.
  - split.
    + by rewrite joined_cons_head, IHj.
    + destruct (split_on sep s) as [|p ps]; [done|]. simpl.
      inversion IHa as [|? ? Hp Hps]; subst. constructor; [|done].
      unfold has_no in *. simpl. rewrite Hp.
      apply Ascii.eqb_neq in Hc. by rewrite Hc.
Qed.

(** *** Numbers in decimal *)

Lemma pretty_char_digit x : is_digit (pretty_N_char x) = true.
Proof. unfold pretty_N_char. repeat case_match; reflexivity. Qed.

Lemma digit_of_char c :
  is_digit c = true ->
  (N_of_ascii c - 48 < 10)%N /\ pretty_N_char (N_of_ascii c - 48) = c.
Proof.
  destruct c as [[] [] [] [] [] [] [] []]; try discriminate; intros _; split;
    (reflexivity || (vm_compute; reflexivity)).
Qed.

Lemma digit_not_zero c :
  is_digit c = true -> Ascii.eqb c "0" = false -> (0 < N_of_ascii c - 48)%N.
Proof.
  destruct c as [[] [] [] [] [] [] [] []]; try discriminate; intros _ H;
    try discriminate H; reflexivity.
Qed.

Lemma pretty_go_digits x : forall s,
  all_chars is_digit s = true -> all_chars is_digit (pretty_N_go x s) = true.
Proof.
  induction (N.lt_wf_0 x) as [x _ IH]; intros s Hs.
  assert (x = 0 \/ 0 < x)%N as [->|Hx] by lia; [by rewrite pretty_N_go_0|].
  rewrite pretty_N_go_step by done. apply IH; [by apply N.div_lt|].
  simpl. by rewrite pretty_char_digit.
Qed.

Lemma pretty_go_head x : forall s,
  (0 < x)%N ->
  exists c rest, pretty_N_go x s = String c rest
                 /\ is_digit c = true /\ Ascii.eqb c "0" = false
                 /\ (all_chars is_digit s = true -> all_chars is_digit rest = true).
Proof.
  induction (N.lt_wf_0 x) as [x _ IH]; intros s Hx.
  rewrite pretty_N_go_step by done.
  assert (x < 10 \/ 10 <= x)%N as [Hsmall|Hbig] by lia.
  - rewrite N.div_small, N.mod_small, pretty_N_go_0 by done.
    exists (pretty_N_char x), s. split; [done|]. split; [apply pretty_char_digit|].
    split; [|done].
    assert (x = 1 \/ x = 2 \/ x = 3 \/ x = 4 \/ x = 5 \/ x = 6 \/ x = 7 \/ x = 8 \/ x = 9)%N
      as Hcases by lia.
    by repeat (destruct Hcases as [-> | Hcases]; [reflexivity|]); subst.
  - destruct (IH (x `div` 10)%N (N.div_lt x 10 Hx eq_refl)
                (String (pretty_N_char (x `mod` 10)) s)) as (c & rest & -> & Hc & Hz & Hrest).
    { apply N.div_str_pos. lia. }
    exists c, rest. repeat split; try done.
    intros Hs. apply Hrest. simpl. by rewrite pretty_char_digit.
Qed.

Lemma pretty_numeric (n : N) : is_numeric_identifier (pretty n) = true.
Proof.
  unfold pretty, pretty_N. destruct (decide (n = 0%N)) as [->|Hn]; [done|].
  destruct (pretty_go_head n "") as (c & rest & -> & Hc & Hz & Hrest); [lia|].
  unfold is_numeric_identifier.
  rewrite Hc, Hz, (Hrest eq_refl). simpl.
  destruct c as [[] [] [] [] [] [] [] []]; try discriminate; by destruct rest.
Qed.

Lemma pretty_go_canonical a : forall acc s,
  all_chars is_digit a = true ->
  (0 < acc)%N ->
  pretty_N_go (digits_value acc a) s = pretty_N_go acc (a +:+ s).
Proof.
  induction a as [|c a IH]; intros acc s Ha Hacc; [done|].
  simpl in Ha. apply andb_prop in Ha as [Hc Ha].
  destruct (digit_of_char c Hc) as [Hlt Hchar].
  simpl. rewrite IH by (done || lia).
  rewrite pretty_N_go_step by lia.
  replace ((10 * acc + (N_of_ascii c - 48)) `div` 10)%N with acc
    by (apply N.div_unique with (N_of_ascii c - 48)%N; lia).
  replace ((10 * acc + (N_of_ascii c - 48)) `mod` 10)%N with (N_of_ascii c - 48)%N
    by (apply N.mod_unique with acc; lia).
  by rewrite Hchar, app_cons.
Qed.

Lemma digits_value_pos a : forall acc, (0 < acc)%N -> (0 < digits_value acc a)%N.
Proof. induction a as [|x a IH]; intros acc Hacc; [done|]. simpl. apply IH. lia. Qed.

Lemma numeric_cases a :
  is_numeric_identifier a = true ->
  a = "0"
  \/ exists c rest, a = String c rest /\ is_digit c = true /\ Ascii.eqb c "0" = false
                    /\ all_chars is_digit rest = true.
Proof.
  unfold is_numeric_identifier. destruct a as [|c a]; [done|].
  destruct (Ascii.eqb_spec c "0") as [->|Hne].
  - destruct a; [by left|]. simpl. done.
  - intros H. right. exists c, a.
    assert (H' : is_digit c && negb (Ascii.eqb c "0") && all_chars is_digit a = true).
    { destruct c as [[] [] [] [] [] [] [] []]; try done; by destruct a. }
    apply andb_prop in H' as [[Hc Hz%negb_true_iff]%andb_prop Ha]. done.
Qed.

Lemma numeric_is_pretty a :
  is_numeric_identifier a = true -> pretty (digits_value 0 a) = a.
Proof.
  intros [-> | (c & rest & -> & Hc & Hz & Hrest)]%numeric_cases; [reflexivity|].
  pose proof (digit_not_zero c Hc Hz) as Hpos.
  destruct (digit_of_char c Hc) as [Hlt Hchar].
  simpl. unfold pretty, pretty_N.
  pose proof (digits_value_pos rest (10 * 0 + (N_of_ascii c - 48))%N) as Hvalue.
  destruct (decide (digits_value (10 * 0 + (N_of_ascii c - 48)) rest = 0%N)) as [H0|_];
    [lia|].
  rewrite pretty_go_canonical by (done || lia).
  rewrite pretty_N_go_step by lia.
  rewrite N.div_small, N.mod_small, pretty_N_go_0 by lia.
  replace (10 * 0 + (N_of_ascii c - 48))%N with (N_of_ascii c - 48)%N by lia.
  by rewrite Hchar, app_empty_r.
Qed.

Lemma pretty_value (n : N) : digits_value 0 (pretty n) = n.
Proof.
  apply (inj pretty). apply numeric_is_pretty, pretty_numeric.
Qed.

End SplittingFacts.

(** ** How [new SemVer] reads a text *)

Section ReadingVersions.
Import JsString Semver.

Lemma ident_char_is_version_char c : is_ident_char c = true -> is_version_char c = true.
Proof. unfold is_version_char. by intros ->. Qed.

Lemma digit_is_ident_char c : is_digit c = true -> is_ident_char c = true.
Proof. unfold is_ident_char. by intros ->. Qed.

Lemma ident_char_not c sep :
  is_ident_char sep = false -> is_ident_char c = true -> negb (Ascii.eqb c sep) = true.
Proof.
  intros Hsep Hc. destruct (Ascii.eqb_spec c sep) as [->|]; [congruence | done].
Qed.

Lemma digit_not c sep :
  is_digit sep = false -> is_digit c = true -> negb (Ascii.eqb c sep) = true.
Proof.
  intros Hsep Hc. destruct (Ascii.eqb_spec c sep) as [->|]; [congruence | done].
Qed.

Lemma pretty_digits (n : N) : all_chars is_digit (pretty n) = true.
Proof.
  destruct (numeric_cases _ (pretty_numeric n)) as [-> | (c & rest & -> & Hc & _ & Hrest)];
    [done|]. simpl. by rewrite Hc, Hrest.
Qed.

Lemma prerelease_identifier_chars id :
  is_prerelease_identifier id = true ->
  all_chars is_ident_char id = true /\ id <> "".
Proof.
  unfold is_prerelease_identifier, is_nonnumeric_identifier.
  intros [Hnum | [Hchars Hnot]%andb_prop]%orb_prop.
  - destruct (numeric_cases _ Hnum) as [-> | (c & rest & -> & Hc & _ & Hrest)]; [done|].
    split; [|done]. simpl. rewrite (digit_is_ident_char c Hc). simpl.
    apply (all_chars_weaken is_digit is_ident_char); [apply digit_is_ident_char | done].
  - split; [done|]. by intros ->.
Qed.

Lemma build_identifier_chars id :
  is_build_identifier id = true ->
  all_chars is_ident_char id = true /\ id <> "".
Proof.
  unfold is_build_identifier. intros [Hne Hchars]%andb_prop.
  split; [done|]. by intros ->.
Qed.

(** The identifiers of a part, joined with dots. *)
Lemma joined_identifiers ids :
  Forall (fun id => all_chars is_ident_char id = true /\ id <> "") ids ->
  all_chars is_version_char (joined "." ids) = true
  /\ has_no "+" (joined "." ids) = true
  /\ Forall (fun id => has_no "." id = true) ids
  /\ (ids <> [] -> joined "." ids <> "").
Proof.
  induction 1 as [|id ids [Hid Hne] Hids (IHv & IHp & IHd & IHn)]; [by repeat split|].
  assert (Hv : all_chars is_version_char id = true)
    by (apply (all_chars_weaken is_ident_char is_version_char);
        [apply ident_char_is_version_char | done]).
  assert (Hp : has_no "+" id = true)
    by (apply (all_chars_weaken is_ident_char (fun x => negb (Ascii.eqb x "+")));
        [intros c; by apply ident_char_not | done]).
  assert (Hd : has_no "." id = true)
    by (apply (all_chars_weaken is_ident_char (fun x => negb (Ascii.eqb x ".")));
        [intros c; by apply ident_char_not | done]).
  destruct ids as [|id' ids].
  - simpl. repeat split; try done. by constructor.
  - change (joined "." (id :: id' :: ids)) with (id +:+ String "." (joined "." (id' :: ids))).
    split; [|split; [|split]].
    + rewrite all_chars_app, Hv.
      change (all_chars is_version_char (String "." (joined "." (id' :: ids))))
        with (is_version_char "." && all_chars is_version_char (joined "." (id' :: ids))).
      by rewrite IHv.
    + rewrite has_no_app, Hp. unfold has_no in *.
      change (all_chars (fun x => negb (Ascii.eqb x "+")) (String "." (joined "." (id' :: ids))))
        with (negb (Ascii.eqb "." "+")
              && all_chars (fun x => negb (Ascii.eqb x "+")) (joined "." (id' :: ids))).
      by rewrite IHp.
    + by constructor.
    + intros _. destruct id; done.
Qed.

Lemma forallb_Forall_true (p : string -> bool) ids :
  forallb p ids = true <-> Forall (fun id => p id = true) ids.
Proof.
  induction ids as [|id ids IH]; simpl; [by split|].
  rewrite andb_true_iff, IH. split.
  - intros [? ?]. by constructor.
  - intros H. by inversion H.
Qed.

Lemma identifiers_of_part p ids :
  Forall (fun id => p id = true) ids ->
  Forall (fun id => has_no "." id = true) ids ->
  identifiers p (match ids with [] => None | _ :: _ => Some (joined "." ids) end) = Some ids.
Proof.
  intros Hp Hd. destruct ids as [|id ids]; [done|].
  unfold identifiers. rewrite split_on_joined by done.
  assert (Hall : forallb p (id :: ids) = true) by (by apply forallb_Forall_true).
  by rewrite Hall.
Qed.

Lemma identifiers_inv p part ids :
  identifiers p part = Some ids ->
  Forall (fun id => p id = true) ids
  /\ match part with
     | None => ids = []
     | Some text => text = joined "." ids /\ ids <> []
     end.
Proof.
  unfold identifiers. destruct part as [text|]; [|by intros [= <-]].
  destruct (forallb p (split_on "." text)) eqn:Hall; [|done].
  intros [= <-]. split; [by apply forallb_Forall_true|].
  split; [symmetry; apply split_on_inv | apply split_on_not_nil].
Qed.

Lemma component_pretty (n : N) : (n <= MAX_SAFE_INTEGER)%N -> component (pretty n) = Some n.
Proof.
  intros Hn. unfold component. rewrite pretty_numeric, pretty_value.
  by apply N.leb_le in Hn as ->.
Qed.

Lemma component_inv a n :
  component a = Some n -> a = pretty n /\ (n <= MAX_SAFE_INTEGER)%N.
Proof.
  unfold component. destruct (is_numeric_identifier a) eqn:Hnum; [|done].
  destruct (N.leb_spec (digits_value 0 a) MAX_SAFE_INTEGER) as [Hle|]; [|done].
  intros [= <-]. split; [symmetry; by apply numeric_is_pretty | done].
Qed.

(** The text that is left of [s] without the [v] it may start with. *)
Local Abbreviation body_of s :=
  (match s with String "v"%char rest => rest | _ => s end) (only parsing).

Lemma body_of_digit c rest : is_digit c = true -> body_of (String c rest) = String c rest.
Proof. destruct c as [[] [] [] [] [] [] [] []]; try discriminate; reflexivity. Qed.

Lemma body_of_cases s : s = body_of s \/ s = "v" +:+ body_of s.
Proof.
  destruct s as [|c rest]; [by left|].
  destruct c as [[] [] [] [] [] [] [] []]; (by left) || (by right).
Qed.

Lemma cut_at_optional sep front ids :
  has_no sep front = true ->
  cut_at sep (front +:+ optional_part (String sep "") ids)
  = (front, match ids with [] => None | _ :: _ => Some (joined "." ids) end).
Proof.
  intros Hfront. destruct ids as [|id ids].
  - simpl. rewrite app_empty_r. by apply cut_at_none.
  - change (optional_part (String sep "") (id :: ids))
      with (String sep (joined "." (id :: ids))).
    by apply cut_at_some.
Qed.

Lemma optional_part_chars mark ids :
  is_version_char mark = true ->
  Forall (fun id => all_chars is_ident_char id = true /\ id <> "") ids ->
  all_chars is_version_char (optional_part (String mark "") ids) = true.
Proof.
  intros Hmark Hids. destruct ids as [|id ids]; [done|].
  change (optional_part (String mark "") (id :: ids))
    with (String mark (joined "." (id :: ids))).
  change (all_chars is_version_char (String mark (joined "." (id :: ids))))
    with (is_version_char mark && all_chars is_version_char (joined "." (id :: ids))).
  rewrite Hmark. by apply joined_identifiers.
Qed.

Lemma has_no_cons sep c s :
  has_no sep (String c s) = negb (Ascii.eqb c sep) && has_no sep s.
Proof. reflexivity. Qed.

Lemma all_chars_cons p c s : all_chars p (String c s) = p c && all_chars p s.
Proof. reflexivity. Qed.

Lemma main_text_facts (ma mi pa : N) :
  let main := pretty ma +:+ String "." (pretty mi +:+ String "." (pretty pa)) in
  split_on "." main = [pretty ma; pretty mi; pretty pa]
  /\ has_no "-" main = true
  /\ has_no "+" main = true
  /\ all_chars is_version_char main = true
  /\ exists c rest, main = String c rest /\ is_digit c = true.
Proof.
  cbv zeta.
  assert (Hno : forall sep (n : N), is_digit sep = false -> has_no sep (pretty n) = true).
  { intros sep n Hsep.
    apply (all_chars_weaken is_digit (fun x => negb (Ascii.eqb x sep)));
      [intros c; by apply digit_not | apply pretty_digits]. }
  assert (Hv : forall n : N, all_chars is_version_char (pretty n) = true).
  { intros n. apply (all_chars_weaken is_digit is_version_char); [|apply pretty_digits].
    intros c Hc. by apply ident_char_is_version_char, digit_is_ident_char. }
  split; [|split; [|split; [|split]]].
  - rewrite !split_on_first by (by apply Hno). by rewrite split_on_whole by (by apply Hno).
  - rewrite !has_no_app, !has_no_cons, !has_no_app, !has_no_cons, !Hno by done.
    reflexivity.
  - rewrite !has_no_app, !has_no_cons, !has_no_app, !has_no_cons, !Hno by done.
    reflexivity.
  - rewrite !all_chars_app, !all_chars_cons, !all_chars_app, !all_chars_cons, !Hv.
    reflexivity.
  - destruct (numeric_cases _ (pretty_numeric ma)) as [-> | (c & rest & -> & Hc & _)].
    + by eexists _, _.
    + rewrite app_cons. by eexists _, _.
Qed.

Lemma core_text_shape sv :
  core_text sv
  = ((pretty (major sv) +:+ String "." (pretty (minor sv) +:+ String "." (pretty (patch sv))))
     +:+ optional_part "-" (prerelease sv))
    +:+ optional_part "+" (build sv).
Proof.
  unfold core_text.
  repeat (rewrite ?app_assoc_text, ?app_cons, ?app_empty_l). reflexivity.
Qed.

Lemma identifier_chars_all p ids :
  (forall id, p id = true -> all_chars is_ident_char id = true /\ id <> "") ->
  Forall (fun id => p id = true) ids ->
  Forall (fun id => all_chars is_ident_char id = true /\ id <> "") ids.
Proof.
  intros Hp. induction 1 as [|id ids Hid Hids IH]; constructor; auto.
Qed.

Lemma optional_part_has_no_plus ids :
  Forall (fun id => all_chars is_ident_char id = true /\ id <> "") ids ->
  has_no "+" (optional_part "-" ids) = true.
Proof.
  intros Hids. destruct ids as [|id ids]; [done|].
  change (optional_part "-" (id :: ids)) with (String "-" (joined "." (id :: ids))).
  rewrite has_no_cons. by apply joined_identifiers.
Qed.

(** A version text, once its optional [v] is gone, is parsed back to the
    version it writes. *)
Lemma parse_full_body s sv :
  body_of s = core_text sv ->
  (major sv <= MAX_SAFE_INTEGER)%N ->
  (minor sv <= MAX_SAFE_INTEGER)%N ->
  (patch sv <= MAX_SAFE_INTEGER)%N ->
  Forall (fun id => is_prerelease_identifier id = true) (prerelease sv) ->
  Forall (fun id => is_build_identifier id = true) (build sv) ->
  parse_full s = Some sv.
Proof.
  intros Hbody Hma Hmi Hpa Hpre Hbld.
  pose proof (identifier_chars_all _ _ prerelease_identifier_chars Hpre) as Hprec.
  pose proof (identifier_chars_all _ _ build_identifier_chars Hbld) as Hbldc.
  destruct (main_text_facts (major sv) (minor sv) (patch sv))
    as (Hsplit & Hdash & Hplus & _ & _).
  cbv zeta in Hsplit, Hdash, Hplus.
  unfold parse_full. cbv zeta. rewrite Hbody, core_text_shape.
  rewrite cut_at_optional
    by (by rewrite has_no_app, Hplus, optional_part_has_no_plus).
  rewrite cut_at_optional by done.
  rewrite Hsplit, !component_pretty by done. simpl.
  rewrite identifiers_of_part by (done || by apply joined_identifiers).
  simpl.
  rewrite identifiers_of_part by (done || by apply joined_identifiers).
  simpl. by destruct sv.
Qed.

Lemma core_text_head sv :
  exists c rest, core_text sv = String c rest /\ is_digit c = true.
Proof.
  rewrite core_text_shape.
  destruct (main_text_facts (major sv) (minor sv) (patch sv))
    as (_ & _ & _ & _ & c & rest & Hmain & Hc).
  cbv zeta in Hmain. rewrite Hmain, !app_cons. by eexists _, _.
Qed.

Lemma parse_full_text s sv : version_text s sv -> parse_full s = Some sv.
Proof.
  intros (Hs & Hma & Hmi & Hpa & Hpre & Hbld). apply parse_full_body; try done.
  destruct Hs as [-> | ->].
  - destruct (core_text_head sv) as (c & rest & -> & Hc). by apply body_of_digit.
  - by rewrite app_cons, app_empty_l.
Qed.

Lemma parse_full_inv s sv : parse_full s = Some sv -> version_text s sv.
Proof.
  unfold parse_full. cbv zeta.
  pose proof (body_of_cases s) as Hs.
  remember (body_of s) as body eqn:Hbody. clear Hbody.
  destruct (cut_at "+" body) as [front build_part] eqn:Hfront.
  destruct (cut_at "-" front) as [main prerelease_part] eqn:Hmain.
  pose proof (split_on_inv "." main) as [Hjoined _].
  destruct (split_on "." main) as [|a [|b [|c [|d rest]]]]; try done.
  destruct (component a) as [ma|] eqn:Ha; [|done].
  destruct (component b) as [mi|] eqn:Hb; [|done].
  destruct (component c) as [pa|] eqn:Hc; [|done]. simpl.
  destruct (identifiers is_prerelease_identifier prerelease_part) as [pre|] eqn:Hpre;
    [|done].
  destruct (identifiers is_build_identifier build_part) as [bld|] eqn:Hbld; [|done].
  simpl. intros [= <-].
  apply component_inv in Ha as [-> Hma], Hb as [-> Hmi], Hc as [-> Hpa].
  apply identifiers_inv in Hpre as [Hpre Hprep], Hbld as [Hbld Hbldp].
  apply cut_at_inv in Hfront as [_ Hfront], Hmain as [_ Hmain].
  assert (Hcore : body = core_text (mkSemVer ma mi pa pre bld)).
  { rewrite core_text_shape. simpl. rewrite Hfront, Hmain, <- Hjoined.
    change (joined "." [pretty ma; pretty mi; pretty pa])
      with (pretty ma +:+ String "." (pretty mi +:+ String "." (pretty pa))).
    f_equal; [f_equal|].
    - destruct prerelease_part as [text|].
      + destruct Hprep as [-> Hne]. by destruct pre.
      + by subst pre.
    - destruct build_part as [text|].
      + destruct Hbldp as [-> Hne]. by destruct bld.
      + by subst bld. }
  rewrite Hcore in Hs. by repeat split.
Qed.

(** A version text is not empty and holds only characters of versions;
    none of them is white space. *)
Lemma version_text_chars s sv :
  version_text s sv -> s <> "" /\ all_chars is_version_char s = true.
Proof.
  intros (Hs & _ & _ & _ & Hpre & Hbld).
  pose proof (identifier_chars_all _ _ prerelease_identifier_chars Hpre) as Hprec.
  pose proof (identifier_chars_all _ _ build_identifier_chars Hbld) as Hbldc.
  assert (Hcore : core_text sv <> "" /\ all_chars is_version_char (core_text sv) = true).
  { split.
    - destruct (core_text_head sv) as (c & rest & -> & _). done.
    - rewrite core_text_shape.
      rewrite (all_chars_app _ _ (optional_part "+" (build sv))).
      rewrite (all_chars_app _ _ (optional_part "-" (prerelease sv))).
      destruct (main_text_facts (major sv) (minor sv) (patch sv))
        as (_ & _ & _ & Hchars & _).
      cbv zeta in Hchars. rewrite Hchars.
      by rewrite !optional_part_chars. }
  destruct Hcore as [Hne Hchars]. destruct Hs as [-> | ->]; [done|].
  rewrite app_cons, app_empty_l. split; [done|]. simpl. by rewrite Hchars.
Qed.

Lemma version_char_solid c rest :
  is_version_char c = true ->
  strip_one white_space (String c rest) = None
  /\ strip_one (map String.rev white_space) (String c rest) = None.
Proof.
  destruct c as [[] [] [] [] [] [] [] []]; try discriminate; intros _; split; reflexivity.
Qed.

Lemma all_chars_rev p s : all_chars p (String.rev s) = all_chars p s.
Proof.
  induction s as [|c s IH]; [done|].
  rewrite rev_cons, all_chars_app, IH, !all_chars_cons. simpl.
  by rewrite andb_true_r, andb_comm.
Qed.

(** [trim] gives back a text of version characters from between any white
    space. *)
Lemma trim_white lead body trail :
  white lead -> white trail ->
  body <> "" -> all_chars is_version_char body = true ->
  trim (lead +:+ body +:+ trail) = body.
Proof.
  intros Hlead Htrail Hne Hchars. unfold trim, trim_start, trim_end.
  assert (Hstart : strip_all white_space (String.length (lead +:+ body +:+ trail))
                     (lead +:+ body +:+ trail) = body +:+ trail).
  { apply strip_all_lead; [apply white_space_strips_cleanly | done | | done].
    destruct body as [|c body]; [done|]. rewrite app_cons.
    simpl in Hchars. apply andb_prop in Hchars as [Hc _].
    exact (proj1 (version_char_solid c _ Hc)). }
  rewrite Hstart, rev_app_text.
  rewrite strip_all_lead; [apply rev_rev | apply reversed_white_space_strips_cleanly
                          | by apply made_of_rev | | ].
  - pose proof (all_chars_rev is_version_char body) as Hrev. rewrite Hchars in Hrev.
    pose proof (length_rev body) as Hlen.
    destruct (String.rev body) as [|c rest]; [by destruct body|].
    simpl in Hrev. apply andb_prop in Hrev as [Hc _].
    exact (proj2 (version_char_solid c _ Hc)).
  - by rewrite <- rev_app_text, length_rev.
Qed.

(** What [trim] removes is white space. *)
Lemma trim_split v :
  exists lead trail, v = lead +:+ trim v +:+ trail /\ white lead /\ white trail.
Proof.
  unfold trim, trim_start, trim_end.
  destruct (strip_all_split white_space (String.length v) v) as (lead & Hlead & Hv).
  set (t := strip_all white_space (String.length v) v) in *.
  destruct (strip_all_split (map String.rev white_space) (String.length t) (String.rev t))
    as (trail & Htrail & Ht).
  exists lead, (String.rev trail). split; [|split; [done | by apply made_of_rev_back]].
  rewrite <- rev_app_text, <- Ht, rev_rev. exact Hv.
Qed.

(** [new SemVer(v)] reads [v] exactly when [v] is a version text between
    white space and is not too long. *)
Lemma SemVer_new_reads v sv : SemVer_new (Some v) = Some sv <-> reads_as v sv.
Proof.
  unfold SemVer_new, reads_as. split.
  - destruct (Nat.ltb_spec MAX_LENGTH (utf16_length v)) as [|Hlen]; [done|].
    intros Hparse%parse_full_inv. split; [done|].
    destruct (trim_split v) as (lead & trail & Hv & Hlead & Htrail).
    by exists lead, (trim v), trail.
  - intros (Hlen & lead & body & trail & -> & Hlead & Htrail & Hbody).
    destruct (Nat.ltb_spec MAX_LENGTH (utf16_length (lead +:+ body +:+ trail)))
      as [|_]; [lia|].
    destruct (version_text_chars _ _ Hbody) as [Hne Hchars].
    rewrite trim_white by done. by apply parse_full_text.
Qed.

End ReadingVersions.

Section SemverProperties.
Import Semver.

Lemma floor_parses : SemVer_new (Some "3.1.0") = Some version_3_1_0.
Proof. vm_compute. reflexivity. Qed.

(** Against a release, [compare] agrees with the precedence of the
    specification. *)
Lemma compare_floor sv :
  (0 <=? compare sv version_3_1_0)%Z = true <-> at_least_release sv version_3_1_0.
Proof.
  unfold compare, compareMain, comparePre, compareNumbers, or_else,
    at_least_release, main_lt, main_eq.
  destruct sv as [ma mi pa pre bld]; simpl.
  destruct (N.compare_spec ma 3) as [-> | Hlt | Hgt];
    destruct (N.compare_spec mi 1) as [-> | Hlt' | Hgt'];
    destruct (N.compare_spec pa 0) as [-> | Hlt'' | Hgt''];
    destruct pre as [|id pre]; simpl;
    (split; [intros H; try discriminate H | intros H]);
    try reflexivity;
    try (left; lia);
    try (right; repeat split; reflexivity);
    try lia;
    try (exfalso; destruct H as [H | (H1 & H2)]; [lia | first [discriminate H2 | lia]]).
Qed.

Lemma gte_floor_true v :
  gte (Some v) (Some "3.1.0") = Some true
  <-> exists sv, reads_as v sv /\ at_least_release sv version_3_1_0.
Proof.
  unfold gte. rewrite floor_parses.
  pose proof (SemVer_new_reads v) as Hreads.
  destruct (SemVer_new (Some v)) as [sv|]; simpl.
  - split.
    + intros [= H]. exists sv. split; [by apply Hreads|]. by rewrite <- compare_floor.
    + intros (sv' & [= <-]%Hreads & H). apply compare_floor in H. by rewrite H.
  - split; [done | by intros (sv & ?%Hreads & _)].
Qed.

Lemma gte_floor_false v :
  gte (Some v) (Some "3.1.0") = Some false
  <-> exists sv, reads_as v sv /\ ~ at_least_release sv version_3_1_0.
Proof.
  unfold gte. rewrite floor_parses.
  pose proof (SemVer_new_reads v) as Hreads.
  destruct (SemVer_new (Some v)) as [sv|]; simpl.
  - split.
    + intros [= H]. exists sv. split; [by apply Hreads|].
      rewrite <- compare_floor. by rewrite H.
    + intros (sv' & [= <-]%Hreads & H). rewrite <- compare_floor in H.
      f_equal. by destruct (0 <=? _)%Z.
  - split; [done | by intros (sv & ?%Hreads & _)].
Qed.

End SemverProperties.

Section NetCoreProperties.
Import NetCore.
Variable host : Host.
Variable constants : Constants.

Lemma perform_effects e w : effects (perform e w) = effects w ++ [e].
Proof. reflexivity. Qed.

Lemma dialogs_shown_app l1 l2 :
  dialogs_shown (l1 ++ l2) = dialogs_shown l1 + dialogs_shown l2.
Proof. unfold dialogs_shown. by rewrite List.filter_app, length_app. Qed.

Lemma processes_spawned_app l1 l2 :
  processes_spawned (l1 ++ l2) = processes_spawned l1 + processes_spawned l2.
Proof. unfold processes_spawned. by rewrite List.filter_app, length_app. Qed.

(** The listeners of the version check touch neither the effect log nor the
    configuration. *)
Lemma onExit_frame events : forall w,
  effects (snd (onExit events w)) = effects w
  /\ configuration (snd (onExit events w)) = configuration w.
Proof.
  induction events as [|e events IH]; intros w; [done|].
  destruct e as [[|] chunk|code signal|]; simpl.
  - destruct (IH (stdout_listener chunk w)) as [-> ->]. done.
  - apply IH.
  - destruct (exit_listener w); [done | apply IH].
  - done.
Qed.

(** How the promise of [onExit] is settled depends on the instance only
    through the version captured so far. *)
Lemma onExit_promise_ext events : forall w1 w2,
  netCoreSdkInstalledVersion (tool w1) = netCoreSdkInstalledVersion (tool w2) ->
  fst (onExit events w1) = fst (onExit events w2).
Proof.
  induction events as [|e events IH]; intros w1 w2 Hv; [done|].
  destruct e as [[|] chunk|code signal|]; simpl.
  - by apply IH.
  - by apply IH.
  - unfold exit_listener. rewrite Hv.
    destruct (Semver.gte _ _); [done | by apply IH].
  - done.
Qed.

(** The install location does not depend on the recorded error, on the
    captured version or on the effect log. *)
Lemma installation_present_ext w1 w2 :
  osPlatform (tool w1) = osPlatform (tool w2) ->
  configuration w1 = configuration w2 ->
  installation_present host w1 = installation_present host w2.
Proof.
  intros Hp Hc.
  unfold installation_present, isNetCoreInstallationPresent, netcoreInstallLocation,
    defaultLocalInstallLocationByDistribution, getConfiguration.
  simpl. by rewrite Hp, Hc.
Qed.

(** C5. Whenever the configuration holds an install location (a non-empty
    string under [netCoreSDKLocation]), [netcoreInstallLocation] is exactly
    that string, on every platform and whatever the default directories
    contain. *)
Theorem configured_location_wins (w : World) (location : string) :
  configuration w !! NetCoreInstallLocationKey = Some (JString location) ->
  location <> "" ->
  netcoreInstallLocation host w = JString location.
Proof.
  intros Hcfg Hne.
  unfold netcoreInstallLocation, getConfiguration, js_or. rewrite Hcfg. simpl.
  destruct location; [done | reflexivity].
Qed.

(** The prompt shows one dialog and starts no process, whatever the user
    answers. *)
Lemma showInstallDialog_log result w :
  dialogs_shown (effects (showInstallDialog constants result w))
    = S (dialogs_shown (effects w))
  /\ processes_spawned (effects (showInstallDialog constants result w))
    = processes_spawned (effects w).
Proof.
  unfold showInstallDialog.
  destruct result as [button|]; simpl;
    repeat (match goal with |- context [String.eqb ?a ?b] => destruct (String.eqb a b) end);
    unfold config_update; simpl;
    rewrite ?perform_effects, ?dialogs_shown_app, ?processes_spawned_app; simpl;
    rewrite ?dialogs_shown_app, ?processes_spawned_app;
    unfold dialogs_shown, processes_spawned; simpl; lia.
Qed.

Lemma gate_presence w :
  isNetCoreInstallationPresent host (set_netCoreError noError w)
  = (installation_present host w,
     if installation_present host w then set_netCoreError noError w
     else set_netCoreError netCoreNotPresent (set_netCoreError noError w)).
Proof.
  rewrite (installation_present_ext w (set_netCoreError noError w)) by done.
  unfold installation_present, isNetCoreInstallationPresent. reflexivity.
Qed.

(** C7. When the gate finds no installation and the do-not-ask-again flag is
    not [true], one call of [findOrInstallNetCore] returns [false] and
    shows exactly one install prompt; it starts no process. *)
Theorem prompt_once_when_missing events result w :
  installation_present host w = false ->
  is_true (getConfiguration w NetCoreDoNotAskAgainKey) = false ->
  fst (findOrInstallNetCore host constants events result w) = Returned false
  /\ dialogs_shown (effects (snd (findOrInstallNetCore host constants events result w)))
     = S (dialogs_shown (effects w))
  /\ processes_spawned (effects (snd (findOrInstallNetCore host constants events result w)))
     = processes_spawned (effects w).
Proof.
  intros Habsent Hflag.
  unfold findOrInstallNetCore. rewrite gate_presence, Habsent.
  unfold getConfiguration in *. simpl. rewrite Hflag. simpl. split; [done|].
  exact (showInstallDialog_log result
           (set_netCoreError netCoreNotPresent (set_netCoreError noError w))).
Qed.

(** C1, as the code has it. With the do-not-ask-again flag [true] the gate
    never shows the prompt and never returns [false]. When it finds no
    installation it returns [true] and does nothing else. When it finds
    one it still starts [dotnet --version], once, and returns [true] once
    that check is settled. *)
Theorem do_not_ask_again_gate events result w :
  is_true (getConfiguration w NetCoreDoNotAskAgainKey) = true ->
  let r := fst (findOrInstallNetCore host constants events result w) in
  let w' := snd (findOrInstallNetCore host constants events result w) in
  dialogs_shown (effects w') = dialogs_shown (effects w)
  /\ (installation_present host w = false ->
      r = Returned true /\ effects w' = effects w)
  /\ (installation_present host w = true ->
      processes_spawned (effects w') = S (processes_spawned (effects w))
      /\ (fst (onExit events w) <> Pending -> r = Returned true)
      /\ (fst (onExit events w) = Pending -> r = Never)).
Proof.
  intros Hflag r w'. subst r w'.
  unfold findOrInstallNetCore. rewrite gate_presence.
  destruct (installation_present host w) eqn:Hpresent; simpl.
  - unfold isNetCoreVersionSupported.
    set (w1 := perform _ (set_netCoreError noError w)).
    assert (Hp : fst (onExit events w1) = fst (onExit events w))
      by (by apply onExit_promise_ext).
    destruct (onExit_frame events w1) as [He Hc].
    destruct (onExit events w1) as [p w2]; simpl in *. rewrite <- Hp.
    assert (Hget : forall e, getConfiguration (set_netCoreError e w2) NetCoreDoNotAskAgainKey
                             = getConfiguration w NetCoreDoNotAskAgainKey)
      by (intros e; unfold getConfiguration; simpl; by rewrite Hc).
    assert (Hget' : getConfiguration w2 NetCoreDoNotAskAgainKey
                    = getConfiguration w NetCoreDoNotAskAgainKey)
      by (unfold getConfiguration; by rewrite Hc).
    assert (Hget'' : getConfiguration (perform ConsoleLog w2) NetCoreDoNotAskAgainKey
                     = getConfiguration w NetCoreDoNotAskAgainKey)
      by (unfold getConfiguration; simpl; by rewrite Hc).
    destruct p as [|[|]|reason]; simpl;
      rewrite ?Hget, ?Hget', ?Hget'', ?Hflag; simpl;
      rewrite ?perform_effects, ?He; subst w1; simpl;
      rewrite ?dialogs_shown_app, ?processes_spawned_app; simpl;
      rewrite ?dialogs_shown_app, ?processes_spawned_app;
      unfold dialogs_shown, processes_spawned; simpl;
      (split; [lia|]); (split; [done|]); intros _; (split; [lia|]); split; done.
  - unfold getConfiguration in *. simpl. rewrite Hflag. simpl.
    split; [done|]. split; [done|]. done.
Qed.

(** *** Discovery on Windows *)

Lemma nonempty_joined folder leaf :
  (forall a b, path_join host a b <> "") ->
  Semver.nonempty (path_join host folder leaf) = true.
Proof.
  intros Hne.
  destruct (path_join host folder leaf) eqn:E; [by destruct (Hne folder leaf) | done].
Qed.

(** C4, as the code has it. On Windows the directories named by
    [ProgramW6432], [ProgramFiles(x86)] and [ProgramFiles] are tried in that
    order; a directory is accepted when its join with the fixed name
    [dotnet] exists on disk, and the first such joined path is the result;
    without a match there is no result. [path.join] never gives the empty
    string. *)
Theorem windows_discovery :
  (forall a b, path_join host a b <> "") ->
  defaultWindowsLocation host = first_joined_path host "dotnet" windows_variables
  /\ forall w, osPlatform (tool w) = winPlatform ->
       defaultLocalInstallLocationByDistribution host w
       = first_joined_path host "dotnet" windows_variables.
Proof.
  intros Hne.
  assert (H : defaultWindowsLocation host
              = first_joined_path host "dotnet" windows_variables).
  { unfold defaultWindowsLocation, first_joined_path, windows_variables,
      getDotnetPathIfPresent. simpl.
    destruct (process_env host !! "ProgramW6432") as [d1|];
      destruct (process_env host !! "ProgramFiles(x86)") as [d2|];
      destruct (process_env host !! "ProgramFiles") as [d3|]; simpl;
      repeat (match goal with
              | |- context [fs_existsSync host ?p] => destruct (fs_existsSync host p) eqn:?
              end; simpl);
      rewrite ?nonempty_joined by done; simpl; rewrite ?nonempty_joined by done; done. }
  split; [done|].
  intros w Hwin. unfold defaultLocalInstallLocationByDistribution.
  rewrite Hwin. simpl. done.
Qed.

(** *** The version check *)

Lemma onExit_chunks chunks : forall w,
  exists w', onExit (chunk_events chunks) w = (Pending, w')
             /\ (forall events, onExit (chunk_events chunks ++ events) w = onExit events w').
Proof.
  induction chunks as [|[[|] chunk] chunks IH]; intros w; simpl.
  - by exists w.
  - apply IH.
  - apply IH.
Qed.

Lemma onExit_stderr errs : forall w events,
  onExit (map (Data Stderr) errs ++ events) w = onExit events w.
Proof. induction errs as [|err errs IH]; intros w events; simpl; [done | apply IH]. Qed.

(** After the chunks, with [v] the last chunk of stdout, the [exit] event
    settles the promise by [semver.gte(v, '3.1.0')]. *)
Lemma onExit_after_version chunks v errs code signal w :
  fst (onExit (chunk_events chunks ++ Data Stdout v :: map (Data Stderr) errs
               ++ [Exit code signal]) w)
  = match Semver.gte (Some v) (Some "3.1.0") with
    | Some b => Resolved b
    | None => Pending
    end.
Proof.
  destruct (onExit_chunks chunks w) as (w' & _ & ->).
  simpl. rewrite onExit_stderr. simpl. unfold exit_listener. simpl.
  destruct (Semver.gte (Some v) (Some "3.1.0")) as [[|]|]; done.
Qed.

Lemma isNetCoreVersionSupported_result events w :
  fst (isNetCoreVersionSupported events w)
  = match fst (onExit events w) with
    | Resolved b => Returned (Some b)
    | Rejected _ => Returned None
    | Pending => Never
    end.
Proof.
  unfold isNetCoreVersionSupported.
  rewrite <- (onExit_promise_ext events (perform (Spawn "dotnet --version" None None) w) w)
    by done.
  destruct (onExit events _) as [[|b|reason] w']; done.
Qed.




(** C6. With [v] the version string captured from the version check (the
    last chunk of stdout before the child exits),
    [isNetCoreVersionSupported] resolves to [true] exactly when [v] is the
    text of a version, between any white space, that is at least 3.1.0 in
    the precedence of semantic versions, and to [false] exactly when it is
    the text of a lower one; for [3.1.0] itself it resolves to [true]. *)
Theorem supported_iff_at_least_3_1_0 w chunks v errs code signal :
  let run version :=
    chunk_events chunks ++ Data Stdout version :: map (Data Stderr) errs
    ++ [Exit code signal] in
  (fst (isNetCoreVersionSupported (run v) w) = Returned (Some true)
   <-> exists sv, Semver.reads_as v sv
                  /\ Semver.at_least_release sv Semver.version_3_1_0)
  /\ (fst (isNetCoreVersionSupported (run v) w) = Returned (Some false)
      <-> exists sv, Semver.reads_as v sv
                     /\ ~ Semver.at_least_release sv Semver.version_3_1_0)
  /\ fst (isNetCoreVersionSupported (run "3.1.0") w) = Returned (Some true).
Proof.
  intros run. subst run. cbv beta.
  rewrite !isNetCoreVersionSupported_result, !onExit_after_version.
  rewrite <- gte_floor_true, <- gte_floor_false.
  split; [|split].
  - destruct (Semver.gte (Some v) (Some "3.1.0")) as [[|]|]; split; congruence.
  - destruct (Semver.gte (Some v) (Some "3.1.0")) as [[|]|]; split; congruence.
  - reflexivity.
Qed.

(** The white space around the version is any white space of JavaScript:
    what [dotnet --version] prints after a byte order mark, with the line
    end after it, is read as the version. *)
Lemma version_after_byte_order_mark w chunks errs code signal :
  fst (isNetCoreVersionSupported
         (chunk_events chunks
          ++ Data Stdout (JsString.bytes [239; 187; 191] +:+ "3.1.0" +:+ JsString.bytes [10])
          :: map (Data Stderr) errs ++ [Exit code signal]) w)
  = Returned (Some true).
Proof.
  rewrite isNetCoreVersionSupported_result, onExit_after_version. reflexivity.
Qed.

(** *** Streamed commands *)

Lemma add_effects_nil w : add_effects [] w = w.
Proof. destruct w. unfold add_effects. simpl. by rewrite app_nil_r. Qed.

Lemma add_effects_add l1 l2 w :
  add_effects l2 (add_effects l1 w) = add_effects (l1 ++ l2) w.
Proof. unfold add_effects. simpl. by rewrite app_assoc. Qed.

Lemma perform_add_effects e w : perform e w = add_effects [e] w.
Proof. reflexivity. Qed.

Lemma outputDataChunk_lines data header w :
  outputDataChunk data header w = add_effects (prefixed_lines header data) w.
Proof.
  unfold outputDataChunk, prefixed_lines.
  generalize (JsString.split_lines data) as lines. intros lines. revert w.
  induction lines as [|line lines IH]; intros w; simpl.
  - by rewrite add_effects_nil.
  - by rewrite IH, perform_add_effects, add_effects_add.
Qed.

Lemma streamed_listeners command events : forall stdoutData w,
  fold_left (streamed_listener command) events (stdoutData, w)
  = (stdoutData ++ stdout_chunks events,
     add_effects (flat_map (channel_output command) events) w).
Proof.
  induction events as [|e events IH]; intros stdoutData w; simpl.
  - by rewrite app_nil_r, add_effects_nil.
  - destruct e as [[|] chunk|[code|] signal|]; simpl;
      rewrite IH, ?outputDataChunk_lines, ?perform_add_effects, ?add_effects_add.
    + by rewrite <- app_assoc.
    + done.
    + done.
    + done.
    + rewrite <- (add_effects_nil w) at 1. by rewrite add_effects_add.
Qed.

Lemma append_empty_r (s : string) : s +:+ "" = s.
Proof.
  induction s as [|c s IH]; [done|].
  change (String c (s +:+ "") = String c s). by rewrite IH.
Qed.

Lemma concat_empty_separator pieces :
  String.concat "" pieces = fold_right String.append "" pieces.
Proof.
  induction pieces as [|piece pieces IH]; [done|].
  simpl. rewrite <- IH. destruct pieces; [|done].
  simpl. by rewrite append_empty_r.
Qed.

Lemma stdout_chunks_without_stderr events :
  stdout_chunks (without_stderr events) = stdout_chunks events.
Proof.
  induction events as [|e events IH]; [done|].
  destruct e as [[|] chunk|code signal|]; simpl; unfold stdout_chunks in *; simpl;
    by rewrite ?IH.
Qed.

(** C3. For every sequence of events of the child, the string that
    [runStreamedCommand] returns is the chunks of stdout put one after the
    other in the order of arrival; it is the same when the chunks of stderr
    are taken away; and the output channel gets, after the command line,
    for each chunk its lines with the header of its stream in front. *)
Theorem streamed_result_is_stdout command options events w :
  let r := runStreamedCommand host command options events (Resolved tt) w in
  fst r = Returned (fold_right String.append "" (stdout_chunks events))
  /\ fst (runStreamedCommand host command options (without_stderr events) (Resolved tt) w)
     = fst r
  /\ exists cwd env,
       effects (snd r)
       = effects w
         ++ [AppendLine ("    > " +:+ command); Spawn command cwd env; ChannelShow]
         ++ flat_map (channel_output command) events.
Proof.
  unfold runStreamedCommand. cbv zeta. rewrite !streamed_listeners. simpl.
  rewrite !concat_empty_separator, stdout_chunks_without_stderr.
  split; [done|]. split; [done|].
  eexists _, _. rewrite <- !app_assoc. simpl. reflexivity.
Qed.

End NetCoreProperties.

Section ServerTreeProperties.
Import ServerTree.
Variable services : Services.

(** C8. A target that is neither a connection profile nor a connection
    group is rejected by [onDragOver], whatever is dragged. *)
Theorem other_targets_rejected (data : list element) (targetElement : element) :
  is_connection_element targetElement = false ->
  onDragOver services data targetElement = Returned DRAG_OVER_REJECT.
Proof. intros H. by destruct targetElement. Qed.

Lemma drop_not_allowed data targetElement st :
  (forall oldParent,
     source_getParent (first_source data) = Some oldParent ->
     isDropAllowed services (getTargetGroup targetElement) oldParent (first_source data)
     = false) ->
  calls (snd (drop services data targetElement st)) = calls st.
Proof.
  intros H. unfold drop.
  destruct (source_getParent (first_source data)) as [oldParent|]; [|done].
  by rewrite (H oldParent).
Qed.

(** C9. [drop] makes no call to the connection management service when
    the parent of the source equals the target group, or the source is a
    group with the name of the target group, or the source is the group of
    unsaved connections. *)
Theorem drop_leaves_configuration (data : list element) (targetElement : element)
    (st : State) :
  (exists old, source_getParent (first_source data) = Some (Some old)
               /\ equals services old (getTargetGroup targetElement) = true)
  \/ (exists sg, first_source data = Group sg
                 /\ target_name (getTargetGroup targetElement) = Some (group_name sg))
  \/ (exists sg, first_source data = Group sg
                 /\ group_id sg = UNSAVED_GROUP_ID services) ->
  calls (snd (drop services data targetElement st)) = calls st.
Proof.
  intros Hcase. apply drop_not_allowed. intros oldParent HoldParent.
  unfold isDropAllowed.
  destruct Hcase as [(old & Hparent & Hequal) | [(sg & Hs & Hname) | (sg & Hs & Hid)]].
  - rewrite Hparent in HoldParent. injection HoldParent as <-. by rewrite Hequal.
  - rewrite Hs, Hname.
    destruct (getTargetGroup targetElement); [| |done];
      rewrite bool_decide_eq_true_2 by done; simpl; by rewrite andb_false_r.
  - rewrite Hs, Hid. rewrite String.eqb_refl. simpl. by rewrite andb_false_r.
Qed.

End ServerTreeProperties.

Section NotebookCardProperties.
Import NotebookCard.
Variables DEFAULT_VIEW_CARD_WIDTH DEFAULT_VIEW_CARD_HEIGHT : number.

Lemma field_or_fallback field fallback c :
  lacks field c -> field_or field fallback c = Returned fallback.
Proof.
  unfold lacks, field_or.
  intros [Hmeta | [Hdata | (d & Hdata & Hfalsy)]].
  - unfold data. by rewrite Hmeta.
  - by rewrite Hdata.
  - rewrite Hdata. simpl. by rewrite Hfalsy.
Qed.

(** C10. When the cell has no entry for the view, or the entry has no
    width (height) or a falsy one, 0 included, the [width] getter gives
    [DEFAULT_VIEW_CARD_WIDTH] and the [height] getter gives
    [DEFAULT_VIEW_CARD_HEIGHT]. *)
Theorem card_size_defaults (c : NotebookViewsCardComponent) :
  (lacks view_width c -> width DEFAULT_VIEW_CARD_WIDTH c = Returned DEFAULT_VIEW_CARD_WIDTH)
  /\ (lacks view_height c ->
      height DEFAULT_VIEW_CARD_HEIGHT c = Returned DEFAULT_VIEW_CARD_HEIGHT).
Proof. split; apply field_or_fallback. Qed.

End NotebookCardProperties.

(** * Worked cases *)

Section WorkedCases.
Import NetCore Samples.

Lemma configured_location_wins_witness :
  let w := Samples.fresh Samples.linux_host
             (<[NetCore.NetCoreInstallLocationKey := JString "/opt/dotnet"]> ∅) in
  NetCore.configuration w !! NetCore.NetCoreInstallLocationKey = Some (JString "/opt/dotnet")
  /\ "/opt/dotnet" <> ""
  /\ NetCore.netcoreInstallLocation Samples.linux_host w = JString "/opt/dotnet".
Proof.
  assert (H1 : NetCore.configuration
                 (Samples.fresh Samples.linux_host
                    (<[NetCore.NetCoreInstallLocationKey := JString "/opt/dotnet"]> ∅))
               !! NetCore.NetCoreInstallLocationKey = Some (JString "/opt/dotnet"))
    by reflexivity.
  assert (H2 : "/opt/dotnet" <> "") by discriminate.
  exact (conj H1 (conj H2 (configured_location_wins Samples.linux_host _ _ H1 H2))).
Defined.

(** C1 as stated fails: with the flag [true] and the SDK directory in
    place, the gate starts [dotnet --version]. *)
Lemma gate_spawns_despite_do_not_ask :
  let w := fresh linux_host do_not_ask in
  let r := findOrInstallNetCore linux_host sample_constants
             (version_run "3.1.100" 0%Z) None w in
  is_true (getConfiguration w NetCoreDoNotAskAgainKey) = true
  /\ fst r = Returned true
  /\ effects (snd r) = [Spawn "dotnet --version" None None].
Proof. vm_compute. repeat split; reflexivity. Qed.

(** With the flag [true], the SDK directory in place and no [dotnet] on the
    path (the shell exits with 127 and nothing was captured), the [exit]
    listener throws and the gate is never settled. *)
Example gate_unsettled_without_version :
  fst (findOrInstallNetCore linux_host sample_constants
         [Data Stderr "dotnet: not found"; Exit (Some 127%Z) None] None
         (fresh linux_host do_not_ask))
  = Never.
Proof. vm_compute. reflexivity. Qed.

Lemma do_not_ask_again_gate_witness :
  let w := fresh linux_host do_not_ask in
  let r := findOrInstallNetCore linux_host sample_constants
             (version_run "3.1.100" 0%Z) None w in
  is_true (getConfiguration w NetCoreDoNotAskAgainKey) = true
  /\ dialogs_shown (effects (snd r)) = dialogs_shown (effects w)
  /\ (installation_present linux_host w = false ->
      fst r = Returned true /\ effects (snd r) = effects w)
  /\ (installation_present linux_host w = true ->
      processes_spawned (effects (snd r)) = S (processes_spawned (effects w))
      /\ (fst (onExit (version_run "3.1.100" 0%Z) w) <> Pending -> fst r = Returned true)
      /\ (fst (onExit (version_run "3.1.100" 0%Z) w) = Pending -> fst r = Never)).
Proof.
  assert (H : is_true (getConfiguration (fresh linux_host do_not_ask)
                         NetCoreDoNotAskAgainKey) = true) by reflexivity.
  exact (conj H (do_not_ask_again_gate linux_host sample_constants
                   (version_run "3.1.100" 0%Z) None (fresh linux_host do_not_ask) H)).
Defined.

Lemma prompt_once_when_missing_witness :
  let w := fresh bare_host ∅ in
  let r := findOrInstallNetCore bare_host sample_constants [] (Some "Install") w in
  installation_present bare_host w = false
  /\ is_true (getConfiguration w NetCoreDoNotAskAgainKey) = false
  /\ fst r = Returned false
  /\ dialogs_shown (effects (snd r)) = S (dialogs_shown (effects w))
  /\ processes_spawned (effects (snd r)) = processes_spawned (effects w).
Proof.
  assert (H1 : installation_present bare_host (fresh bare_host ∅) = false) by reflexivity.
  assert (H2 : is_true (getConfiguration (fresh bare_host ∅) NetCoreDoNotAskAgainKey) = false)
    by reflexivity.
  exact (conj H1 (conj H2 (prompt_once_when_missing bare_host sample_constants []
                             (Some "Install") (fresh bare_host ∅) H1 H2))).
Defined.



(** C4 as stated fails: under Program Files there is the directory
    [dotnet] and no [dotnet.exe]; joining with the name of the executable
    finds nothing, and the code answers the directory. *)
Lemma windows_discovery_joins_directory_name :
  dotnet windows_host = "dotnet.exe"
  /\ first_joined_path windows_host (dotnet windows_host) windows_variables = None
  /\ defaultWindowsLocation windows_host = Some "C:\Program Files\dotnet".
Proof. vm_compute. repeat split; reflexivity. Qed.

Lemma windows_join_nonempty a b : path_join windows_host a b <> "".
Proof. destruct a; discriminate. Qed.

Lemma windows_discovery_witness :
  (forall a b, path_join windows_host a b <> "")
  /\ defaultWindowsLocation windows_host
     = first_joined_path windows_host "dotnet" windows_variables
  /\ forall w, osPlatform (tool w) = winPlatform ->
       defaultLocalInstallLocationByDistribution windows_host w
       = first_joined_path windows_host "dotnet" windows_variables.
Proof.
  exact (conj windows_join_nonempty (windows_discovery windows_host windows_join_nonempty)).
Defined.

(** [echo hello]: the result is the line with its end, and the channel shows
    the command, the line, an empty line after the line end, and the exit
    code. *)
Example echo_hello :
  let r := runStreamedCommand linux_host "echo hello" None
             [Data Stdout ("hello" +:+ LF); Exit (Some 0%Z) None] (Resolved tt)
             (fresh linux_host ∅) in
  fst r = Returned ("hello" +:+ LF)
  /\ effects (snd r)
     = [AppendLine "    > echo hello";
        Spawn "echo hello" None (Some ∅);
        ChannelShow;
        AppendLine "    stdout: hello";
        AppendLine "    stdout: ";
        AppendLine "    >>> echo hello    … exited with code: 0"].
Proof. vm_compute. split; reflexivity. Qed.

Lemma other_targets_rejected_witness :
  ServerTree.is_connection_element ServerTree.Nothing = false
  /\ ServerTree.onDragOver sample_services [ServerTree.Profile server1] ServerTree.Nothing
     = Returned ServerTree.DRAG_OVER_REJECT.
Proof.
  assert (H : ServerTree.is_connection_element ServerTree.Nothing = false) by reflexivity.
  exact (conj H (other_targets_rejected sample_services [ServerTree.Profile server1]
                   ServerTree.Nothing H)).
Defined.

(** Dropping a profile on a group moves it, except on its own group. *)
Example drop_moves_profile :
  ServerTree.calls
    (snd (ServerTree.drop sample_services [ServerTree.Profile server1]
            (ServerTree.Group staging) no_calls))
  = [ServerTree.changeGroupIdForConnection server1 (Some "g2")].
Proof. vm_compute. reflexivity. Qed.

Lemma drop_leaves_configuration_witness :
  let data := [ServerTree.Profile server1] in
  let target := ServerTree.Group production in
  ((exists old, ServerTree.source_getParent (ServerTree.first_source data) = Some (Some old)
                /\ ServerTree.equals sample_services old (ServerTree.getTargetGroup target)
                   = true)
   \/ (exists sg, ServerTree.first_source data = ServerTree.Group sg
                  /\ ServerTree.target_name (ServerTree.getTargetGroup target)
                     = Some (ServerTree.group_name sg))
   \/ (exists sg, ServerTree.first_source data = ServerTree.Group sg
                  /\ ServerTree.group_id sg = ServerTree.UNSAVED_GROUP_ID sample_services))
  /\ ServerTree.calls (snd (ServerTree.drop sample_services data target no_calls))
     = ServerTree.calls no_calls.
Proof.
  pose (data := [ServerTree.Profile server1]).
  pose (target := ServerTree.Group production).
  assert (H : (exists old, ServerTree.source_getParent (ServerTree.first_source data)
                           = Some (Some old)
                /\ ServerTree.equals sample_services old (ServerTree.getTargetGroup target)
                   = true)
   \/ (exists sg, ServerTree.first_source data = ServerTree.Group sg
                  /\ ServerTree.target_name (ServerTree.getTargetGroup target)
                     = Some (ServerTree.group_name sg))
   \/ (exists sg, ServerTree.first_source data = ServerTree.Group sg
                  /\ ServerTree.group_id sg = ServerTree.UNSAVED_GROUP_ID sample_services)).
  { left. exists production. split; reflexivity. }
  exact (conj H (drop_leaves_configuration sample_services data target no_calls H)).
Defined.

Lemma card_size_defaults_witness :
  NotebookCard.lacks NotebookCard.view_width flat_card
  /\ NotebookCard.lacks NotebookCard.view_height flat_card
  /\ NotebookCard.width (NotebookCard.Num 12%Z) flat_card = Returned (NotebookCard.Num 12%Z)
  /\ NotebookCard.height (NotebookCard.Num 4%Z) flat_card = Returned (NotebookCard.Num 4%Z).
Proof.
  assert (Hw : NotebookCard.lacks NotebookCard.view_width flat_card).
  { right. right. eexists. split; reflexivity. }
  assert (Hh : NotebookCard.lacks NotebookCard.view_height flat_card).
  { right. right. eexists. split; reflexivity. }
  pose proof (card_size_defaults (NotebookCard.Num 12%Z) (NotebookCard.Num 4%Z) flat_card)
    as [Hwidth Hheight].
  exact (conj Hw (conj Hh (conj (Hwidth Hw) (Hheight Hh)))).
Defined.

End WorkedCases.

(** * Further properties of the SDK gate *)

Section GateProperties.
Import NetCore NetCoreCommand.
Variable host : Host.
Variable constants : Constants.

Local Abbreviation gate := (findOrInstallNetCore host constants).
Local Abbreviation flag w := (is_true (getConfiguration w NetCoreDoNotAskAgainKey)).
Local Abbreviation version_spawned w :=
  (perform (Spawn "dotnet --version" None None) (set_netCoreError noError w)).

(** The gate, one case per way the checks can end. *)
Lemma gate_unfold events result w :
  gate events result w
  = let finish w' :=
      if flag w then (Returned true, w')
      else (Returned false, showInstallDialog constants result w') in
    if installation_present host w then
      match onExit events (version_spawned w) with
      | (Resolved true, w') => (Returned true, w')
      | (Resolved false, w') => finish (set_netCoreError netCoreVersionNotSupported w')
      | (Rejected _, w') => finish (perform ConsoleLog w')
      | (Pending, w') => (Never, w')
      end
    else finish (set_netCoreError netCoreNotPresent (set_netCoreError noError w)).
Proof.
  unfold findOrInstallNetCore. rewrite gate_presence.
  destruct (installation_present host w); simpl.
  - unfold isNetCoreVersionSupported.
    destruct (onExit_frame events (version_spawned w)) as [_ Hc].
    destruct (onExit events (version_spawned w)) as [p w']; simpl in *.
    unfold getConfiguration.
    destruct p as [|[|]|reason]; simpl; rewrite ?Hc; simpl;
      try (destruct (is_true _)); done.
  - unfold getConfiguration. simpl. by destruct (is_true _).
Qed.

Lemma onExit_version_spawned events w :
  fst (onExit events (version_spawned w)) = fst (onExit events w).
Proof. by apply onExit_promise_ext. Qed.

(** The listeners of the version check leave the recorded error and the
    platform as they are. *)
Lemma onExit_tool_frame events : forall w,
  netCoreError (tool (snd (onExit events w))) = netCoreError (tool w)
  /\ osPlatform (tool (snd (onExit events w))) = osPlatform (tool w).
Proof.
  induction events as [|e events IH]; intros w; [done|].
  destruct e as [[|] chunk|code signal|]; simpl.
  - destruct (IH (stdout_listener chunk w)) as [-> ->]. done.
  - apply IH.
  - destruct (exit_listener w); [done | apply IH].
  - done.
Qed.

Lemma showInstallDialog_tool result w :
  tool (showInstallDialog constants result w) = tool w.
Proof.
  unfold showInstallDialog.
  destruct result as [button|]; simpl; [|done].
  repeat (match goal with |- context [String.eqb ?a ?b] => destruct (String.eqb a b) end);
    done.
Qed.

Lemma showInstallDialog_configuration result w key :
  configuration (showInstallDialog constants result w) !! key = configuration w !! key
  \/ (key = NetCoreDoNotAskAgainKey
      /\ result = Some (DoNotAskAgain constants)
      /\ configuration (showInstallDialog constants result w) !! key = Some (JBool true)).
Proof.
  unfold showInstallDialog.
  destruct result as [button|]; simpl; [|by left].
  destruct (String.eqb button (UpdateNetCoreLocation constants)); [by left|].
  destruct (String.eqb button (InstallNetCore constants)); [by left|].
  destruct (String.eqb_spec button (DoNotAskAgain constants)) as [->|]; [|by left].
  simpl. destruct (decide (key = NetCoreDoNotAskAgainKey)) as [->|Hne].
  - right. by rewrite lookup_insert_eq.
  - left. by rewrite lookup_insert_ne.
Qed.

(** X1. With the do-not-ask-again flag not [true], the gate returns [true]
    exactly when it finds an installation and the version check resolves to
    [true]; it returns [false] in every other case in which the version
    check is settled or not needed. *)
Theorem gate_passes_iff events result w :
  flag w = false ->
  (fst (gate events result w) = Returned true
   <-> installation_present host w = true /\ fst (onExit events w) = Resolved true)
  /\ (fst (gate events result w) = Returned false
      <-> installation_present host w = false
          \/ fst (onExit events w) = Resolved false
          \/ exists reason, fst (onExit events w) = Rejected reason).
Proof.
  intros Hflag. rewrite gate_unfold, Hflag. cbv zeta.
  destruct (installation_present host w); simpl.
  - rewrite <- (onExit_version_spawned events w).
    destruct (onExit events (version_spawned w)) as [[|[|]|reason] w']; simpl;
      (split; split); try done; try (intros [? ?]; done); try (intros _; eauto; done).
    all: intros [? | [? | [? ?]]]; done.
  - split; split; try done; try (intros [? ?]; done). by left.
Qed.

(** X2. The gate shows a prompt exactly when it returns [false]: the
    messages shown grow by one then, by the not-present message when no
    installation was found and else by the unsupported-version message made
    from the version captured so far; in every other case no prompt is
    shown. *)
Theorem prompt_message events result w :
  shown_messages (effects (snd (gate events result w)))
  = shown_messages (effects w)
    ++ match fst (gate events result w) with
       | Returned false =>
           [if installation_present host w
            then NetCoreSupportedVersionInstallationConfirmation constants
                   (netCoreSdkInstalledVersion (tool (snd (gate events result w))))
            else NetCoreInstallationConfirmation constants]
       | _ => []
       end.
Proof.
  assert (Hdialog : forall w',
    shown_messages (effects (showInstallDialog constants result w'))
    = shown_messages (effects w')
      ++ [match netCoreError (tool w') with
          | netCoreNotPresent => NetCoreInstallationConfirmation constants
          | _ => NetCoreSupportedVersionInstallationConfirmation constants
                   (netCoreSdkInstalledVersion (tool w'))
          end]).
  { intros w'. unfold showInstallDialog, shown_messages.
    destruct result as [button|]; simpl;
      repeat (match goal with |- context [String.eqb ?a ?b] => destruct (String.eqb a b) end);
      unfold config_update; simpl; rewrite ?omap_app; simpl; by rewrite ?app_nil_r. }
  rewrite gate_unfold. cbv zeta.
  destruct (installation_present host w); simpl.
  - destruct (onExit_frame events (version_spawned w)) as [He _].
    destruct (onExit_tool_frame events (version_spawned w)) as [Herr _].
    destruct (onExit events (version_spawned w)) as [[|[|]|reason] w']; simpl in *;
      destruct (flag w); simpl;
      rewrite ?Hdialog, ?showInstallDialog_tool; simpl; rewrite ?Herr, ?He; simpl;
      unfold shown_messages; rewrite ?omap_app; simpl; by rewrite ?app_nil_r.
  - destruct (flag w); simpl; rewrite ?Hdialog, ?showInstallDialog_tool; simpl;
      by rewrite ?app_nil_r.
Qed.

(** X3. Whatever error an earlier call left, after the gate the recorded
    error tells how this call went: not present when no installation was
    found, version not supported when the version check resolved to
    [false], and no error otherwise. *)
Theorem gate_error_state events result w :
  netCoreError (tool (snd (gate events result w)))
  = if installation_present host w then
      match fst (onExit events w) with
      | Resolved false => netCoreVersionNotSupported
      | _ => noError
      end
    else netCoreNotPresent.
Proof.
  rewrite gate_unfold. cbv zeta.
  destruct (installation_present host w); simpl.
  - rewrite <- (onExit_version_spawned events w).
    destruct (onExit_tool_frame events (version_spawned w)) as [Herr _].
    destruct (onExit events (version_spawned w)) as [[|[|]|reason] w']; simpl in *;
      destruct (flag w); simpl; rewrite ?showInstallDialog_tool; simpl; done.
  - destruct (flag w); simpl; rewrite ?showInstallDialog_tool; done.
Qed.

(** X4. The gate touches one key of the configuration only: every other
    key reads as before, and [netCoreDoNotAsk] changes only to [true], and
    only when the answer to the prompt is the do-not-ask-again button. *)
Theorem gate_configuration_frame events result w key :
  configuration (snd (gate events result w)) !! key = configuration w !! key
  \/ (key = NetCoreDoNotAskAgainKey
      /\ result = Some (DoNotAskAgain constants)
      /\ fst (gate events result w) = Returned false
      /\ configuration (snd (gate events result w)) !! key = Some (JBool true)).
Proof.
  rewrite gate_unfold. cbv zeta.
  assert (Hfinish : forall w', configuration w' = configuration w ->
    configuration (snd (if flag w then (Returned true, w')
                        else (Returned false, showInstallDialog constants result w'))) !! key
    = configuration w !! key
    \/ (key = NetCoreDoNotAskAgainKey
        /\ result = Some (DoNotAskAgain constants)
        /\ fst (if flag w then (Returned true, w')
                else (@Returned bool false, showInstallDialog constants result w'))
           = Returned false
        /\ configuration (snd (if flag w then (Returned true, w')
                               else (Returned false, showInstallDialog constants result w')))
             !! key = Some (JBool true))).
  { intros w' Hc. destruct (flag w); simpl.
    - left. by rewrite Hc.
    - destruct (showInstallDialog_configuration result w' key) as [H | (H1 & H2 & H3)].
      + left. by rewrite H, Hc.
      + by right. }
  destruct (installation_present host w); simpl.
  - destruct (onExit_frame events (version_spawned w)) as [_ Hc].
    destruct (onExit events (version_spawned w)) as [[|[|]|reason] w']; simpl in *.
    + left. by rewrite Hc.
    + left. by rewrite Hc.
    + by apply Hfinish.
    + by apply Hfinish.
  - by apply Hfinish.
Qed.

End GateProperties.

Section GateSequences.
Import NetCore NetCoreCommand.
Variable host : Host.
Variable constants : Constants.

Local Abbreviation gate := (findOrInstallNetCore host constants).
Local Abbreviation flag w := (is_true (getConfiguration w NetCoreDoNotAskAgainKey)).

Lemma gate_with_flag events result w :
  flag w = true ->
  fst (gate events result w) <> Returned false
  /\ shown_messages (effects (snd (gate events result w))) = shown_messages (effects w).
Proof.
  intros Hflag. rewrite gate_unfold, Hflag. cbv zeta.
  destruct (installation_present host w); simpl; [|done].
  destruct (onExit_frame events
              (perform (Spawn "dotnet --version" None None) (set_netCoreError noError w)))
    as [He _].
  destruct (onExit events _) as [[|[|]|reason] w']; simpl in *;
    rewrite ?He; unfold shown_messages; rewrite ?omap_app; simpl;
    by rewrite ?app_nil_r.
Qed.

(** X5. After a call of the gate that is answered with the
    do-not-ask-again button, the flag reads [true], and every later call
    under that configuration, by the same instance or by a new one, shows
    no prompt and does not return [false]. The button is a label of its
    own. *)
Theorem suppress_then_pass events w events' result' w2 :
  DoNotAskAgain constants <> UpdateNetCoreLocation constants ->
  DoNotAskAgain constants <> InstallNetCore constants ->
  fst (gate events (Some (DoNotAskAgain constants)) w) = Returned false ->
  configuration w2 = configuration (snd (gate events (Some (DoNotAskAgain constants)) w)) ->
  flag (snd (gate events (Some (DoNotAskAgain constants)) w)) = true
  /\ fst (gate events' result' w2) <> Returned false
  /\ shown_messages (effects (snd (gate events' result' w2))) = shown_messages (effects w2).
Proof.
  intros Hu Hi Hfalse Hcfg.
  assert (Hdialog : forall w', flag (showInstallDialog constants
                                       (Some (DoNotAskAgain constants)) w') = true).
  { intros w'. unfold showInstallDialog.
    destruct (String.eqb_spec (DoNotAskAgain constants) (UpdateNetCoreLocation constants));
      [done|].
    destruct (String.eqb_spec (DoNotAskAgain constants) (InstallNetCore constants)); [done|].
    rewrite String.eqb_refl. unfold getConfiguration, config_update. simpl.
    by rewrite lookup_insert_eq. }
  assert (Hflag : flag (snd (gate events (Some (DoNotAskAgain constants)) w)) = true).
  { revert Hfalse. rewrite gate_unfold. cbv zeta.
    destruct (installation_present host w).
    - destruct (onExit events _) as [[|[|]|reason] w'];
        destruct (flag w); cbn [fst snd]; try done; intros _; apply Hdialog.
    - destruct (flag w); cbn [fst snd]; [done|]. intros _. apply Hdialog. }
  split; [done|].
  apply gate_with_flag. unfold getConfiguration. rewrite Hcfg. exact Hflag.
Qed.

(** X6. The version string the version check captures stays on the
    instance, supported or not: after a run whose last chunk of stdout is
    [v], the captured version is [v], however the check ends. *)
Theorem captured_version_kept w chunks v errs code signal :
  netCoreSdkInstalledVersion
    (tool (snd (isNetCoreVersionSupported
                  (chunk_events chunks ++ Data Stdout v :: map (Data Stderr) errs
                   ++ [Exit code signal]) w)))
  = Some v.
Proof.
  unfold isNetCoreVersionSupported.
  destruct (onExit_chunks chunks (perform (Spawn "dotnet --version" None None) w))
    as (w' & _ & ->).
  simpl. rewrite onExit_stderr. simpl.
  destruct (exit_listener (stdout_listener v w')) as [[|]|]; done.
Qed.

(** X7. When the child prints nothing on stdout before it exits, the check
    is decided by the version an earlier call captured; on an instance that
    has captured none, the [exit] listener throws and the check is never
    settled. *)
Theorem silent_exit_uses_earlier_version w errs code signal :
  fst (isNetCoreVersionSupported (map (Data Stderr) errs ++ [Exit code signal]) w)
  = match Semver.gte (netCoreSdkInstalledVersion (tool w)) (Some "3.1.0") with
    | Some supported => Returned (Some supported)
    | None => Never
    end
  /\ fst (isNetCoreVersionSupported (map (Data Stderr) errs ++ [Exit code signal])
            (mkWorld (new_NetCoreTool host) (configuration w) (effects w)))
     = Never.
Proof.
  assert (H : forall w',
            fst (isNetCoreVersionSupported (map (Data Stderr) errs ++ [Exit code signal]) w')
            = match Semver.gte (netCoreSdkInstalledVersion (tool w')) (Some "3.1.0") with
              | Some supported => Returned (Some supported)
              | None => Never
              end).
  { intros w'. rewrite isNetCoreVersionSupported_result, onExit_stderr. simpl.
    unfold exit_listener.
    destruct (Semver.gte _ _) as [[|]|]; done. }
  split; [apply H|]. by rewrite H.
Qed.

(** *** Discovery off Windows *)

Lemma getDotnetPathIfPresent_exists folder p :
  getDotnetPathIfPresent host folder = Some p -> fs_existsSync host p = true.
Proof.
  unfold getDotnetPathIfPresent. destruct folder as [f|]; [|done].
  destruct (fs_existsSync host (path_join host f "dotnet")) eqn:E; [|done].
  by intros [= <-].
Qed.

Lemma or_undefined_cases a b p :
  or_undefined a b = Some p -> a = Some p \/ b = Some p.
Proof.
  unfold or_undefined. destruct a as [s|]; [|by right].
  destruct (Semver.nonempty s); [by left | by right].
Qed.

Lemma default_location_exists w p :
  defaultLocalInstallLocationByDistribution host w = Some p -> fs_existsSync host p = true.
Proof.
  unfold defaultLocalInstallLocationByDistribution, defaultWindowsLocation,
    defaultnonWindowsLocation.
  destruct (String.eqb _ winPlatform).
  - intros [[H | H]%or_undefined_cases | H]%or_undefined_cases;
      by apply getDotnetPathIfPresent_exists in H.
  - destruct (_ || _); [|done].
    intros [[H | H]%or_undefined_cases | H]%or_undefined_cases;
      [by apply getDotnetPathIfPresent_exists in H
      |by apply getDotnetPathIfPresent_exists in H | done].
Qed.

(** X8. On macOS and Linux the default location is the first of
    [/usr/local/share] and the home directory whose join with [dotnet]
    exists on disk, as that joined path, and there is none when neither
    does. [path.join] never gives the empty string. *)
Theorem unix_discovery w :
  (forall a b, path_join host a b <> "") ->
  osPlatform (tool w) = macPlatform \/ osPlatform (tool w) = linuxPlatform ->
  defaultLocalInstallLocationByDistribution host w
  = first_joined_folder host "dotnet" [NextCoreNonWindowsDefaultPath; os_homedir host].
Proof.
  intros Hne Hplatform.
  unfold defaultLocalInstallLocationByDistribution.
  assert (Hwin : String.eqb (osPlatform (tool w)) winPlatform = false)
    by (destruct Hplatform as [-> | ->]; reflexivity).
  assert (Hunix : String.eqb (osPlatform (tool w)) macPlatform
                  || String.eqb (osPlatform (tool w)) linuxPlatform = true)
    by (destruct Hplatform as [-> | ->]; reflexivity).
  rewrite Hwin, Hunix.
  unfold defaultnonWindowsLocation, first_joined_folder, getDotnetPathIfPresent. simpl.
  repeat (match goal with
          | |- context [fs_existsSync host ?p] => destruct (fs_existsSync host p) eqn:?
          end; simpl);
    unfold or_undefined; rewrite ?nonempty_joined by done; simpl;
    rewrite ?nonempty_joined by done; done.
Qed.

(** X9. On a platform that is none of [win32], [darwin] and [linux] there
    is no default location: without a configured one the install location
    is undefined and the gate finds no installation. *)
Theorem unknown_platform_has_no_default w :
  osPlatform (tool w) <> winPlatform ->
  osPlatform (tool w) <> macPlatform ->
  osPlatform (tool w) <> linuxPlatform ->
  defaultLocalInstallLocationByDistribution host w = None
  /\ (truthy (getConfiguration w NetCoreInstallLocationKey) = false ->
      netcoreInstallLocation host w = JUndefined
      /\ installation_present host w = false).
Proof.
  intros Hw Hm Hl.
  assert (H : defaultLocalInstallLocationByDistribution host w = None).
  { unfold defaultLocalInstallLocationByDistribution.
    destruct (String.eqb_spec (osPlatform (tool w)) winPlatform); [done|].
    destruct (String.eqb_spec (osPlatform (tool w)) macPlatform); [done|].
    destruct (String.eqb_spec (osPlatform (tool w)) linuxPlatform); done. }
  split; [done|]. intros Hcfg.
  unfold installation_present, isNetCoreInstallationPresent, netcoreInstallLocation, js_or.
  rewrite Hcfg, H. done.
Qed.

(** X10. Without a configured location, the gate finds an installation
    exactly when the default discovery gives a path: a path that discovery
    gives exists on disk. *)
Theorem default_location_is_present w :
  truthy (getConfiguration w NetCoreInstallLocationKey) = false ->
  (forall p, defaultLocalInstallLocationByDistribution host w = Some p ->
             fs_existsSync host p = true)
  /\ (installation_present host w = true
      <-> exists p, defaultLocalInstallLocationByDistribution host w = Some p).
Proof.
  intros Hcfg. split; [apply default_location_exists|].
  unfold installation_present, isNetCoreInstallationPresent, netcoreInstallLocation, js_or.
  rewrite Hcfg.
  destruct (defaultLocalInstallLocationByDistribution host w) as [p|] eqn:E; simpl.
  - rewrite (default_location_exists w p E). split; eauto.
  - split; [done | by intros [p ?]].
Qed.

End GateSequences.

(** * Further properties of streamed commands *)

Section StreamedProperties.
Import NetCore NetCoreCommand JsString.
Variable host : Host.

Lemma concat_cons sep x (ls : list string) :
  ls <> [] -> String.concat sep (x :: ls) = x +:+ sep +:+ String.concat sep ls.
Proof. by destruct ls. Qed.

Lemma cons_head_facts c (ls : list string) :
  ls <> [] ->
  Ascii.eqb c LF = false ->
  cons_head c ls <> []
  /\ length (cons_head c ls) = length ls
  /\ (Forall (fun line => count_lf line = 0) ls ->
      Forall (fun line => count_lf line = 0) (cons_head c ls))
  /\ String.concat line_feed (cons_head c ls) = String c (String.concat line_feed ls).
Proof.
  intros Hne Hc. destruct ls as [|piece ls]; [done|]. simpl.
  split; [done|]. split; [done|]. split.
  - intros H. inversion H as [|? ? Hp Hls]; subst.
    constructor; [|done]. simpl. by rewrite Hc.
  - by destruct ls.
Qed.

Lemma split_lines_two_steps s :
  lines_of s (split_lines s) /\ forall c, lines_of (String c s) (split_lines (String c s)).
Proof.
  induction s as [|a s [IH0 IH1]].
  - split; [by repeat split; try constructor|].
    intros c. unfold lines_of. simpl.
    destruct (Ascii.eqb c LF) eqn:Hc; simpl.
    + apply Ascii.eqb_eq in Hc as ->. repeat split; try done. by repeat constructor.
    + repeat split; try done. repeat constructor. simpl. by rewrite Hc.
  - split; [apply IH1|].
    intros c. specialize (IH1 a).
    destruct IH1 as (Hne & Hlen & Hall & Hcat).
    destruct IH0 as (Hne0 & Hlen0 & Hall0 & Hcat0).
    unfold lines_of.
    change (split_lines (String c (String a s)))
      with (if Ascii.eqb c LF then EmptyString :: split_lines (String a s)
            else if Ascii.eqb c CR && Ascii.eqb a LF
                 then EmptyString :: split_lines s
                 else cons_head c (split_lines (String a s))).
    change (crlf_to_lf (String c (String a s)))
      with (if Ascii.eqb c CR && Ascii.eqb a LF
            then String LF (crlf_to_lf s)
            else String c (crlf_to_lf (String a s))).
    change (count_lf (String c (String a s)))
      with ((if Ascii.eqb c LF then 1 else 0) + count_lf (String a s)).
    destruct (Ascii.eqb c LF) eqn:Hc.
    + apply Ascii.eqb_eq in Hc as ->.
      change (Ascii.eqb LF CR) with false. cbn [andb].
      repeat split; [done | cbn [length]; by rewrite Hlen | by constructor |].
      rewrite concat_cons by done. by rewrite Hcat.
    + destruct (Ascii.eqb c CR && Ascii.eqb a LF) eqn:Hcr.
      * apply andb_prop in Hcr as [_ Ha]. apply Ascii.eqb_eq in Ha as ->.
        repeat split; [done | | by constructor |].
        -- cbn [length count_lf]. rewrite Hlen0, Ascii.eqb_refl. lia.
        -- rewrite concat_cons by done. by rewrite Hcat0.
      * destruct (cons_head_facts c (split_lines (String a s)) Hne Hc)
          as (Hne' & Hlen' & Hall' & Hcat').
        repeat split; [done | by rewrite Hlen', Hlen | by apply Hall' |].
        by rewrite Hcat', Hcat.
Qed.

Lemma outputDataChunk_effects data header w :
  effects (outputDataChunk data header w)
  = effects w ++ map (fun line => AppendLine (header +:+ line)) (split_lines data).
Proof. by rewrite outputDataChunk_lines. Qed.

(** X11. A chunk is put on the channel line by line: one more line than the
    chunk has line feeds (an empty chunk gives one line with the header
    alone), each with the header in front and without a line feed in it;
    joined with line feeds the lines are the chunk again, with each CR LF
    as LF. *)
Theorem chunk_lines data header w :
  exists lines,
    effects (outputDataChunk data header w)
    = effects w ++ map (fun line => AppendLine (header +:+ line)) lines
    /\ length lines = S (count_lf data)
    /\ Forall (fun line => count_lf line = 0) lines
    /\ String.concat line_feed lines = crlf_to_lf data.
Proof.
  exists (split_lines data). split; [apply outputDataChunk_effects|].
  destruct (split_lines_two_steps data) as [(_ & H) _]. exact H.
Qed.

(** X12. However the child ends, [runStreamedCommand] starts the command
    once, in the working directory of the options, with the environment of
    the process in which the variables of the options take the place of
    those of the same name; the channel gets the command line first, is
    brought to the front, and then gets what each event adds. *)
Theorem streamed_spawn command options events child w :
  exists env,
    effects (snd (runStreamedCommand host command options events child w))
    = effects w
      ++ [AppendLine ("    > " +:+ command);
          Spawn command (options ≫= workingDirectory) (Some env);
          ChannelShow]
      ++ flat_map (channel_output command) events
    /\ forall key,
         env !! key
         = match (options ≫= additionalEnvironmentVariables) ≫= (fun more => more !! key) with
           | Some value => Some value
           | None => process_env host !! key
           end.
Proof.
  unfold runStreamedCommand. cbv zeta. rewrite streamed_listeners.
  eexists. split.
  - destruct child; simpl; rewrite <- !app_assoc; reflexivity.
  - intros key.
    destruct (options ≫= additionalEnvironmentVariables) as [more|]; simpl; [|done].
    rewrite lookup_union.
    destruct (more !! key), (process_env host !! key); done.
Qed.

End StreamedProperties.

(** * Properties of [runDotnetCommand] *)

Section CommandProperties.
Import NetCore NetCoreCommand.
Variable host : Host.
Variable constants : Constants.
Variable utils : Utils.

Local Abbreviation gate := (findOrInstallNetCore host constants).
Local Abbreviation flag w := (is_true (getConfiguration w NetCoreDoNotAskAgainKey)).
Local Abbreviation version_spawned w :=
  (perform (Spawn "dotnet --version" None None) (set_netCoreError noError w)).
Local Abbreviation command_of folder o :=
  (getQuotedPath utils (path_join host folder (dotnet host)) +:+ " "
   +:+ default "undefined" (argument o)).

Lemma announce_frame options w :
  tool (announce options w) = tool w
  /\ configuration (announce options w) = configuration w
  /\ effects (announce options w)
     = effects w ++ match options ≫= commandTitle with
                    | Some title => [AppendLine (title_line title)]
                    | None => []
                    end.
Proof.
  unfold announce. destruct (options ≫= commandTitle); simpl; [done|].
  by rewrite app_nil_r.
Qed.

Lemma spawned_commands_app l1 l2 :
  spawned_commands (l1 ++ l2) = spawned_commands l1 ++ spawned_commands l2.
Proof. unfold spawned_commands. apply omap_app. Qed.

Lemma showInstallDialog_spawned result w :
  spawned_commands (effects (showInstallDialog constants result w))
  = spawned_commands (effects w).
Proof.
  unfold showInstallDialog.
  destruct result as [button|]; simpl;
    repeat (match goal with |- context [String.eqb ?a ?b] => destruct (String.eqb a b) end);
    unfold config_update; simpl; rewrite ?spawned_commands_app; simpl;
    rewrite ?spawned_commands_app; simpl; by rewrite ?app_nil_r.
Qed.

(** The gate starts the version check when it finds an installation, and
    nothing else. *)
Lemma gate_spawned_commands events result w :
  spawned_commands (effects (snd (gate events result w)))
  = spawned_commands (effects w)
    ++ if installation_present host w then ["dotnet --version"] else [].
Proof.
  rewrite gate_unfold. cbv zeta.
  destruct (installation_present host w); simpl.
  - destruct (onExit_frame events (version_spawned w)) as [He _].
    destruct (onExit events (version_spawned w)) as [[|[|]|reason] w']; simpl in *;
      destruct (flag w); simpl; rewrite ?showInstallDialog_spawned; simpl;
      rewrite ?He, ?spawned_commands_app; simpl; by rewrite ?app_nil_r.
  - destruct (flag w); simpl; rewrite ?showInstallDialog_spawned; simpl;
      by rewrite app_nil_r.
Qed.

(** A gate that lets the command through leaves the configuration and the
    platform as they are. *)
Lemma gate_passed_frame events result w :
  fst (gate events result w) = Returned true ->
  configuration (snd (gate events result w)) = configuration w
  /\ osPlatform (tool (snd (gate events result w))) = osPlatform (tool w).
Proof.
  rewrite gate_unfold. cbv zeta.
  destruct (installation_present host w); simpl.
  - destruct (onExit_frame events (version_spawned w)) as [_ Hc].
    destruct (onExit_tool_frame events (version_spawned w)) as [_ Hp].
    destruct (onExit events (version_spawned w)) as [[|[|]|reason] w']; simpl in *;
      destruct (flag w); simpl; done.
  - destruct (flag w); simpl; done.
Qed.

Lemma netcoreInstallLocation_ext w1 w2 :
  osPlatform (tool w1) = osPlatform (tool w2) ->
  configuration w1 = configuration w2 ->
  netcoreInstallLocation host w1 = netcoreInstallLocation host w2.
Proof.
  intros Hp Hc.
  unfold netcoreInstallLocation, defaultLocalInstallLocationByDistribution, getConfiguration.
  by rewrite Hp, Hc.
Qed.

Lemma channel_output_spawns_nothing command events :
  spawned_commands (flat_map (channel_output command) events) = [].
Proof.
  induction events as [|e events IH]; [done|].
  simpl. rewrite spawned_commands_app, IH, app_nil_r.
  destruct e as [[|] chunk|[code|] signal|]; simpl; try done;
    unfold prefixed_lines, spawned_commands;
    by induction (JsString.split_lines chunk).
Qed.

Lemma streamed_spawned_commands command options events child w :
  spawned_commands (effects (snd (runStreamedCommand host command options events child w)))
  = spawned_commands (effects w) ++ [command].
Proof.
  unfold runStreamedCommand. cbv zeta. rewrite streamed_listeners.
  destruct child; simpl; rewrite !spawned_commands_app, channel_output_spawns_nothing;
    simpl; by rewrite ?app_nil_r.
Qed.

(** X13. When the gate returns [false], [runDotnetCommand] runs nothing:
    the world is as the gate left it, the only process started is the
    version check, nothing is appended to the channel, and the error thrown
    carries the not-present message when no installation was found and
    else the unsupported-version message with the captured version. *)
Theorem refused_command_throws options version_events answer events child w :
  fst (gate version_events answer (announce options w)) = Returned false ->
  let run := runDotnetCommand host constants utils options version_events answer
               events child w in
  run_world run = snd (gate version_events answer (announce options w))
  /\ errored_out run = None
  /\ spawned_commands (effects (run_world run))
     = spawned_commands (effects w)
       ++ (if installation_present host w then ["dotnet --version"] else [])
  /\ run_outcome run
     = Threw (Error_of
                (if installation_present host w
                 then NetCoreSupportedVersionInstallationConfirmation constants
                        (netCoreSdkInstalledVersion (tool (run_world run)))
                 else NetCoreInstallationConfirmation constants)).
Proof.
  intros Hfalse run.
  destruct (announce_frame options w) as (Ht & Hc & He).
  assert (Hpresent : installation_present host (announce options w)
                     = installation_present host w)
    by (apply installation_present_ext; [by rewrite Ht | done]).
  assert (Hspawn : spawned_commands (effects (announce options w))
                   = spawned_commands (effects w)).
  { rewrite He, spawned_commands_app.
    destruct (options ≫= commandTitle); simpl; by rewrite app_nil_r. }
  pose proof (gate_spawned_commands version_events answer (announce options w)) as Hs.
  rewrite Hpresent, Hspawn in Hs.
  assert (Herr : netCoreError (tool (snd (gate version_events answer (announce options w))))
                 = netCoreNotPresent
                 <-> installation_present host w = false).
  { rewrite <- Hpresent. rewrite gate_unfold. cbv zeta.
    destruct (installation_present host (announce options w)); simpl.
    - destruct (onExit_tool_frame version_events (version_spawned (announce options w)))
        as [Herr _].
      destruct (onExit version_events (version_spawned (announce options w)))
        as [[|[|]|reason] w']; simpl in *;
        destruct (flag (announce options w)); simpl;
        rewrite ?showInstallDialog_tool; simpl; rewrite ?Herr; split; done.
    - destruct (flag (announce options w)); simpl; rewrite ?showInstallDialog_tool; done. }
  subst run. unfold runDotnetCommand. cbv zeta.
  destruct (gate version_events answer (announce options w)) as [r w1] eqn:Hgate.
  simpl in Hfalse, Hs, Herr. subst r.
  destruct (installation_present host w) eqn:Hp.
  - destruct (netCoreError (tool w1)) eqn:E; simpl.
    + destruct Herr as [Herr _]. by specialize (Herr eq_refl).
    + done.
    + done.
  - destruct Herr as [_ Herr]. rewrite (Herr eq_refl). done.
Qed.

(** X14. When the gate returns [true] and the install location is a
    string, the command line is the quoted join of the location with the
    name of the executable, a space and the argument. It is the only
    process started after the gate. A fulfilled child gives the text of
    stdout; the error of a rejected child is thrown on as it is, after the
    errored-out text for the command is appended to the channel. *)
Theorem passed_command_runs o version_events answer events child w folder :
  fst (gate version_events answer (announce (Some o) w)) = Returned true ->
  netcoreInstallLocation host w = JString folder ->
  let run := runDotnetCommand host constants utils (Some o) version_events answer
               events child w in
  spawned_commands (effects (run_world run))
  = spawned_commands (effects (snd (gate version_events answer (announce (Some o) w))))
    ++ [command_of folder o]
  /\ match child with
     | Resolved _ =>
         run_outcome run = Returned (fold_right String.append "" (stdout_chunks events))
         /\ errored_out run = None
     | Rejected error =>
         run_outcome run = Threw error
         /\ errored_out run = Some (errored_out_text utils (command_of folder o) error)
     | Pending => run_outcome run = Never /\ errored_out run = None
     end.
Proof.
  intros Htrue Hlocation run.
  destruct (announce_frame (Some o) w) as (Ht & Hc & _).
  destruct (gate_passed_frame version_events answer (announce (Some o) w) Htrue)
    as [Hc' Hp'].
  assert (Hloc : netcoreInstallLocation host
                   (snd (gate version_events answer (announce (Some o) w)))
                 = JString folder).
  { rewrite <- Hlocation. apply netcoreInstallLocation_ext.
    - by rewrite Hp', Ht.
    - by rewrite Hc', Hc. }
  subst run. unfold runDotnetCommand. cbv zeta.
  destruct (gate version_events answer (announce (Some o) w)) as [r w1].
  simpl in Htrue, Hloc |- *. subst r. rewrite Hloc. simpl.
  pose proof (streamed_spawned_commands (command_of folder o) (Some o) events child w1)
    as Hs.
  unfold runStreamedCommand in *. cbv zeta in *. rewrite streamed_listeners in *.
  destruct child as [|[]|error]; simpl in *;
    rewrite ?concat_empty_separator; done.
Qed.

(** X15. With the do-not-ask-again flag [true] and no install location at
    all (none configured, none discovered), [runDotnetCommand] passes the
    gate and then throws a [TypeError] when it joins the location: no
    process is started and nothing is appended to the channel. *)
Theorem unguarded_command_without_location options version_events answer events child w :
  flag w = true ->
  (forall folder, netcoreInstallLocation host w <> JString folder) ->
  let run := runDotnetCommand host constants utils options version_events answer
               events child w in
  run_outcome run = Threw TypeError
  /\ errored_out run = None
  /\ spawned_commands (effects (run_world run)) = spawned_commands (effects w).
Proof.
  intros Hflag Hlocation run.
  destruct (announce_frame options w) as (Ht & Hc & He).
  assert (Hloc : netcoreInstallLocation host (announce options w)
                 = netcoreInstallLocation host w)
    by (apply netcoreInstallLocation_ext; [by rewrite Ht | done]).
  assert (Hpresent : installation_present host (announce options w) = false).
  { unfold installation_present, isNetCoreInstallationPresent. simpl. rewrite Hloc.
    destruct (netcoreInstallLocation host w) as [|b|folder] eqn:E; simpl; try done.
    by destruct (Hlocation folder). }
  assert (Hflag' : flag (announce options w) = true)
    by (unfold getConfiguration in *; by rewrite Hc).
  assert (Hspawn : spawned_commands (effects (announce options w))
                   = spawned_commands (effects w)).
  { rewrite He, spawned_commands_app.
    destruct (options ≫= commandTitle); simpl; by rewrite app_nil_r. }
  subst run. unfold runDotnetCommand. cbv zeta.
  rewrite gate_unfold, Hpresent, Hflag'. cbv zeta. simpl.
  change (netcoreInstallLocation host
            (set_netCoreError netCoreNotPresent
               (set_netCoreError noError (announce options w))))
    with (netcoreInstallLocation host (announce options w)).
  rewrite Hloc.
  destruct (netcoreInstallLocation host w) as [|b|folder] eqn:E; simpl; try done.
  by destruct (Hlocation folder).
Qed.

End CommandProperties.

(** * Further properties of drag and drop *)

Section DragAndDropProperties.
Import ServerTree.
Variable services : Services.

(** X16. A group dragged over a connection profile or group is rejected
    exactly when it is dragged over itself (the same id) or over one of
    its descendants; otherwise it is accepted. *)
Theorem group_over_itself_or_descendant (data : list element) (sg : ConnectionGroup)
    (targetElement : element) :
  is_connection_element targetElement = true ->
  first_source data = Group sg ->
  (onDragOver services data targetElement = Returned DRAG_OVER_REJECT
   <-> element_id targetElement = Some (group_id sg)
       \/ isAncestorOf services sg targetElement = true)
  /\ (onDragOver services data targetElement = Returned (DRAG_OVER_ACCEPT_BUBBLE_DOWN true)
      <-> element_id targetElement <> Some (group_id sg)
          /\ isAncestorOf services sg targetElement = false).
Proof.
  intros Htarget Hsource. unfold onDragOver. rewrite Hsource.
  destruct targetElement as [tp|tg| |]; try done; simpl.
  - destruct (decide (Some (group_id sg) = Some (profile_id tp))) as [Heq|Hne];
      [rewrite bool_decide_eq_true_2 by done | rewrite bool_decide_eq_false_2 by done];
      destruct (isAncestorOf services sg (Profile tp)); simpl; intuition congruence.
  - destruct (decide (Some (group_id sg) = Some (group_id tg))) as [Heq|Hne];
      [rewrite bool_decide_eq_true_2 by done | rewrite bool_decide_eq_false_2 by done];
      destruct (isAncestorOf services sg (Group tg)); simpl; intuition congruence.
Qed.

(** A connection profile dragged over a target whose group is known
    is accepted exactly when the connection management service says that
    its configuration can be changed to that group. *)
Theorem profile_over_group (data : list element) (sp : ConnectionProfile)
    (targetElement : element) (tg : ConnectionGroup) :
  is_connection_element targetElement = true ->
  first_source data = Profile sp ->
  getTargetGroup targetElement = TGroup tg ->
  onDragOver services data targetElement
  = Returned (if canChangeConnectionConfig services sp (Some (group_id tg))
              then DRAG_OVER_ACCEPT_BUBBLE_DOWN true
              else DRAG_OVER_REJECT).
Proof.
  intros Htarget Hsource Hgroup. unfold onDragOver. rewrite Hsource.
  destruct targetElement as [tp|g| |]; try done; rewrite Hgroup; simpl;
    by destruct (canChangeConnectionConfig services sp (Some (group_id tg))).
Qed.

(** X17. [onDragOver] throws only in one case, a [TypeError]: a connection
    profile is dragged over a connection profile that has no parent
    group. *)
Theorem drag_over_throws_iff (data : list element) (targetElement : element) (error : jsval) :
  onDragOver services data targetElement = Threw error
  <-> error = TypeError
      /\ exists sp tp, first_source data = Profile sp
                       /\ targetElement = Profile tp
                       /\ profile_getParent tp = None.
Proof.
  unfold onDragOver. split.
  - destruct targetElement as [tp|tg| |]; try done; simpl.
    + destruct (first_source data) as [sp|sg| |] eqn:Hs; simpl; try done.
      * destruct (profile_getParent tp) eqn:Hp; simpl.
        -- by destruct (canChangeConnectionConfig _ _ _).
        -- intros [= <-]. split; [done|]. by exists sp, tp.
      * by destruct (_ && _).
    + destruct (first_source data) as [sp|sg| |]; simpl; try done.
      * by destruct (canChangeConnectionConfig _ _ _).
      * by destruct (_ && _).
  - intros (-> & sp & tp & Hs & -> & Hp). rewrite Hs. simpl. by rewrite Hp.
Qed.

(** X18. When nothing that is a connection profile or group is dragged (no
    source at all, or another object), every connection profile or group
    is accepted as a target. *)
Theorem no_connection_source_accepted (data : list element) (targetElement : element) :
  is_connection_element targetElement = true ->
  is_connection_element (first_source data) = false ->
  onDragOver services data targetElement = Returned (DRAG_OVER_ACCEPT_BUBBLE_DOWN true).
Proof.
  intros Htarget Hsource. unfold onDragOver.
  destruct targetElement; try done; by destruct (first_source data).
Qed.

(** X19. [drop] always ends the drag, keeps the calls made before, and adds
    at most one call; when it throws it adds none. *)
Theorem drop_frame (data : list element) (targetElement : element) (st : State) :
  isInDragAndDrop (snd (drop services data targetElement st)) = false
  /\ exists added,
       calls (snd (drop services data targetElement st)) = calls st ++ added
       /\ length added <= 1
       /\ (forall error, fst (drop services data targetElement st) = Threw error ->
             added = []).
Proof.
  assert (Hnone : forall (r : outcome unit) (st' : State),
            st' = mkState false (calls st) ->
            isInDragAndDrop st' = false
            /\ exists added, calls st' = calls st ++ added /\ length added <= 1
                             /\ (forall error, r = Threw error -> added = [])).
  { intros r st' ->. split; [done|]. exists []. rewrite app_nil_r.
    split; [done|]. split; [simpl; lia | done]. }
  assert (Hone : forall c,
            isInDragAndDrop (call c (mkState false (calls st))) = false
            /\ exists added, calls (call c (mkState false (calls st))) = calls st ++ added
                             /\ length added <= 1
                             /\ (forall error, @Returned unit tt = Threw error -> added = [])).
  { intros c. split; [done|]. exists [c]. split; [done|]. split; [simpl; lia | done]. }
  unfold drop.
  destruct (source_getParent (first_source data)) as [oldParent|]; [|by apply Hnone].
  destruct (isDropAllowed _ _ _ _); [|by apply Hnone].
  destruct (first_source data) as [sp|sg|o|]; cbn [fst snd].
  - destruct (target_id (getTargetGroup targetElement)) as [id|e|]; cbn [fst snd].
    + apply Hone.
    + by apply Hnone.
    + by apply Hnone.
  - apply Hone.
  - by apply Hnone.
  - by apply Hnone.
Qed.

(** X20. A connection profile dropped on a target whose group is known is
    moved to that group, by one call with the id of the group, whenever
    its own parent group does not equal the target group; the name and the
    id of the target play no part. *)
Theorem profile_dropped_is_moved (data : list element) (sp : ConnectionProfile)
    (targetElement : element) (tg : ConnectionGroup) (st : State) :
  first_source data = Profile sp ->
  getTargetGroup targetElement = TGroup tg ->
  (forall old, profile_getParent sp = Some old -> equals services old (TGroup tg) = false) ->
  drop services data targetElement st
  = (Returned tt,
     mkState false (calls st ++ [changeGroupIdForConnection sp (Some (group_id tg))])).
Proof.
  intros Hs Ht Hparent. unfold drop, isDropAllowed. rewrite Hs, Ht. simpl.
  destruct (profile_getParent sp) as [old|]; [by rewrite (Hparent old)|done].
Qed.

(** X21. A connection group dropped on a target is moved under the target
    group, by one call, whenever its parent group does not equal the target
    group, its name is not the name of the target group, and it is not the
    group of unsaved connections. *)
Theorem group_dropped_is_moved (data : list element) (sg : ConnectionGroup)
    (targetElement : element) (st : State) :
  first_source data = Group sg ->
  (forall old, group_getParent sg = Some old ->
               equals services old (getTargetGroup targetElement) = false) ->
  target_name (getTargetGroup targetElement) <> Some (group_name sg) ->
  group_id sg <> UNSAVED_GROUP_ID services ->
  drop services data targetElement st
  = (Returned tt,
     mkState false
       (calls st ++ [changeGroupIdForConnectionGroup sg (getTargetGroup targetElement)])).
Proof.
  intros Hs Hparent Hname Hid. unfold drop, isDropAllowed. rewrite Hs. simpl.
  assert (Hsame : match group_getParent sg with
                  | Some old => equals services old (getTargetGroup targetElement)
                  | None => false
                  end = false)
    by (destruct (group_getParent sg) as [old|]; [by apply Hparent | done]).
  rewrite Hsame.
  assert (Hunsaved : String.eqb (group_id sg) (UNSAVED_GROUP_ID services) = false)
    by (by apply String.eqb_neq).
  rewrite Hunsaved.
  destruct (getTargetGroup targetElement) as [tg|o|]; simpl in *;
    rewrite ?bool_decide_eq_false_2 by (by intros ?); done.
Qed.

End DragAndDropProperties.


Section DropAfterRejection.
Import ServerTree.
Variable services : Services.

(** X22. [drop] does not repeat the check of [onDragOver]: a group whose
    drag over one of its descendants is rejected is still moved under that
    descendant by [drop], when the descendant has another name and is not
    the parent of the group, and the group is not the group of unsaved
    connections. *)
Theorem drop_does_not_check_ancestry (data : list element) (sg tg : ConnectionGroup)
    (st : State) :
  first_source data = Group sg ->
  isAncestorOf services sg (Group tg) = true ->
  (forall old, group_getParent sg = Some old -> equals services old (TGroup tg) = false) ->
  group_name tg <> group_name sg ->
  group_id sg <> UNSAVED_GROUP_ID services ->
  onDragOver services data (Group tg) = Returned DRAG_OVER_REJECT
  /\ calls (snd (drop services data (Group tg) st))
     = calls st ++ [changeGroupIdForConnectionGroup sg (TGroup tg)].
Proof.
  intros Hs Hanc Hparent Hname Hid. split.
  - unfold onDragOver. rewrite Hs. simpl. rewrite Hanc.
    by destruct (bool_decide _).
  - unfold drop, isDropAllowed. rewrite Hs. simpl.
    assert (Hsame : match group_getParent sg with
                    | Some old => equals services old (TGroup tg)
                    | None => false
                    end = false)
      by (destruct (group_getParent sg) as [old|]; [by apply Hparent | done]).
    rewrite Hsame.
    rewrite bool_decide_eq_false_2 by (intros [= H]; by destruct Hname).
    assert (Hunsaved : String.eqb (group_id sg) (UNSAVED_GROUP_ID services) = false)
      by (by apply String.eqb_neq).
    by rewrite Hunsaved.
Qed.

End DropAfterRejection.

(** * Further properties of the card *)

Section CardProperties.
Import NotebookCard NotebookCardView.
Variables DEFAULT_VIEW_CARD_WIDTH DEFAULT_VIEW_CARD_HEIGHT : number.

Lemma field_or_stored field fallback c d n :
  data c = Returned (Some d) ->
  field d = Some n ->
  truthy_number (Some n) = true ->
  field_or field fallback c = Returned n.
Proof.
  intros Hdata Hfield Htruthy. unfold field_or. rewrite Hdata. simpl.
  by rewrite Hfield, Htruthy.
Qed.

(** X23. When the cell has an entry for the active view and the entry has a
    width (height) that is a number other than 0, the [width] ([height])
    getter gives that number and not the default. *)
Theorem stored_size_returned c d :
  data c = Returned (Some d) ->
  (forall n, view_width d = Some n -> truthy_number (Some n) = true ->
             width DEFAULT_VIEW_CARD_WIDTH c = Returned n)
  /\ (forall n, view_height d = Some n -> truthy_number (Some n) = true ->
                height DEFAULT_VIEW_CARD_HEIGHT c = Returned n).
Proof. intros Hdata. split; intros n; by apply field_or_stored. Qed.

Lemma find_view_throws activeView vs e :
  find_view activeView vs = Threw e <-> e = TypeError /\ activeView = None /\ vs <> [].
Proof.
  destruct activeView as [a|].
  - split; [|by intros (_ & ? & _)].
    intros Hthrow. exfalso. induction vs as [|v vs IH]; simpl in Hthrow; [done|].
    destruct (String.eqb _ _); [done | by apply IH].
  - destruct vs as [|v vs]; simpl; [by split; [|intros (_ & _ & ?)]|].
    split; [by intros [= <-] | by intros (-> & _ & _)].
Qed.

Lemma data_throws c e :
  data c = Threw e
  <-> e = TypeError
      /\ _activeView c = None
      /\ exists m v vs, _metadata c = Some m /\ views m = Some (v :: vs).
Proof.
  unfold data.
  destruct (_metadata c) as [m|]; [|by split; [|intros (_ & _ & ? & ? & ? & ? & _)]].
  destruct (views m) as [vs|] eqn:Hviews;
    [|split; [done | by intros (_ & _ & ? & ? & ? & [= <-] & ?); congruence]].
  rewrite find_view_throws. split.
  - intros (-> & Hnone & Hne). destruct vs as [|v vs]; [done|].
    split; [done|]. split; [done|]. by exists m, v, vs.
  - intros (-> & Hnone & m' & v & vs' & [= <-] & Hv).
    rewrite Hviews in Hv. injection Hv as ->. done.
Qed.

Lemma field_or_throws field fallback c e :
  field_or field fallback c = Threw e <-> data c = Threw e.
Proof.
  unfold field_or.
  destruct (data c) as [[d|]|e'|] eqn:Hdata; simpl;
    [| split; intros H; discriminate H
     | split; intros [= ->]; reflexivity
     | split; intros H; discriminate H].
  destruct (field d) as [n|] eqn:Hfield; simpl;
    [| split; intros H; discriminate H].
  destruct n as [|z]; [split; intros H; discriminate H|].
  destruct (negb _); split; intros H; discriminate H.
Qed.

(** X24. The [width] and [height] getters throw in one case only, a
    [TypeError]: there is no active view and the cell has at least one
    entry. With an active view, or without entries, they never throw. *)
Theorem size_getters_throw_iff c e :
  let no_active_view_but_entries :=
    e = TypeError
    /\ _activeView c = None
    /\ exists m v vs, _metadata c = Some m /\ views m = Some (v :: vs) in
  (width DEFAULT_VIEW_CARD_WIDTH c = Threw e <-> no_active_view_but_entries)
  /\ (height DEFAULT_VIEW_CARD_HEIGHT c = Threw e <-> no_active_view_but_entries).
Proof.
  cbv zeta. unfold width, height. rewrite !field_or_throws, !data_throws. done.
Qed.

Lemma find_view_first a vs d :
  find_view (Some a) vs = Returned (Some d)
  <-> exists before after,
        vs = before ++ d :: after
        /\ guid d = view_guid a
        /\ Forall (fun v => guid v <> view_guid a) before.
Proof.
  induction vs as [|v vs IH]; simpl.
  - split; [done|]. intros (before & after & Hvs & _). by destruct before.
  - destruct (String.eqb_spec (guid v) (view_guid a)) as [Heq|Hne].
    + split.
      * intros [= <-]. by exists [], vs.
      * intros (before & after & Hvs & Hd & Hbefore).
        destruct before as [|b before]; simpl in Hvs.
        -- by injection Hvs as <- _.
        -- injection Hvs as <- _. by inversion Hbefore.
    + rewrite IH. split.
      * intros (before & after & -> & Hd & Hbefore).
        exists (v :: before), after. repeat split; [done|]. by constructor.
      * intros (before & after & Hvs & Hd & Hbefore).
        destruct before as [|b before]; simpl in Hvs.
        -- injection Hvs as <- _. done.
        -- injection Hvs as <- ->. exists before, after.
           repeat split; [done|]. by inversion Hbefore.
Qed.

Lemma find_view_none a vs :
  find_view (Some a) vs = Returned None <-> Forall (fun v => guid v <> view_guid a) vs.
Proof.
  induction vs as [|v vs IH]; simpl; [by split|].
  destruct (String.eqb_spec (guid v) (view_guid a)) as [Heq|Hne].
  - split; [done|]. intros H. by inversion H.
  - rewrite IH. split; [by constructor | intros H; by inversion H].
Qed.

(** X25. With an active view, the entry that the getters read is the first
    entry of the cell whose guid is the guid of the active view, and there
    is none exactly when no entry has that guid. *)
Theorem data_is_first_entry_of_active_view c a m vs :
  _activeView c = Some a ->
  _metadata c = Some m ->
  views m = Some vs ->
  (forall d, data c = Returned (Some d)
             <-> exists before after,
                   vs = before ++ d :: after
                   /\ guid d = view_guid a
                   /\ Forall (fun v => guid v <> view_guid a) before)
  /\ (data c = Returned None <-> Forall (fun v => guid v <> view_guid a) vs).
Proof.
  intros Ha Hm Hvs. unfold data. rewrite Ha, Hm, Hvs.
  split; [intros d; apply find_view_first | apply find_view_none].
Qed.

Lemma find_entry_throws activeView vs e :
  find_entry activeView vs = Threw e -> activeView = None.
Proof.
  destruct activeView as [a|]; [|done].
  induction vs as [|v vs IH]; simpl; [done|].
  destruct (String.eqb _ _); [done | exact IH].
Qed.

Lemma find_entry_settles activeView vs : find_entry activeView vs <> Never.
Proof.
  induction vs as [|v vs IH]; simpl; [done|].
  destruct activeView as [a|]; [|done].
  destruct (String.eqb _ _); [done | exact IH].
Qed.

(** The entries seen through their sizes are what the size getters read. *)
Lemma sized_data c :
  data (sized c)
  = match entry_data c with
    | Returned d => Returned (option_map entry_meta d)
    | Threw e => Threw e
    | Never => Never
    end.
Proof.
  unfold data, entry_data, sized. simpl.
  destruct (card_metadata c) as [[vs|]|]; simpl; try done.
  induction vs as [|v vs IH]; simpl; [done|].
  destruct (card_activeView c) as [a|]; [|done].
  destruct (String.eqb _ _); [done | exact IH].
Qed.

(** X26. For a component with its cell, the [display] getter never throws,
    also where the size getters do, and a card is not displayed in one case
    only: the component has
    metadata and an active view, the cell is not awaiting input, and the
    entry of the active view is hidden. *)
Theorem display_never_throws c :
  (forall e, display c <> Threw e)
  /\ display c <> Never
  /\ (display c = Returned false
      <-> is_Some (card_metadata c)
          /\ is_Some (card_activeView c)
          /\ truthy_bool (awaitingInput c) = false
          /\ exists d, entry_data c = Returned (Some d) /\ hidden d = Some true).
Proof.
  unfold display, entry_data.
  destruct (card_metadata c) as [views|] eqn:Hm; simpl;
    [|split; [done|]; split; [done|]; split; [done | by intros ([? ?] & _)]].
  destruct (card_activeView c) as [a|] eqn:Ha; simpl;
    [|split; [done|]; split; [done|]; split; [done | by intros (_ & [? ?] & _)]].
  rewrite ?bool_decide_eq_true_2 by eauto. simpl.
  destruct (truthy_bool (awaitingInput c)); simpl;
    [split; [done|]; split; [done|]; split; [done | by intros (_ & _ & ? & _)]|].
  destruct views as [vs|].
  - pose proof (find_entry_settles (Some a) vs) as Hsettles.
    destruct (find_entry (Some a) vs) as [[d|]|e|] eqn:Hfind; simpl.
    + split; [done|]. split; [done|].
      destruct (hidden d) as [[|]|] eqn:Hh; simpl; split; try done.
      * intros _. repeat split; eauto.
      * by intros (_ & _ & _ & d' & [= <-] & ?); congruence.
      * by intros (_ & _ & _ & d' & [= <-] & ?); congruence.
    + split; [done|]. split; [done|]. split; [done|].
      by intros (_ & _ & _ & d' & ? & _).
    + by apply find_entry_throws in Hfind.
    + done.
  - simpl. split; [done|]. split; [done|]. split; [done|].
    by intros (_ & _ & _ & d' & ? & _).
Qed.

End CardProperties.

Section ExecutionStateProperties.
Import NotebookCardView.
Context {CellExecutionState : Type} `{EqDecision CellExecutionState}.

Lemma set_executionState_cases (state : CellExecutionState) (c : ExecutionCard) :
  executionState (set_executionState state c) = Some state
  /\ emitted (set_executionState state c)
     = emitted c ++ List.concat (repeat [DetectChanges; Emit "execution"]
                                   (changes (executionState c) [state])).
Proof.
  unfold set_executionState, executionState. simpl.
  destruct (decide (_executionState c = Some state)) as [Heq|Hne].
  - rewrite !bool_decide_eq_true_2 by done. simpl. by rewrite app_nil_r.
  - rewrite !bool_decide_eq_false_2 by done. simpl. by rewrite <- app_assoc.
Qed.

(** X27. Setting execution states one after the other leaves the last one
    as the state that the getter gives, and tells the outside only about
    real changes: for each state that differs from the one before it, one
    [detectChanges] and then one [execution] event, and nothing for a
    state that is set again. *)
Theorem execution_state_events (states : list CellExecutionState) : forall c : ExecutionCard,
  executionState (set_all states c) = from_option Some (executionState c) (last states)
  /\ emitted (set_all states c)
     = emitted c ++ List.concat (repeat [DetectChanges; Emit "execution"]
                                   (changes (executionState c) states)).
Proof.
  induction states as [|state states IH]; intros c.
  - simpl. by rewrite app_nil_r.
  - change (set_all (state :: states) c)
      with (set_all states (set_executionState state c)).
    destruct (IH (set_executionState state c)) as [Hget Hemit].
    destruct (set_executionState_cases state c) as [Hget1 Hemit1].
    rewrite Hget, Hemit, Hget1, Hemit1. split.
    + destruct states as [|s states]; [done|].
      rewrite last_cons_cons.
      destruct (last (s :: states)) eqn:Hlast; [done|].
      by apply last_None in Hlast.
    + cbn [changes]. rewrite Nat.add_0_r, <- app_assoc, <- concat_app, <- repeat_app.
      done.
Qed.

End ExecutionStateProperties.

(** * Further worked cases *)

Section FurtherWorkedCases.
Import NetCore NetCoreCommand Samples MoreSamples.

Lemma gate_passes_iff_witness :
  let w := fresh linux_host ∅ in
  is_true (getConfiguration w NetCoreDoNotAskAgainKey) = false
  /\ fst (findOrInstallNetCore linux_host sample_constants (version_run "3.1.100" 0%Z) None w)
     = Returned true.
Proof.
  assert (H : is_true (getConfiguration (fresh linux_host ∅) NetCoreDoNotAskAgainKey) = false)
    by reflexivity.
  destruct (gate_passes_iff linux_host sample_constants (version_run "3.1.100" 0%Z) None
              (fresh linux_host ∅) H) as [[_ Hpass] _].
  split; [exact H|]. apply Hpass. split; reflexivity.
Defined.

Lemma suppress_then_pass_witness :
  let button := DoNotAskAgain sample_constants in
  let w1 := snd (findOrInstallNetCore bare_host sample_constants [] (Some button)
                   (fresh bare_host ∅)) in
  let w2 := fresh bare_host (configuration w1) in
  button <> UpdateNetCoreLocation sample_constants
  /\ button <> InstallNetCore sample_constants
  /\ fst (findOrInstallNetCore bare_host sample_constants [] (Some button) (fresh bare_host ∅))
     = Returned false
  /\ configuration w2 = configuration w1
  /\ is_true (getConfiguration w1 NetCoreDoNotAskAgainKey) = true
  /\ fst (findOrInstallNetCore bare_host sample_constants [] None w2) <> Returned false
  /\ shown_messages (effects (snd (findOrInstallNetCore bare_host sample_constants [] None w2)))
     = shown_messages (effects w2).
Proof.
  assert (H1 : DoNotAskAgain sample_constants <> UpdateNetCoreLocation sample_constants)
    by discriminate.
  assert (H2 : DoNotAskAgain sample_constants <> InstallNetCore sample_constants)
    by discriminate.
  assert (H3 : fst (findOrInstallNetCore bare_host sample_constants []
                      (Some (DoNotAskAgain sample_constants)) (fresh bare_host ∅))
               = Returned false) by reflexivity.
  assert (H4 : configuration
                 (fresh bare_host
                    (configuration
                       (snd (findOrInstallNetCore bare_host sample_constants []
                               (Some (DoNotAskAgain sample_constants)) (fresh bare_host ∅)))))
               = configuration
                   (snd (findOrInstallNetCore bare_host sample_constants []
                           (Some (DoNotAskAgain sample_constants)) (fresh bare_host ∅))))
    by reflexivity.
  exact (conj H1 (conj H2 (conj H3 (conj H4
           (suppress_then_pass bare_host sample_constants [] (fresh bare_host ∅) [] None
              _ H1 H2 H3 H4))))).
Defined.

Lemma linux_join_nonempty a b : path_join linux_host a b <> "".
Proof. destruct a; discriminate. Qed.

Lemma unix_discovery_witness :
  let w := fresh linux_host ∅ in
  (forall a b, path_join linux_host a b <> "")
  /\ (osPlatform (tool w) = macPlatform \/ osPlatform (tool w) = linuxPlatform)
  /\ defaultLocalInstallLocationByDistribution linux_host w
     = first_joined_folder linux_host "dotnet"
         [NextCoreNonWindowsDefaultPath; os_homedir linux_host].
Proof.
  assert (H : osPlatform (tool (fresh linux_host ∅)) = macPlatform
              \/ osPlatform (tool (fresh linux_host ∅)) = linuxPlatform)
    by (right; reflexivity).
  exact (conj linux_join_nonempty
           (conj H (unix_discovery linux_host (fresh linux_host ∅) linux_join_nonempty H))).
Defined.

Lemma unknown_platform_has_no_default_witness :
  let w := fresh freebsd_host ∅ in
  osPlatform (tool w) <> winPlatform
  /\ osPlatform (tool w) <> macPlatform
  /\ osPlatform (tool w) <> linuxPlatform
  /\ defaultLocalInstallLocationByDistribution freebsd_host w = None
  /\ (truthy (getConfiguration w NetCoreInstallLocationKey) = false ->
      netcoreInstallLocation freebsd_host w = JUndefined
      /\ installation_present freebsd_host w = false).
Proof.
  assert (H1 : osPlatform (tool (fresh freebsd_host ∅)) <> winPlatform) by discriminate.
  assert (H2 : osPlatform (tool (fresh freebsd_host ∅)) <> macPlatform) by discriminate.
  assert (H3 : osPlatform (tool (fresh freebsd_host ∅)) <> linuxPlatform) by discriminate.
  exact (conj H1 (conj H2 (conj H3
           (unknown_platform_has_no_default freebsd_host (fresh freebsd_host ∅) H1 H2 H3)))).
Defined.

Lemma default_location_is_present_witness :
  let w := fresh linux_host ∅ in
  truthy (getConfiguration w NetCoreInstallLocationKey) = false
  /\ installation_present linux_host w = true.
Proof.
  assert (H : truthy (getConfiguration (fresh linux_host ∅) NetCoreInstallLocationKey) = false)
    by reflexivity.
  destruct (default_location_is_present linux_host (fresh linux_host ∅) H) as [_ [_ Hpresent]].
  split; [exact H|]. apply Hpresent. eexists. reflexivity.
Defined.

Lemma refused_command_throws_witness :
  let w := fresh bare_host ∅ in
  let run := runDotnetCommand bare_host sample_constants sample_utils (Some build_options)
               [] None [] (Resolved tt) w in
  fst (findOrInstallNetCore bare_host sample_constants [] None
         (announce (Some build_options) w)) = Returned false
  /\ run_outcome run = Threw (Error_of "The .NET Core SDK cannot be located.")
  /\ spawned_commands (effects (run_world run)) = [].
Proof.
  assert (H : fst (findOrInstallNetCore bare_host sample_constants [] None
                     (announce (Some build_options) (fresh bare_host ∅))) = Returned false)
    by reflexivity.
  destruct (refused_command_throws bare_host sample_constants sample_utils
              (Some build_options) [] None [] (Resolved tt) (fresh bare_host ∅) H)
    as (_ & _ & Hspawned & Houtcome).
  split; [exact H|]. split; [exact Houtcome | exact Hspawned].
Defined.

Lemma passed_command_runs_witness :
  let w := fresh linux_host ∅ in
  let events := [Data Stdout "ok"; Exit (Some 0%Z) None] in
  let run := runDotnetCommand linux_host sample_constants sample_utils (Some build_options)
               (version_run "3.1.100" 0%Z) None events (Resolved tt) w in
  fst (findOrInstallNetCore linux_host sample_constants (version_run "3.1.100" 0%Z) None
         (announce (Some build_options) w)) = Returned true
  /\ netcoreInstallLocation linux_host w = JString "/usr/local/share/dotnet"
  /\ spawned_commands (effects (run_world run))
     = ["dotnet --version"; quote +:+ "/usr/local/share/dotnet/dotnet" +:+ quote +:+ " build"]
  /\ run_outcome run = Returned "ok".
Proof.
  assert (H1 : fst (findOrInstallNetCore linux_host sample_constants
                      (version_run "3.1.100" 0%Z) None
                      (announce (Some build_options) (fresh linux_host ∅))) = Returned true)
    by reflexivity.
  assert (H2 : netcoreInstallLocation linux_host (fresh linux_host ∅)
               = JString "/usr/local/share/dotnet") by reflexivity.
  destruct (passed_command_runs linux_host sample_constants sample_utils build_options
              (version_run "3.1.100" 0%Z) None [Data Stdout "ok"; Exit (Some 0%Z) None]
              (Resolved tt) (fresh linux_host ∅) _ H1 H2) as (Hspawned & Houtcome & _).
  split; [exact H1|]. split; [exact H2|]. split; [exact Hspawned | exact Houtcome].
Defined.

Lemma unguarded_command_without_location_witness :
  let w := fresh bare_host do_not_ask in
  let run := runDotnetCommand bare_host sample_constants sample_utils (Some build_options)
               [] None [] (Resolved tt) w in
  is_true (getConfiguration w NetCoreDoNotAskAgainKey) = true
  /\ (forall folder, netcoreInstallLocation bare_host w <> JString folder)
  /\ run_outcome run = Threw NetCoreCommand.TypeError
  /\ errored_out run = None
  /\ spawned_commands (effects (run_world run)) = spawned_commands (effects w).
Proof.
  assert (H1 : is_true (getConfiguration (fresh bare_host do_not_ask) NetCoreDoNotAskAgainKey)
               = true) by reflexivity.
  assert (H2 : forall folder,
            netcoreInstallLocation bare_host (fresh bare_host do_not_ask) <> JString folder)
    by (intros folder; discriminate).
  exact (conj H1 (conj H2
           (unguarded_command_without_location bare_host sample_constants sample_utils
              (Some build_options) [] None [] (Resolved tt) (fresh bare_host do_not_ask)
              H1 H2))).
Defined.

Lemma group_over_itself_or_descendant_witness :
  let data := [ServerTree.Group production] in
  ServerTree.is_connection_element (ServerTree.Group archive) = true
  /\ ServerTree.first_source data = ServerTree.Group production
  /\ ServerTree.onDragOver tree_services data (ServerTree.Group archive)
     = Returned ServerTree.DRAG_OVER_REJECT
  /\ ServerTree.onDragOver tree_services data (ServerTree.Group staging)
     = Returned (ServerTree.DRAG_OVER_ACCEPT_BUBBLE_DOWN true).
Proof.
  assert (H1 : ServerTree.is_connection_element (ServerTree.Group archive) = true)
    by reflexivity.
  assert (H1' : ServerTree.is_connection_element (ServerTree.Group staging) = true)
    by reflexivity.
  assert (H2 : ServerTree.first_source [ServerTree.Group production]
               = ServerTree.Group production) by reflexivity.
  destruct (group_over_itself_or_descendant tree_services [ServerTree.Group production]
              production (ServerTree.Group archive) H1 H2) as [[_ Hreject] _].
  destruct (group_over_itself_or_descendant tree_services [ServerTree.Group production]
              production (ServerTree.Group staging) H1' H2) as [_ [_ Haccept]].
  split; [exact H1|]. split; [exact H2|]. split.
  - apply Hreject. right. reflexivity.
  - apply Haccept. split; [discriminate | reflexivity].
Defined.

Lemma profile_over_group_witness :
  let data := [ServerTree.Profile server1] in
  ServerTree.is_connection_element (ServerTree.Group staging) = true
  /\ ServerTree.first_source data = ServerTree.Profile server1
  /\ ServerTree.getTargetGroup (ServerTree.Group staging) = ServerTree.TGroup staging
  /\ ServerTree.onDragOver tree_services data (ServerTree.Group staging)
     = Returned (ServerTree.DRAG_OVER_ACCEPT_BUBBLE_DOWN true).
Proof.
  assert (H1 : ServerTree.is_connection_element (ServerTree.Group staging) = true)
    by reflexivity.
  assert (H2 : ServerTree.first_source [ServerTree.Profile server1]
               = ServerTree.Profile server1) by reflexivity.
  assert (H3 : ServerTree.getTargetGroup (ServerTree.Group staging)
               = ServerTree.TGroup staging) by reflexivity.
  exact (conj H1 (conj H2 (conj H3
           (profile_over_group tree_services [ServerTree.Profile server1] server1
              (ServerTree.Group staging) staging H1 H2 H3)))).
Defined.

Lemma no_connection_source_accepted_witness :
  ServerTree.is_connection_element (ServerTree.Group staging) = true
  /\ ServerTree.is_connection_element (ServerTree.first_source []) = false
  /\ ServerTree.onDragOver tree_services [] (ServerTree.Group staging)
     = Returned (ServerTree.DRAG_OVER_ACCEPT_BUBBLE_DOWN true).
Proof.
  assert (H1 : ServerTree.is_connection_element (ServerTree.Group staging) = true)
    by reflexivity.
  assert (H2 : ServerTree.is_connection_element (ServerTree.first_source []) = false)
    by reflexivity.
  exact (conj H1 (conj H2
           (no_connection_source_accepted tree_services [] (ServerTree.Group staging) H1 H2))).
Defined.

Lemma profile_dropped_is_moved_witness :
  let data := [ServerTree.Profile server1] in
  ServerTree.first_source data = ServerTree.Profile server1
  /\ ServerTree.getTargetGroup (ServerTree.Group staging) = ServerTree.TGroup staging
  /\ (forall old, ServerTree.profile_getParent server1 = Some old ->
                  ServerTree.equals sample_services old (ServerTree.TGroup staging) = false)
  /\ ServerTree.drop sample_services data (ServerTree.Group staging) no_calls
     = (Returned tt,
        ServerTree.mkState false [ServerTree.changeGroupIdForConnection server1 (Some "g2")]).
Proof.
  assert (H1 : ServerTree.first_source [ServerTree.Profile server1]
               = ServerTree.Profile server1) by reflexivity.
  assert (H2 : ServerTree.getTargetGroup (ServerTree.Group staging)
               = ServerTree.TGroup staging) by reflexivity.
  assert (H3 : forall old, ServerTree.profile_getParent server1 = Some old ->
                 ServerTree.equals sample_services old (ServerTree.TGroup staging) = false)
    by (intros old [= <-]; reflexivity).
  exact (conj H1 (conj H2 (conj H3
           (profile_dropped_is_moved sample_services [ServerTree.Profile server1] server1
              (ServerTree.Group staging) staging no_calls H1 H2 H3)))).
Defined.

Lemma group_dropped_is_moved_witness :
  let data := [ServerTree.Group archive] in
  let target := ServerTree.Group staging in
  ServerTree.first_source data = ServerTree.Group archive
  /\ (forall old, ServerTree.group_getParent archive = Some old ->
                  ServerTree.equals sample_services old (ServerTree.getTargetGroup target)
                  = false)
  /\ ServerTree.target_name (ServerTree.getTargetGroup target)
     <> Some (ServerTree.group_name archive)
  /\ ServerTree.group_id archive <> ServerTree.UNSAVED_GROUP_ID sample_services
  /\ ServerTree.drop sample_services data target no_calls
     = (Returned tt,
        ServerTree.mkState false
          [ServerTree.changeGroupIdForConnectionGroup archive (ServerTree.TGroup staging)]).
Proof.
  assert (H1 : ServerTree.first_source [ServerTree.Group archive] = ServerTree.Group archive)
    by reflexivity.
  assert (H2 : forall old, ServerTree.group_getParent archive = Some old ->
                 ServerTree.equals sample_services old
                   (ServerTree.getTargetGroup (ServerTree.Group staging)) = false)
    by (intros old [= <-]; reflexivity).
  assert (H3 : ServerTree.target_name (ServerTree.getTargetGroup (ServerTree.Group staging))
               <> Some (ServerTree.group_name archive)) by discriminate.
  assert (H4 : ServerTree.group_id archive <> ServerTree.UNSAVED_GROUP_ID sample_services)
    by discriminate.
  exact (conj H1 (conj H2 (conj H3 (conj H4
           (group_dropped_is_moved sample_services [ServerTree.Group archive] archive
              (ServerTree.Group staging) no_calls H1 H2 H3 H4))))).
Defined.

Lemma drop_does_not_check_ancestry_witness :
  let data := [ServerTree.Group production] in
  ServerTree.first_source data = ServerTree.Group production
  /\ ServerTree.isAncestorOf tree_services production (ServerTree.Group archive) = true
  /\ (forall old, ServerTree.group_getParent production = Some old ->
                  ServerTree.equals tree_services old (ServerTree.TGroup archive) = false)
  /\ ServerTree.group_name archive <> ServerTree.group_name production
  /\ ServerTree.group_id production <> ServerTree.UNSAVED_GROUP_ID tree_services
  /\ ServerTree.onDragOver tree_services data (ServerTree.Group archive)
     = Returned ServerTree.DRAG_OVER_REJECT
  /\ ServerTree.calls (snd (ServerTree.drop tree_services data (ServerTree.Group archive)
                              no_calls))
     = [ServerTree.changeGroupIdForConnectionGroup production (ServerTree.TGroup archive)].
Proof.
  assert (H1 : ServerTree.first_source [ServerTree.Group production]
               = ServerTree.Group production) by reflexivity.
  assert (H2 : ServerTree.isAncestorOf tree_services production (ServerTree.Group archive)
               = true) by reflexivity.
  assert (H3 : forall old, ServerTree.group_getParent production = Some old ->
                 ServerTree.equals tree_services old (ServerTree.TGroup archive) = false)
    by (intros old [= <-]; reflexivity).
  assert (H4 : ServerTree.group_name archive <> ServerTree.group_name production)
    by discriminate.
  assert (H5 : ServerTree.group_id production <> ServerTree.UNSAVED_GROUP_ID tree_services)
    by discriminate.
  exact (conj H1 (conj H2 (conj H3 (conj H4 (conj H5
           (drop_does_not_check_ancestry tree_services [ServerTree.Group production]
              production archive no_calls H1 H2 H3 H4 H5)))))).
Defined.

Lemma stored_size_returned_witness :
  NotebookCard.data wide_card = Returned (Some wide_entry)
  /\ NotebookCard.width (NotebookCard.Num 12) wide_card = Returned (NotebookCard.Num 6)
  /\ NotebookCard.height (NotebookCard.Num 4) wide_card = Returned (NotebookCard.Num 2).
Proof.
  assert (H : NotebookCard.data wide_card = Returned (Some wide_entry)) by reflexivity.
  destruct (stored_size_returned (NotebookCard.Num 12) (NotebookCard.Num 4) wide_card
              wide_entry H) as [Hwidth Hheight].
  split; [exact H|]. split.
  - apply Hwidth; reflexivity.
  - apply Hheight; reflexivity.
Defined.

Lemma data_is_first_entry_of_active_view_witness :
  let entries := [other_entry; wide_entry; second_entry] in
  NotebookCard._activeView wide_card = Some (NotebookCard.mkView "view-1")
  /\ NotebookCard._metadata wide_card = Some (NotebookCard.mkCellMetadata (Some entries))
  /\ NotebookCard.views (NotebookCard.mkCellMetadata (Some entries)) = Some entries
  /\ (exists before after,
        entries = before ++ wide_entry :: after
        /\ NotebookCard.guid wide_entry = "view-1"
        /\ Forall (fun v => NotebookCard.guid v <> "view-1") before).
Proof.
  assert (H1 : NotebookCard._activeView wide_card = Some (NotebookCard.mkView "view-1"))
    by reflexivity.
  assert (H2 : NotebookCard._metadata wide_card
               = Some (NotebookCard.mkCellMetadata
                         (Some [other_entry; wide_entry; second_entry]))) by reflexivity.
  assert (H3 : NotebookCard.views (NotebookCard.mkCellMetadata
                                     (Some [other_entry; wide_entry; second_entry]))
               = Some [other_entry; wide_entry; second_entry]) by reflexivity.
  destruct (data_is_first_entry_of_active_view wide_card _ _ _ H1 H2 H3) as [Hfirst _].
  split; [exact H1|]. split; [exact H2|]. split; [exact H3|].
  apply (Hfirst wide_entry). reflexivity.
Defined.

End FurtherWorkedCases.
